(** * Time tracking: geofence, biometric gate, session resolution, offsets

    A shallow embedding of the time-tracking screen ([TimeTracking], file
    [src/unnamed/part_004]) and of the biometric hook ([useBiometricAuth],
    file [src/unnamed/part_000]) of the attendance client, with the
    properties its specification states about them.

    Conventions of the model.
    - A React function component closes over the state of the render that
      created it: a handler reads that snapshot (called [scope] below) and
      changes state only by calling setters.  Handlers are therefore
      functions of a [State] snapshot that issue [setState] commands.
    - Everything a handler asks of its surroundings (storage, network,
      biometric prompt, clock, toasts, router, console) is a command of
      [Cmd]; a handler is a finite tree of commands ([Prog]).  [run]
      executes a tree against an environment that answers every command,
      and records the commands with their answers.  The environment may
      answer the same command differently at different points of a run.
    - [try]/[catch] is explicit: a call that may reject answers with an
      [Outcome].
    - JavaScript numbers that the handlers only compare or pass along are
      modelled by their exact rational value ([Q]); the value of
      [Math.round] is an integer ([Z]).  [NaN] and the infinities are
      outside the model. *)

From Stdlib Require Import ZArith QArith Bool List String Ascii Lia Permutation.
From Stdlib Require Import DecimalString.
Import ListNotations.

Local Open Scope string_scope.
Local Open Scope Z_scope.

(** ** JavaScript helpers *)

Module Js.

(** Truthiness of a string: every string but the empty one. *)
Definition truthy (s : string) : bool :=
  match s with
  | EmptyString => false
  | String _ _ => true
  end.

(** Truthiness of an optional string ([undefined], [null] or a string). *)
Definition truthyOpt (o : option string) : bool :=
  match o with
  | Some s => truthy s
  | None => false
  end.

(** Truthiness of an optional finite number: [null] and [0] are falsy. *)
Definition truthyNum (o : option Q) : bool :=
  match o with
  | Some q => negb (Qeq_bool q 0)
  | None => false
  end.

(** [a || b] on strings where [a] may be absent. *)
Definition orElse (a : option string) (b : string) : string :=
  match a with
  | Some s => if truthy s then s else b
  | None => b
  end.

(** [x < y] on finite numbers. *)
Definition ltb (x y : Q) : bool := negb (Qle_bool y x).

(** [String.prototype.startsWith]. *)
Fixpoint startsWith (needle hay : string) : bool :=
  match needle, hay with
  | EmptyString, _ => true
  | String a n, String b h => Ascii.eqb a b && startsWith n h
  | String _ _, EmptyString => false
  end.

(** [String.prototype.includes]: [hay.includes(needle)]. *)
Fixpoint includes (needle hay : string) : bool :=
  startsWith needle hay ||
  match hay with
  | EmptyString => false
  | String _ h => includes needle h
  end.

(** [Array.prototype.includes] on strings. *)
Definition includesStr (x : string) (l : list string) : bool :=
  existsb (String.eqb x) l.

(** The text a template literal gives an integral number. *)
Definition numberToString (z : Z) : string :=
  NilZero.string_of_int (Z.to_int z).

(** The text a template literal gives a [number | null]. *)
Definition template (d : option Z) : string :=
  match d with
  | Some z => numberToString z
  | None => "null"
  end.

Definition isDigit (c : ascii) : bool :=
  let n := nat_of_ascii c in (48 <=? n)%nat && (n <=? 57)%nat.

(** One step of a pattern made of digit classes and literal characters:
    [None] stands for the class [[0-9]], [Some c] for the character [c]. *)
Fixpoint matchesPattern (pat : list (option ascii)) (s : string) : bool :=
  match pat, s with
  | [], EmptyString => true
  | None :: p, String c t => isDigit c && matchesPattern p t
  | Some a :: p, String c t => Ascii.eqb a c && matchesPattern p t
  | _, _ => false
  end.

(** [/^[0-9]{4}-[0-9]{2}-[0-9]{2}$/.test(s)]. *)
Definition isYMD (s : string) : bool :=
  let d := @None ascii in
  let h := Some "-"%char in
  matchesPattern [d; d; d; d; h; d; d; h; d; d] s.

(** [String(n).padStart(2, '0')] for an integral [n]. *)
Definition pad2 (n : Z) : string :=
  let s := numberToString n in
  if (String.length s <? 2)%nat then "0" ++ s else s.

(** [[...new Set(l)]]: the first occurrence of every string, in order. *)
Fixpoint dedupe (seen l : list string) : list string :=
  match l with
  | [] => []
  | x :: t => if includesStr x seen then dedupe seen t else x :: dedupe (x :: seen) t
  end.

End Js.

(** ** Data *)

Inductive Session : Type := AM | PM.

Definition Session_eqb (a b : Session) : bool :=
  match a, b with
  | AM, AM | PM, PM => true
  | _, _ => false
  end.

(** Truthiness of an object that may be [undefined] or [null]. *)
Definition isSome {A : Type} (o : option A) : bool :=
  match o with Some _ => true | None => false end.

(** [interface TimeRecord]; the timestamps are the strings the server sent. *)
Module TimeRecord.
Record t : Type := mk {
  _id : string;
  date : string;
  timeIn : option string;
  timeOut : option string;
  amTimeIn : option string;
  amTimeOut : option string;
  pmTimeIn : option string;
  pmTimeOut : option string;
  undertime : option Q;
  makeup : option Q;
  makeupDate : option string;
  totalHours : Q
}.
End TimeRecord.

(** [interface OfficeLocation]; [coordinates] is [(longitude, latitude)],
    the order of the wire format. *)
Module OfficeLocation.
Record t : Type := mk {
  _id : string;
  name : string;
  coordinates : Q * Q;
  radius : Q;
  address : string
}.
End OfficeLocation.

(** [Location.LocationObject], reduced to the coordinates the screen reads. *)
Record LocationObject : Type := {
  latitude : Q;
  longitude : Q;
  accuracy : option Q
}.

(** [interface BiometricStatus] of the hook. *)
Record BiometricStatus : Type := {
  available : bool;
  enrolled : bool;
  enabled : bool
}.

(** The state cells of [TimeTracking] ([useState], lines 66-88), with the
    [biometricStatus] cell of [useBiometricAuth]. *)
Record State : Type := mkState {
  loading : bool;
  refreshing : bool;
  locationPermission : bool;
  currentLocation : option LocationObject;
  officeLocation : option OfficeLocation.t;
  timeRecords : list TimeRecord.t;
  activeSession : Session;
  activeTimeRecord : option TimeRecord.t;
  isWithinRange : bool;
  distance : option Z;
  rawTimeRecords : option (list TimeRecord.t);
  showOffsetModal : bool;
  selectedRecord : option TimeRecord.t;
  undertime : Q;
  makeup : Q;
  makeupDate : string;
  undertimeDate : string;
  availableDates : list string;
  biometricStatus : BiometricStatus
}.

(** The initial values given to [useState]. *)
Definition initialState : State :=
  {| loading := true;
     refreshing := false;
     locationPermission := false;
     currentLocation := None;
     officeLocation := None;
     timeRecords := [];
     activeSession := AM;
     activeTimeRecord := None;
     isWithinRange := false;
     distance := None;
     rawTimeRecords := None;
     showOffsetModal := false;
     selectedRecord := None;
     undertime := 0%Q;
     makeup := 0%Q;
     makeupDate := "";
     undertimeDate := "";
     availableDates := [];
     biometricStatus := {| available := false; enrolled := false; enabled := false |} |}.

(** A setter call. *)
Inductive Update : Type :=
| SetLoading (v : bool)
| SetRefreshing (v : bool)
| SetLocationPermission (v : bool)
| SetCurrentLocation (v : option LocationObject)
| SetOfficeLocation (v : option OfficeLocation.t)
| SetTimeRecords (v : list TimeRecord.t)
| SetActiveSession (v : Session)
| SetActiveTimeRecord (v : option TimeRecord.t)
| SetIsWithinRange (v : bool)
| SetDistance (v : option Z)
| SetRawTimeRecords (v : option (list TimeRecord.t))
| SetShowOffsetModal (v : bool)
| SetSelectedRecord (v : option TimeRecord.t)
| SetUndertime (v : Q)
| SetMakeup (v : Q)
| SetMakeupDate (v : string)
| SetUndertimeDate (v : string)
| SetAvailableDates (v : list string).

(** The state after a setter call. *)
Definition applyUpdate (u : Update) (s : State) : State :=
  let '(mkState a b c d e f g h i j k l m n o p q r w) := s in
  match u with
  | SetLoading v => mkState v b c d e f g h i j k l m n o p q r w
  | SetRefreshing v => mkState a v c d e f g h i j k l m n o p q r w
  | SetLocationPermission v => mkState a b v d e f g h i j k l m n o p q r w
  | SetCurrentLocation v => mkState a b c v e f g h i j k l m n o p q r w
  | SetOfficeLocation v => mkState a b c d v f g h i j k l m n o p q r w
  | SetTimeRecords v => mkState a b c d e v g h i j k l m n o p q r w
  | SetActiveSession v => mkState a b c d e f v h i j k l m n o p q r w
  | SetActiveTimeRecord v => mkState a b c d e f g v i j k l m n o p q r w
  | SetIsWithinRange v => mkState a b c d e f g h v j k l m n o p q r w
  | SetDistance v => mkState a b c d e f g h i v k l m n o p q r w
  | SetRawTimeRecords v => mkState a b c d e f g h i j v l m n o p q r w
  | SetShowOffsetModal v => mkState a b c d e f g h i j k v m n o p q r w
  | SetSelectedRecord v => mkState a b c d e f g h i j k l v n o p q r w
  | SetUndertime v => mkState a b c d e f g h i j k l m v o p q r w
  | SetMakeup v => mkState a b c d e f g h i j k l m n v p q r w
  | SetMakeupDate v => mkState a b c d e f g h i j k l m n o v q r w
  | SetUndertimeDate v => mkState a b c d e f g h i j k l m n o p v r w
  | SetAvailableDates v => mkState a b c d e f g h i j k l m n o p q v w
  end.

(** The snapshot a render would close over had the hook reported [b]. *)
Definition withBiometricStatus (b : BiometricStatus) (s : State) : State :=
  let '(mkState a0 b0 c d e f g h i j k l m n o p q r _) := s in
  mkState a0 b0 c d e f g h i j k l m n o p q r b.

(** The status with the user's preference replaced. *)
Definition withEnabled (v : bool) (b : BiometricStatus) : BiometricStatus :=
  {| available := available b; enrolled := enrolled b; enabled := v |}.

(** ** Commands, programs and runs *)

(** What [catch] receives; [responseError] is
    [error.response?.data?.error] when the server sent one. *)
Record JsError : Type := { responseError : option string }.

Inductive Outcome (A : Type) : Type :=
| Resolved (a : A)
| Rejected (e : JsError).
Arguments Resolved {A} a.
Arguments Rejected {A} e.

Inductive ToastKind : Type := success | error | warning.

(** The options handed to [LocalAuthentication.authenticateAsync]. *)
Record AuthOptions : Type := {
  promptMessage : string;
  fallbackLabel : string;
  disableDeviceFallback : bool
}.

Inductive Accuracy : Type := High | Balanced.

(** The JSON body of a POST. *)
Inductive Body : Type :=
| TimeBody (coordinates : Q * Q) (session : Session) (biometricAuthenticated : bool)
| OffsetBody (undertimeDate : string) (undertime makeup : Q) (makeupDate : option string).

(** The commands of the screen and the type of their answers.
    [axios_post] answers with [response.data.message], [newDate] with the
    time value of [new Date()], [getCurrentPositionAsync] carries the
    timeout it is raced against. *)
Inductive Cmd : Type -> Type :=
| AsyncStorage_getItem (key : string) : Cmd (Outcome (option string))
| axios_get_office (url authorization : string) : Cmd (Outcome OfficeLocation.t)
| axios_get_records (url authorization : string) : Cmd (Outcome (list TimeRecord.t))
| axios_post (url : string) (body : Body) (authorization : string) : Cmd (Outcome string)
| authenticateAsync (opts : AuthOptions) : Cmd (Outcome bool)
| getCurrentPositionAsync (acc : Accuracy) (timeoutMs : option Z) : Cmd (Outcome LocationObject)
| newDate : Cmd Z
| showToast (message : string) (kind : ToastKind) : Cmd unit
| setState (u : Update) : Cmd unit
| router_replace (path : string) : Cmd unit
| console_log (message : string) : Cmd unit.

(** A handler: a finite tree of commands. *)
Inductive Prog (A : Type) : Type :=
| Ret (a : A)
| Vis {R : Type} (c : Cmd R) (k : R -> Prog A).
Arguments Ret {A} a.
Arguments Vis {A R} c k.

Fixpoint bind {A B : Type} (p : Prog A) (f : A -> Prog B) : Prog B :=
  match p with
  | Ret a => f a
  | Vis c k => Vis c (fun r => bind (k r) f)
  end.

Definition call {R : Type} (c : Cmd R) : Prog R := Vis c Ret.

Declare Scope prog_scope.
Delimit Scope prog_scope with prog.
Notation "x <- p ;; q" := (bind p (fun x => q))
  (at level 61, p at next level, right associativity) : prog_scope.
Notation "p ;; q" := (bind p (fun _ => q))
  (at level 61, right associativity) : prog_scope.
Local Open Scope prog_scope.

(** A command with the answer it got. *)
Inductive Event : Type :=
| Ev {R : Type} (c : Cmd R) (r : R).

(** An environment answers a command knowing how many commands came
    before it in the run. *)
Definition Env : Type := forall R : Type, Cmd R -> nat -> R.

(** The only command that changes the component's state is a setter. *)
Definition effect {R : Type} (c : Cmd R) (st : State) : State :=
  match c with
  | setState u => applyUpdate u st
  | _ => st
  end.

(** [run env p tr st]: the result of [p], the events so far followed by
    those of [p], and the state after [p]'s setters. *)
Fixpoint run {A : Type} (env : Env) (p : Prog A) (tr : list Event) (st : State)
  : A * list Event * State :=
  match p with
  | Ret a => (a, tr, st)
  | Vis c k =>
      let r := env _ c (List.length tr) in
      run env (k r) (tr ++ [Ev c r]) (effect c st)
  end.

Definition exec {A : Type} (env : Env) (p : Prog A) (st : State) : A * list Event * State :=
  run env p [] st.

Definition resultOf {A : Type} (x : A * list Event * State) : A := fst (fst x).
Definition traceOf {A : Type} (x : A * list Event * State) : list Event := snd (fst x).
Definition stateOf {A : Type} (x : A * list Event * State) : State := snd x.
Arguments resultOf {A} !x /.
Arguments traceOf {A} !x /.
Arguments stateOf {A} !x /.

(** *** Observations on a trace *)

Definition isNetwork (e : Event) : bool :=
  match e with
  | Ev c _ =>
      match c with
      | axios_get_office _ _ | axios_get_records _ _ | axios_post _ _ _ => true
      | _ => false
      end
  end.

Definition isBiometric (e : Event) : bool :=
  match e with
  | Ev c _ => match c with authenticateAsync _ => true | _ => false end
  end.

Definition isSetter (e : Event) : bool :=
  match e with
  | Ev c _ => match c with setState _ => true | _ => false end
  end.

(** The toasts shown, in order. *)
Fixpoint toasts (tr : list Event) : list (string * ToastKind) :=
  match tr with
  | [] => []
  | Ev c _ :: t =>
      match c with
      | showToast m k => (m, k) :: toasts t
      | _ => toasts t
      end
  end.

(** The POST requests issued, in order. *)
Fixpoint posts (tr : list Event) : list (string * Body * string) :=
  match tr with
  | [] => []
  | Ev c _ :: t =>
      match c with
      | axios_post u b a => (u, b, a) :: posts t
      | _ => posts t
      end
  end.

(** The URLs of the GET requests for the records list, in order. *)
Fixpoint recordFetches (tr : list Event) : list string :=
  match tr with
  | [] => []
  | Ev c _ :: t =>
      match c with
      | axios_get_records u _ => u :: recordFetches t
      | _ => recordFetches t
      end
  end.

(** ** The platform *)

(** What the handlers take from the JavaScript runtime and from modules
    that are not part of the screen.
    - [parseDate s] is the time value of [new Date(s)], [None] for an
      invalid date; [startOfLocalDay t] is the time value after
      [setHours(0, 0, 0, 0)]; [getHours] is [Date.prototype.getHours];
      [localDateParts t] is [(getFullYear(), getMonth(), getDate())].
      All four depend on the device's time zone.
    - [haversineMeters userLat userLong officeLat officeLong] is the value
      of [Math.round(R * c)] computed by lines 258-268 of [checkOfficeRange]
      with [Math.sin], [Math.cos], [Math.atan2] and [Math.sqrt] on doubles.
    - [API_URL] is the constant of [@/constants/apiUrl]. *)
Record Platform : Type := {
  parseDate : string -> option Z;
  startOfLocalDay : Z -> Z;
  getHours : Z -> Z;
  localDateParts : Z -> Z * Z * Z;
  haversineMeters : Q -> Q -> Q -> Q -> Z;
  API_URL : string
}.

Section Handlers.

Variable pf : Platform.

(** *** useBiometricAuth *)

(** [authenticate] (part_000, lines 76-107); the answer of the platform
    is the [success] field of its result. *)
Definition authenticate (biometricStatus : BiometricStatus)
    (promptMessage : string) (forceAuth : bool) : Prog bool :=
  if negb (available biometricStatus) || negb (enrolled biometricStatus) then Ret false
  else
    let isTimeTrackingOperation :=
      Js.includes "time in" promptMessage || Js.includes "time out" promptMessage in
    if negb (enabled biometricStatus) && negb isTimeTrackingOperation && negb forceAuth
    then Ret true
    else
      result <- call (authenticateAsync
                        {| promptMessage := promptMessage;
                           fallbackLabel := "";
                           disableDeviceFallback := true |}) ;;
      match result with
      | Resolved ok => Ret ok
      | Rejected _ => Ret false
      end.

(** *** TimeTracking: dates *)

(** [formatRecordDate] (lines 582-585). *)
Definition formatRecordDate (dateString : string) : string :=
  match parseDate pf dateString with
  | Some t =>
      let '(y, m, d) := localDateParts pf t in
      Js.numberToString y ++ "-" ++ Js.pad2 (m + 1) ++ "-" ++ Js.pad2 d
  | None => "NaN-NaN-NaN"
  end.

(** [new Date(s)] followed by [setHours(0, 0, 0, 0)] and [getTime()]. *)
Definition midnightOf (s : string) : option Z :=
  option_map (startOfLocalDay pf) (parseDate pf s).

(** The comparator of the sort at lines 358-360: the sign of
    [new Date(b.date).getTime() - new Date(a.date).getTime()], a [NaN]
    counting as [0] as [Array.prototype.sort] reads it. *)
Definition compareNewestFirst (a b : TimeRecord.t) : Z :=
  match parseDate pf (TimeRecord.date b), parseDate pf (TimeRecord.date a) with
  | Some tb, Some ta => tb - ta
  | _, _ => 0
  end.

Fixpoint insertRecord (x : TimeRecord.t) (l : list TimeRecord.t) : list TimeRecord.t :=
  match l with
  | [] => [x]
  | y :: t => if compareNewestFirst x y <=? 0 then x :: y :: t else y :: insertRecord x t
  end.

(** [[...data].sort(comparator)] on a list whose dates are all valid: a
    stable sort, newest date first.  When a date is invalid the
    comparator is not consistent and the order is the engine's choice,
    not the one given here; what is proved of the order is proved for
    valid dates, everything else uses only that the result holds the
    same records. *)
Definition sortNewestFirst (data : list TimeRecord.t) : list TimeRecord.t :=
  fold_right insertRecord [] data.

(** *** TimeTracking: geofence *)

(** The test of line 272, [distance <= officeLocation.radius]. *)
Definition isWithin (distance : Z) (radius : Q) : bool :=
  Qle_bool (inject_Z distance) radius.

(** [checkOfficeRange] (lines 250-278). *)
Definition checkOfficeRange (scope : State) (location : option LocationObject)
  : Prog (option (Z * bool)) :=
  match officeLocation scope, location with
  | Some office, Some loc =>
      let '(officeLong, officeLat) := OfficeLocation.coordinates office in
      let userLat := latitude loc in
      let userLong := longitude loc in
      let distance := haversineMeters pf userLat userLong officeLat officeLong in
      call (setState (SetDistance (Some distance))) ;;
      let within := isWithin distance (OfficeLocation.radius office) in
      call (setState (SetIsWithinRange within)) ;;
      Ret (Some (distance, within))
  | _, _ => Ret None
  end.

(** The office substituted when the fetch fails (lines 320-330). *)
Definition defaultOfficeLocation : OfficeLocation.t :=
  {| OfficeLocation._id := "default_office_id";
     OfficeLocation.name := "Default Office";
     OfficeLocation.coordinates :=
       (120.59097690306716%Q, 18.20585558594641%Q);
     OfficeLocation.radius := 100%Q;
     OfficeLocation.address := "Default Office Address" |}.

(** The [catch] of [fetchOfficeLocation] (lines 316-335). *)
Definition useDefaultOffice : Prog (option OfficeLocation.t) :=
  call (setState (SetOfficeLocation (Some defaultOfficeLocation))) ;;
  call (setState (SetIsWithinRange false)) ;;
  Ret (Some defaultOfficeLocation).

(** [fetchOfficeLocation] (lines 281-336).  A missing token, like an
    empty one, is falsy. *)
Definition fetchOfficeLocation (scope : State) : Prog (option OfficeLocation.t) :=
  token <- call (AsyncStorage_getItem "userToken") ;;
  match token with
  | Rejected _ => useDefaultOffice
  | Resolved None => call (router_replace "/") ;; Ret None
  | Resolved (Some token) =>
      if negb (Js.truthy token) then call (router_replace "/") ;; Ret None
      else
        response <- call (axios_get_office (API_URL pf ++ "/api/office-location") token) ;;
        match response with
        | Rejected _ => useDefaultOffice
        | Resolved fetchedOfficeLocation =>
            call (setState (SetOfficeLocation (Some fetchedOfficeLocation))) ;;
            match currentLocation scope with
            | Some _ => checkOfficeRange scope (currentLocation scope) ;; Ret tt
            | None =>
                call (setState (SetIsWithinRange false)) ;;
                call (setState (SetDistance None))
            end ;;
            Ret (Some fetchedOfficeLocation)
        end
  end.

(** [getCurrentLocation] (lines 160-203): high accuracy raced against a
    ten-second timeout, then one retry at balanced accuracy. *)
Definition getCurrentLocation (scope : State) : Prog (option LocationObject) :=
  first <- call (getCurrentPositionAsync High (Some 10000)) ;;
  match first with
  | Resolved location =>
      call (setState (SetCurrentLocation (Some location))) ;;
      checkOfficeRange scope (Some location) ;;
      Ret (Some location)
  | Rejected _ =>
      second <- call (getCurrentPositionAsync Balanced None) ;;
      match second with
      | Resolved location =>
          call (setState (SetCurrentLocation (Some location))) ;;
          checkOfficeRange scope (Some location) ;;
          Ret (Some location)
      | Rejected _ =>
          call (showToast "Unable to get your current location. Please check your device settings and ensure location services are enabled." error) ;;
          Ret None
      end
  end.

(** The callback given to [Location.watchPositionAsync] (lines 225-237). *)
Definition watchPositionCallback (scope : State) (location : LocationObject) : Prog unit :=
  if Js.truthyNum (accuracy location) &&
     match accuracy location with Some a => Js.ltb a 30 | None => false end
  then
    call (setState (SetCurrentLocation (Some location))) ;;
    match officeLocation scope with
    | Some _ => checkOfficeRange scope (Some location) ;; Ret tt
    | None => fetchOfficeLocation scope ;; Ret tt
    end
  else
    call (console_log "Ignored location update due to low accuracy:").

(** *** TimeTracking: records and sessions *)

(** The predicate of [activeAMRecord] (lines 376-379). *)
Definition openAM (record : TimeRecord.t) : bool :=
  (Js.truthyOpt (TimeRecord.amTimeIn record) && negb (Js.truthyOpt (TimeRecord.amTimeOut record)))
  || (Js.truthyOpt (TimeRecord.timeIn record) && negb (Js.truthyOpt (TimeRecord.timeOut record))).

(** The predicate of [activePMRecord] (lines 382-385). *)
Definition openPM (record : TimeRecord.t) : bool :=
  (Js.truthyOpt (TimeRecord.pmTimeIn record) && negb (Js.truthyOpt (TimeRecord.pmTimeOut record)))
  || (Js.truthyOpt (TimeRecord.timeIn record) && negb (Js.truthyOpt (TimeRecord.timeOut record))).

(** The predicate of [todayRecords] (lines 369-373), [today] being the
    time value of [new Date()]. *)
Definition isToday (today : Z) (record : TimeRecord.t) : bool :=
  match midnightOf (TimeRecord.date record) with
  | Some t => t =? startOfLocalDay pf today
  | None => false
  end.

(** The [catch] and [finally] of [fetchTimeRecords] (lines 404-412). *)
Definition fetchTimeRecordsFailed : Prog unit :=
  call (showToast "Failed to fetch time records. Please check your connection or try again." error) ;;
  call (setState (SetTimeRecords [])) ;;
  call (setState (SetRawTimeRecords None)) ;;
  call (setState (SetLoading false)) ;;
  call (setState (SetRefreshing false)).

(** [fetchTimeRecords] (lines 339-413). *)
Definition fetchTimeRecords (scope : State) : Prog unit :=
  token <- call (AsyncStorage_getItem "userToken") ;;
  match token with
  | Rejected _ => fetchTimeRecordsFailed
  | Resolved None =>
      call (router_replace "/") ;;
      call (setState (SetLoading false)) ;;
      call (setState (SetRefreshing false))
  | Resolved (Some token) =>
      if negb (Js.truthy token) then
        call (router_replace "/") ;;
        call (setState (SetLoading false)) ;;
        call (setState (SetRefreshing false))
      else
        response <- call (axios_get_records (API_URL pf ++ "/api/time-records") token) ;;
        match response with
        | Rejected _ => fetchTimeRecordsFailed
        | Resolved data =>
            call (setState (SetRawTimeRecords (Some data))) ;;
            let sortedRecords := sortNewestFirst data in
            call (setState (SetTimeRecords sortedRecords)) ;;
            today <- call newDate ;;
            let todayRecords := filter (isToday today) sortedRecords in
            let activeAMRecord := find openAM todayRecords in
            let activePMRecord := find openPM todayRecords in
            (if Session_eqb (activeSession scope) AM && isSome activeAMRecord then
               call (setState (SetActiveTimeRecord activeAMRecord))
             else if Session_eqb (activeSession scope) PM && isSome activePMRecord then
               call (setState (SetActiveTimeRecord activePMRecord))
             else if isSome activeAMRecord then
               call (setState (SetActiveTimeRecord activeAMRecord)) ;;
               call (setState (SetActiveSession AM))
             else if isSome activePMRecord then
               call (setState (SetActiveTimeRecord activePMRecord)) ;;
               call (setState (SetActiveSession PM))
             else
               call (setState (SetActiveTimeRecord None)) ;;
               now <- call newDate ;;
               let currentHour := getHours pf now in
               call (setState (SetActiveSession (if currentHour <? 12 then AM else PM)))) ;;
            call (setState (SetLoading false)) ;;
            call (setState (SetRefreshing false))
        end
  end.

(** *** TimeTracking: time-in and time-out *)

(** The message of the [catch] blocks: the server's [error] field, or the
    handler's own text. *)
Definition failureMessage (e : JsError) (fallback : string) : string :=
  Js.orElse (responseError e) fallback.

(** [[longitude, latitude]] of the current location (lines 448, 494). *)
Definition wireCoordinates (location : LocationObject) : Q * Q :=
  (longitude location, latitude location).

(** [handleTimeIn] (lines 422-461). *)
Definition handleTimeIn (scope : State) : Prog unit :=
  match currentLocation scope with
  | None => call (showToast "Unable to get your current location" error)
  | Some location =>
      if negb (isWithinRange scope) then
        call (showToast
                ("You must be within office range to time in. You are currently "
                 ++ Js.template (distance scope) ++ " meters away from the office.")
                warning)
      else if negb (available (biometricStatus scope)) || negb (enrolled (biometricStatus scope)) then
        call (showToast "Biometric authentication is not set up on this device. Please enroll your fingerprint in device settings." error)
      else
        authenticated <- authenticate (biometricStatus scope) "Authenticate to time in" true ;;
        if negb authenticated then
          call (showToast "Biometric authentication failed or was cancelled" error)
        else
          call (setState (SetLoading true)) ;;
          token <- call (AsyncStorage_getItem "userToken") ;;
          match token with
          | Rejected e =>
              call (showToast (failureMessage e "Failed to record time-in") error) ;;
              call (setState (SetLoading false))
          | Resolved None =>
              call (router_replace "/") ;;
              call (setState (SetLoading false))
          | Resolved (Some token) =>
              if negb (Js.truthy token) then
                call (router_replace "/") ;;
                call (setState (SetLoading false))
              else
                let coordinates := wireCoordinates location in
                response <- call (axios_post
                                    (API_URL pf ++ "/api/time-records/time-in")
                                    (TimeBody coordinates (activeSession scope) true)
                                    token) ;;
                match response with
                | Resolved message =>
                    call (showToast message success) ;;
                    fetchTimeRecords scope ;;
                    call (setState (SetLoading false))
                | Rejected e =>
                    call (showToast (failureMessage e "Failed to record time-in") error) ;;
                    call (setState (SetLoading false))
                end
          end
  end.

(** [handleTimeOut] (lines 464-508).  The refresh at line 502 is not
    awaited: its commands are answered after the handler's own [finally],
    and are listed after it. *)
Definition handleTimeOut (scope : State) : Prog unit :=
  match activeTimeRecord scope with
  | None => call (showToast "No active time record found" error)
  | Some activeTimeRecord =>
      match currentLocation scope with
      | None => call (showToast "Unable to get your current location" error)
      | Some location =>
          if negb (isWithinRange scope) then
            call (showToast
                    ("You must be within office range to time out. You are currently "
                     ++ Js.template (distance scope) ++ " meters away from the office.")
                    warning)
          else if negb (available (biometricStatus scope)) || negb (enrolled (biometricStatus scope)) then
            call (showToast "Biometric authentication is not set up on this device. Please enroll your fingerprint in device settings." error)
          else
            authenticated <- authenticate (biometricStatus scope) "Authenticate to time out" true ;;
            if negb authenticated then
              call (showToast "Biometric authentication failed or was cancelled" error)
            else
              call (setState (SetLoading true)) ;;
              token <- call (AsyncStorage_getItem "userToken") ;;
              match token with
              | Rejected e =>
                  call (showToast (failureMessage e "Failed to record time-out") error) ;;
                  call (setState (SetLoading false))
              | Resolved None =>
                  call (router_replace "/") ;;
                  call (setState (SetLoading false))
              | Resolved (Some token) =>
                  if negb (Js.truthy token) then
                    call (router_replace "/") ;;
                    call (setState (SetLoading false))
                  else
                    let coordinates := wireCoordinates location in
                    response <- call (axios_post
                                        (API_URL pf ++ "/api/time-records/"
                                         ++ TimeRecord._id activeTimeRecord ++ "/time-out")
                                        (TimeBody coordinates (activeSession scope) true)
                                        token) ;;
                    match response with
                    | Resolved message =>
                        call (showToast message success) ;;
                        call (setState (SetActiveTimeRecord None)) ;;
                        call (setState (SetLoading false)) ;;
                        fetchTimeRecords scope
                    | Rejected e =>
                        call (showToast (failureMessage e "Failed to record time-out") error) ;;
                        call (setState (SetLoading false))
                    end
              end
      end
  end.

(** *** TimeTracking: offsets *)

(** [handleOffsetModalOpen] (lines 618-632). *)
Definition handleOffsetModalOpen (scope : State) (record : TimeRecord.t) : Prog unit :=
  call (setState (SetSelectedRecord (Some record))) ;;
  call (setState (SetUndertime
          (match TimeRecord.undertime record with
           | Some u => if Qeq_bool u 0 then 0%Q else u
           | None => 0%Q
           end))) ;;
  call (setState (SetMakeup
          (match TimeRecord.makeup record with
           | Some m => if Qeq_bool m 0 then 0%Q else m
           | None => 0%Q
           end))) ;;
  call (setState (SetMakeupDate
          (match TimeRecord.makeupDate record with
           | Some d => if Js.truthy d then formatRecordDate d else ""
           | None => ""
           end))) ;;
  call (setState (SetUndertimeDate (formatRecordDate (TimeRecord.date record)))) ;;
  let dates := map (fun record => formatRecordDate (TimeRecord.date record)) (timeRecords scope) in
  call (setState (SetAvailableDates (Js.dedupe [] dates))) ;;
  call (setState (SetShowOffsetModal true)).

(** The condition of line 684, [makeupDateObj < today]: an invalid date
    compares false. *)
Definition beforeToday (makeupDate : string) (today : Z) : bool :=
  match midnightOf makeupDate with
  | Some t => t <? startOfLocalDay pf today
  | None => false
  end.

(** The [try] block of [handleOffsetSubmit] (lines 690-717); the refresh at
    line 711 is not awaited and is listed after the [finally]. *)
Definition submitOffset (scope : State) (undertimeRecord : TimeRecord.t) : Prog unit :=
  call (setState (SetLoading true)) ;;
  token <- call (AsyncStorage_getItem "userToken") ;;
  match token with
  | Rejected e =>
      call (showToast (failureMessage e "Failed to submit offset") error) ;;
      call (setState (SetLoading false))
  | Resolved None =>
      call (router_replace "/") ;;
      call (setState (SetLoading false))
  | Resolved (Some token) =>
      if negb (Js.truthy token) then
        call (router_replace "/") ;;
        call (setState (SetLoading false))
      else
        response <- call (axios_post
                            (API_URL pf ++ "/api/time-records/"
                             ++ TimeRecord._id undertimeRecord ++ "/offset")
                            (OffsetBody (undertimeDate scope) (undertime scope) (makeup scope)
                               (if Js.truthy (makeupDate scope) then Some (makeupDate scope) else None))
                            token) ;;
        match response with
        | Resolved message =>
            call (showToast message success) ;;
            call (setState (SetShowOffsetModal false)) ;;
            call (setState (SetLoading false)) ;;
            fetchTimeRecords scope
        | Rejected e =>
            call (showToast (failureMessage e "Failed to submit offset") error) ;;
            call (setState (SetLoading false))
        end
  end.

(** [handleOffsetSubmit] (lines 635-718). *)
Definition handleOffsetSubmit (scope : State) : Prog unit :=
  match selectedRecord scope with
  | None => call (showToast "No record selected" error)
  | Some _ =>
      if Js.truthy (makeupDate scope) && negb (Js.isYMD (makeupDate scope)) then
        call (showToast "Makeup date must be in YYYY-MM-DD format" error)
      else
        let recordExists := Js.includesStr (undertimeDate scope) (availableDates scope) in
        if negb recordExists then
          call (showToast "Undertime date must exist in daily records" error)
        else
          match find (fun record => formatRecordDate (TimeRecord.date record) =? undertimeDate scope)%string
                     (timeRecords scope) with
          | None => call (showToast "Could not find the selected undertime date record" error)
          | Some undertimeRecord =>
              if Js.truthy (makeupDate scope) then
                today <- call newDate ;;
                if beforeToday (makeupDate scope) today then
                  call (showToast "Makeup date must be today or a future date" error)
                else submitOffset scope undertimeRecord
              else submitOffset scope undertimeRecord
          end
  end.

End Handlers.

(** ** A concrete platform and scripted environments

    Used to run the handlers on explicit inputs.  The platform keeps UTC
    time; its parser reads the form [YYYY-MM-DD] only. *)

Module Fixture.

Definition msPerDay : Z := 86400000.

(** Days from 1970-01-01 to the civil date [y-m-d] (proleptic Gregorian). *)
Definition daysFromCivil (y m d : Z) : Z :=
  let y' := if m <=? 2 then y - 1 else y in
  let era := y' / 400 in
  let yoe := y' - era * 400 in
  let mp := if m <=? 2 then m + 9 else m - 3 in
  let doy := (153 * mp + 2) / 5 + d - 1 in
  let doe := yoe * 365 + yoe / 4 - yoe / 100 + doy in
  era * 146097 + doe - 719468.

(** The civil date, as [(year, month index from 0, day)], of a day count. *)
Definition civilFromDays (days : Z) : Z * Z * Z :=
  let z := days + 719468 in
  let era := z / 146097 in
  let doe := z - era * 146097 in
  let yoe := (doe - doe / 1460 + doe / 36524 - doe / 146096) / 365 in
  let doy := doe - (365 * yoe + yoe / 4 - yoe / 100) in
  let mp := (5 * doy + 2) / 153 in
  let d := doy - (153 * mp + 2) / 5 + 1 in
  let m := if mp <? 10 then mp + 3 else mp - 9 in
  ((if m <=? 2 then yoe + era * 400 + 1 else yoe + era * 400), m - 1, d).

Definition digit (c : ascii) : Z := Z.of_nat (nat_of_ascii c) - 48.

Fixpoint digits (acc : Z) (s : string) : Z :=
  match s with
  | EmptyString => acc
  | String c t => digits (10 * acc + digit c) t
  end.

Definition parseYMD (s : string) : option Z :=
  if Js.isYMD s then
    let y := digits 0 (substring 0 4 s) in
    let m := digits 0 (substring 5 2 s) in
    let d := digits 0 (substring 8 2 s) in
    if (1 <=? m) && (m <=? 12) && (1 <=? d) && (d <=? 31)
    then Some (daysFromCivil y m d * msPerDay)
    else None
  else None.

(** A stand-in for the rounded great-circle distance: 111195 metres per
    degree along each axis, rounded down. *)
Definition gridMeters (userLat userLong officeLat officeLong : Q) : Z :=
  let size (q : Q) := Z.abs (Qnum q) * 111195 / Z.pos (Qden q) in
  size (officeLat - userLat)%Q + size (officeLong - userLong)%Q.

Definition utc : Platform :=
  {| parseDate := parseYMD;
     startOfLocalDay := fun t => t - t mod msPerDay;
     getHours := fun t => (t mod msPerDay) / 3600000;
     localDateParts := fun t => civilFromDays (t / msPerDay);
     haversineMeters := gridMeters;
     API_URL := "https://api.example" |}.

(** The answers of a scripted environment: one per kind of command. *)
Record World : Type := {
  storedToken : Outcome (option string);
  officeAnswer : Outcome OfficeLocation.t;
  recordsAnswer : Outcome (list TimeRecord.t);
  postAnswer : Outcome string;
  promptAnswer : Outcome bool;
  positionAnswer : Accuracy -> Outcome LocationObject;
  clock : Z
}.

Definition envOf (w : World) : Env :=
  fun R c _ =>
    match c in Cmd R return R with
    | AsyncStorage_getItem _ => storedToken w
    | axios_get_office _ _ => officeAnswer w
    | axios_get_records _ _ => recordsAnswer w
    | axios_post _ _ _ => postAnswer w
    | authenticateAsync _ => promptAnswer w
    | getCurrentPositionAsync acc _ => positionAnswer w acc
    | newDate => clock w
    | showToast _ _ => tt
    | setState _ => tt
    | router_replace _ => tt
    | console_log _ => tt
    end.

(** The office of the specification's examples: radius 100 m. *)
Definition office : OfficeLocation.t :=
  {| OfficeLocation._id := "office-1";
     OfficeLocation.name := "Head Office";
     OfficeLocation.coordinates := (120.5910%Q, 18.2058%Q);
     OfficeLocation.radius := 100%Q;
     OfficeLocation.address := "Main Street" |}.

(** A position [0.0009] degrees north of the office. *)
Definition nearby : LocationObject :=
  {| latitude := 18.2067%Q; longitude := 120.5910%Q; accuracy := Some 5%Q |}.

(** The start of 2024-05-10, and 09:00, 13:00 and 14:00 of that day. *)
Definition may10 : Z := 19853 * msPerDay.
Definition at9 : Z := may10 + 9 * 3600000.
Definition at13 : Z := may10 + 13 * 3600000.

(** A record of 2024-05-10 with only the morning time-in set. *)
Definition morningOpen : TimeRecord.t :=
  {| TimeRecord._id := "r1";
     TimeRecord.date := "2024-05-10";
     TimeRecord.timeIn := None;
     TimeRecord.timeOut := None;
     TimeRecord.amTimeIn := Some "2024-05-10T00:05:00.000Z";
     TimeRecord.amTimeOut := None;
     TimeRecord.pmTimeIn := None;
     TimeRecord.pmTimeOut := None;
     TimeRecord.undertime := None;
     TimeRecord.makeup := None;
     TimeRecord.makeupDate := None;
     TimeRecord.totalHours := 0%Q |}.

(** A state in which every precondition of time-in and time-out holds. *)
Definition ready : State :=
  {| loading := false;
     refreshing := false;
     locationPermission := true;
     currentLocation := Some nearby;
     officeLocation := Some office;
     timeRecords := [morningOpen];
     activeSession := AM;
     activeTimeRecord := Some morningOpen;
     isWithinRange := true;
     distance := Some 100;
     rawTimeRecords := Some [morningOpen];
     showOffsetModal := false;
     selectedRecord := None;
     undertime := 0%Q;
     makeup := 0%Q;
     makeupDate := "";
     undertimeDate := "";
     availableDates := [];
     biometricStatus := {| available := true; enrolled := true; enabled := false |} |}.

(** An environment in which everything succeeds. *)
Definition sunny : World :=
  {| storedToken := Resolved (Some "token-1");
     officeAnswer := Resolved office;
     recordsAnswer := Resolved [morningOpen];
     postAnswer := Resolved "Recorded";
     promptAnswer := Resolved true;
     positionAnswer := fun _ => Resolved nearby;
     clock := at9 |}.

(** The finger does not match: the prompt reports failure. *)
Definition mismatch : World :=
  {| storedToken := Resolved (Some "token-1");
     officeAnswer := Resolved office;
     recordsAnswer := Resolved [morningOpen];
     postAnswer := Resolved "Recorded";
     promptAnswer := Resolved false;
     positionAnswer := fun _ => Resolved nearby;
     clock := at9 |}.

(** The user token is gone from storage. *)
Definition loggedOut : World :=
  {| storedToken := Resolved None;
     officeAnswer := Resolved office;
     recordsAnswer := Resolved [morningOpen];
     postAnswer := Resolved "Recorded";
     promptAnswer := Resolved true;
     positionAnswer := fun _ => Resolved nearby;
     clock := at9 |}.


(** One o'clock in the afternoon, everything else succeeding. *)
Definition afternoon : World :=
  {| storedToken := Resolved (Some "token-1");
     officeAnswer := Resolved office;
     recordsAnswer := Resolved [morningOpen];
     postAnswer := Resolved "Recorded";
     promptAnswer := Resolved true;
     positionAnswer := fun _ => Resolved nearby;
     clock := at13 |}.

(** The server has no records; the clock reads [t]. *)
Definition emptyDay (t : Z) : World :=
  {| storedToken := Resolved (Some "token-1");
     officeAnswer := Resolved office;
     recordsAnswer := Resolved [];
     postAnswer := Resolved "Recorded";
     promptAnswer := Resolved true;
     positionAnswer := fun _ => Resolved nearby;
     clock := t |}.

(** A sample whose reported accuracy is zero. *)
Definition zeroAccuracy : LocationObject :=
  {| latitude := 18.2058%Q; longitude := 120.5910%Q; accuracy := Some 0%Q |}.

(** The offset form filled for the record of 2024-05-10. *)
Definition offsetForm (undertimeDate makeupDate : string) (undertime makeup : Q) : State :=
  applyUpdate (SetSelectedRecord (Some morningOpen))
    (applyUpdate (SetAvailableDates ["2024-05-10"])
       (applyUpdate (SetUndertimeDate undertimeDate)
          (applyUpdate (SetMakeupDate makeupDate)
             (applyUpdate (SetUndertime undertime)
                (applyUpdate (SetMakeup makeup) ready))))).

End Fixture.

(** ** Vocabulary of the properties *)

(** No event of the trace satisfies [p]. *)
Definition quiet (p : Event -> bool) (tr : list Event) : bool :=
  forallb (fun e => negb (p e)) tr.

(** The environment gives the command [c] the answer [r] whenever asked. *)
Definition answers {R : Type} (env : Env) (c : Cmd R) (r : R) : Prop :=
  forall n, env R c n = r.

(** The biometric prompt reports success, whatever its options. *)
Definition promptSucceeds (env : Env) : Prop :=
  forall opts, answers env (authenticateAsync opts) (Resolved true).


(** The session cells of the state: the records, the active record and
    the active session. *)
Definition sessionCells (s : State) : list TimeRecord.t * option TimeRecord.t * Session :=
  (timeRecords s, activeTimeRecord s, activeSession s).

(** The test of line 85 of the hook together with its [forceAuth] flag:
    the authentication is one of time tracking. *)
Definition isTimeTracking (promptMessage : string) (forceAuth : bool) : bool :=
  forceAuth || Js.includes "time in" promptMessage || Js.includes "time out" promptMessage.

(** The options with which the hook calls the platform. *)
Definition biometricOnly (promptMessage : string) : AuthOptions :=
  {| promptMessage := promptMessage; fallbackLabel := ""; disableDeviceFallback := true |}.

(** Time-in denial as the specification words it: one message that
    carries the current distance, no biometric prompt, no request. *)
Definition timeInDeniedWithDistance (pf : Platform) (env : Env) (scope st : State) : Prop :=
  let r := exec env (handleTimeIn pf scope) st in
  (exists msg kind,
      toasts (traceOf r) = [(msg, kind)] /\
      Js.includes (Js.template (distance scope)) msg = true) /\
  quiet isBiometric (traceOf r) = true /\
  quiet isNetwork (traceOf r) = true.

(** The preconditions of time-out that the state decides: an active
    record, a current location, the geofence and the biometric set-up. *)
Definition timeOutAdmissible (scope : State) : bool :=
  isSome (activeTimeRecord scope) && isSome (currentLocation scope) && isWithinRange scope
  && available (biometricStatus scope) && enrolled (biometricStatus scope).

(** The same for time-in, which needs no active record. *)
Definition timeInAdmissible (scope : State) : bool :=
  isSome (currentLocation scope) && isWithinRange scope
  && available (biometricStatus scope) && enrolled (biometricStatus scope).

(** The address of the time-out request for a record. *)
Definition timeOutUrl (pf : Platform) (record : TimeRecord.t) : string :=
  API_URL pf ++ "/api/time-records/" ++ TimeRecord._id record ++ "/time-out".

(** Time-out as the specification words it: once the state admits it and
    the biometric prompt succeeds, exactly one request goes out, to the
    active record's address. *)
Definition timeOutRequestWhenAdmitted (pf : Platform) (env : Env) (scope st : State) : Prop :=
  forall record,
    activeTimeRecord scope = Some record ->
    timeOutAdmissible scope = true ->
    promptSucceeds env ->
    exists body auth,
      posts (traceOf (exec env (handleTimeOut pf scope) st)) = [(timeOutUrl pf record, body, auth)].





(** A position sample as the specification words its filter: every sample
    more accurate than 30 m becomes the current location. *)
Definition acceptsAccurateSample (pf : Platform) (env : Env) (scope : State)
    (location : LocationObject) (st : State) : Prop :=
  forall a, accuracy location = Some a -> (a < 30)%Q ->
    currentLocation (stateOf (exec env (watchPositionCallback pf scope location) st))
    = Some location.

(** The rules of the offset form. *)
Inductive OffsetRule : Type :=
| RecordSelected
| MakeupDateFormat
| UndertimeDateListed
| UndertimeRecordFound
| MakeupDateNotPast
| HoursInRange.

(** A number of hours within [0, 8] and a multiple of a quarter. *)
Definition quarterHours (q : Q) : bool :=
  Qle_bool 0 q && Qle_bool q 8 && ((Qnum q * 4) mod Z.pos (Qden q) =? 0).

(** What each rule asks of the form, [today] being the clock's reading. *)
Definition ruleHolds (pf : Platform) (scope : State) (today : Z) (rule : OffsetRule) : bool :=
  match rule with
  | RecordSelected => isSome (selectedRecord scope)
  | MakeupDateFormat => negb (Js.truthy (makeupDate scope)) || Js.isYMD (makeupDate scope)
  | UndertimeDateListed => Js.includesStr (undertimeDate scope) (availableDates scope)
  | UndertimeRecordFound =>
      isSome (find (fun record => formatRecordDate pf (TimeRecord.date record) =? undertimeDate scope)%string
                   (timeRecords scope))
  | MakeupDateNotPast =>
      negb (Js.truthy (makeupDate scope)) || negb (beforeToday pf (makeupDate scope) today)
  | HoursInRange => quarterHours (undertime scope) && quarterHours (makeup scope)
  end.

(** The message of each rule that the handler checks. *)
Definition ruleMessage (rule : OffsetRule) : option string :=
  match rule with
  | RecordSelected => Some "No record selected"
  | MakeupDateFormat => Some "Makeup date must be in YYYY-MM-DD format"
  | UndertimeDateListed => Some "Undertime date must exist in daily records"
  | UndertimeRecordFound => Some "Could not find the selected undertime date record"
  | MakeupDateNotPast => Some "Makeup date must be today or a future date"
  | HoursInRange => None
  end.

(** The sequence of the specification, and the sequence of the handler. *)
Definition specifiedSequence : list OffsetRule :=
  [UndertimeDateListed; MakeupDateFormat; MakeupDateNotPast; HoursInRange].

Definition handlerSequence : list OffsetRule :=
  [RecordSelected; MakeupDateFormat; UndertimeDateListed; UndertimeRecordFound; MakeupDateNotPast].

Definition firstFailure (pf : Platform) (scope : State) (today : Z) (sequence : list OffsetRule)
  : option OffsetRule :=
  find (fun rule => negb (ruleHolds pf scope today rule)) sequence.

(** The address of the offset request for a record. *)
Definition offsetUrl (pf : Platform) (record : TimeRecord.t) : string :=
  API_URL pf ++ "/api/time-records/" ++ TimeRecord._id record ++ "/offset".

(** Offset validation as the specification words it: the first rule of
    its sequence that fails stops the submission before any request, with
    that rule's message. *)
Definition validatesInSpecifiedSequence (pf : Platform) (env : Env) (today : Z)
    (scope st : State) : Prop :=
  let r := exec env (handleOffsetSubmit pf scope) st in
  forall rule,
    firstFailure pf scope today specifiedSequence = Some rule ->
    quiet isNetwork (traceOf r) = true /\
    exists msg kind,
      toasts (traceOf r) = [(msg, kind)] /\
      (forall m, ruleMessage rule = Some m -> msg = m).

(** ** The geofence cells over time *)

(** The cells that the geofence logic writes. *)
Definition geoCells (s : State)
  : option LocationObject * option OfficeLocation.t * bool * option Z :=
  (currentLocation s, officeLocation s, isWithinRange s, distance s).

(** The rounded distance between a location and an office, as
    [checkOfficeRange] computes it. *)
Definition metersBetween (pf : Platform) (l : LocationObject) (o : OfficeLocation.t) : Z :=
  haversineMeters pf (latitude l) (longitude l)
    (snd (OfficeLocation.coordinates o)) (fst (OfficeLocation.coordinates o)).

(** A location, or an office, that some state of the list holds: one that
    has been obtained. *)
Definition seenLocation (states : list State) (l : LocationObject) : Prop :=
  exists s, In s states /\ currentLocation s = Some l.

Definition seenOffice (states : list State) (o : OfficeLocation.t) : Prop :=
  exists s, In s states /\ officeLocation s = Some o.

(** What the closure of some render may hold, the states so far being
    [states]: its location and office cells carry values that have been
    obtained.  Every state of the list qualifies, and so does a state
    between two setters of one handler; the closure need not be the
    latest one. *)
Definition Snapshot (states : list State) (scope : State) : Prop :=
  (forall l, currentLocation scope = Some l -> seenLocation states l) /\
  (forall o, officeLocation scope = Some o -> seenOffice states o).

(** One step of the screen, from the state [st] that heads [states].
    The geofence cells are written in synchronous blocks that end
    [getCurrentLocation], the watch callback, [fetchOfficeLocation] and
    the re-check of [loadData] (line 541); each such handler runs on some
    snapshot.  An await splits the watch callback in two blocks, which are
    a [step_position] and a [step_office].  Every other handler, and every
    other setter of the screen, leaves the geofence cells alone. *)
Inductive GeoStep (pf : Platform) (states : list State) (st : State) : State -> Prop :=
| step_position (env : Env) (scope : State) :
    Snapshot states scope ->
    GeoStep pf states st (stateOf (exec env (getCurrentLocation pf scope) st))
| step_sample (env : Env) (scope : State) (location : LocationObject) :
    Snapshot states scope ->
    GeoStep pf states st (stateOf (exec env (watchPositionCallback pf scope location) st))
| step_office (env : Env) (scope : State) :
    Snapshot states scope ->
    GeoStep pf states st (stateOf (exec env (fetchOfficeLocation pf scope) st))
| step_recheck (env : Env) (scope : State) (location : LocationObject) :
    Snapshot states scope ->
    seenLocation states location ->
    GeoStep pf states st (stateOf (exec env (checkOfficeRange pf scope (Some location)) st))
| step_timeIn (env : Env) (scope : State) :
    GeoStep pf states st (stateOf (exec env (handleTimeIn pf scope) st))
| step_timeOut (env : Env) (scope : State) :
    GeoStep pf states st (stateOf (exec env (handleTimeOut pf scope) st))
| step_refresh (env : Env) (scope : State) :
    GeoStep pf states st (stateOf (exec env (fetchTimeRecords pf scope) st))
| step_offsetOpen (env : Env) (scope : State) (record : TimeRecord.t) :
    GeoStep pf states st (stateOf (exec env (handleOffsetModalOpen pf scope record) st))
| step_offsetSubmit (env : Env) (scope : State) :
    GeoStep pf states st (stateOf (exec env (handleOffsetSubmit pf scope) st))
| step_other (st' : State) :
    geoCells st' = geoCells st ->
    GeoStep pf states st st'.

(** The histories of the screen, latest state first: the initial state,
    then the state after each step. *)
Inductive Reachable (pf : Platform) : list State -> Prop :=
| reach_init : Reachable pf [initialState]
| reach_step (st : State) (history : list State) (st' : State) :
    Reachable pf (st :: history) ->
    GeoStep pf (st :: history) st st' ->
    Reachable pf (st' :: st :: history).



(** ** Vocabulary of the proofs *)

(** Every command of a program, on every branch, satisfies [P]. *)
Inductive Always {A : Type} (P : forall R : Type, Cmd R -> Prop) : Prog A -> Prop :=
| Always_Ret (a : A) : Always P (Ret a)
| Always_Vis (R : Type) (c : Cmd R) (k : R -> Prog A) :
    P R c -> (forall r, Always P (k r)) -> Always P (Vis c k).

(** A command that is not a POST. *)
Definition notPost (R : Type) (c : Cmd R) : Prop :=
  match c with axios_post _ _ _ => False | _ => True end.

(** A command that leaves the geofence cells alone. *)
Definition keepsGeo (R : Type) (c : Cmd R) : Prop :=
  forall st, geoCells (effect c st) = geoCells st.

(** How a step may change the geofence cells: the location and the office
    stay or are set; the fence cells stay, or the fence is lowered, or
    they hold the distance between a location and an office that have
    been obtained, and its test. *)
Record GeoShape (pf : Platform) (states : list State) (st st' : State) : Prop := {
  shape_location :
    currentLocation st' = currentLocation st \/ exists l, currentLocation st' = Some l;
  shape_office :
    officeLocation st' = officeLocation st \/ exists o, officeLocation st' = Some o;
  shape_fence :
    (isWithinRange st' = isWithinRange st /\ distance st' = distance st) \/
    isWithinRange st' = false \/
    exists l o,
      (seenLocation states l \/ currentLocation st' = Some l) /\
      seenOffice states o /\
      distance st' = Some (metersBetween pf l o) /\
      isWithinRange st' = isWithin (metersBetween pf l o) (OfficeLocation.radius o)
}.

(** The invariant carried along a history: the location and office
    cells, once set, stay set, and the fence cells are justified. *)
Definition Sound (pf : Platform) (states : list State) : Prop :=
  match states with
  | [] => False
  | st :: _ =>
      ((exists l, seenLocation states l) -> currentLocation st <> None) /\
      ((exists o, seenOffice states o) -> officeLocation st <> None) /\
      (isWithinRange st = true ->
       exists l o,
         seenLocation states l /\ seenOffice states o /\
         distance st = Some (metersBetween pf l o) /\
         isWithin (metersBetween pf l o) (OfficeLocation.radius o) = true)
  end.

(** ** The controls of the page

    The handlers that the buttons, the pull-to-refresh and the calendars
    of [TimeTracking] call around those above, and the flags its render
    computes for them.  Calls that only write to the console are left
    out. *)

Section Controls.

Variable pf : Platform.

(** [onRefresh] (lines 511-514).  [useCallback] with no dependencies keeps
    the function of the first render, so [scope] is the snapshot of that
    render. *)
Definition onRefresh (scope : State) : Prog unit :=
  call (setState (SetRefreshing true)) ;;
  fetchTimeRecords pf scope.

(** [recordDate.toDateString() === today.toDateString()] (lines 861-863
    and the like).  The text of [toDateString] names the local year, month
    and day, with the weekday they fix; an invalid date prints as
    "Invalid Date", which the text of [today] never is. *)
Definition sameDateString (dateString : string) (today : Z) : bool :=
  match parseDate pf dateString with
  | Some t =>
      let '(y, m, d) := localDateParts pf t in
      let '(y', m', d') := localDateParts pf today in
      (y =? y') && (m =? m') && (d =? d')
  | None => false
  end.

(** [timeRecords.find(record => ... toDateString ... && test(record))]:
    the callback reads the clock for every record it visits. *)
Fixpoint findToday (test : TimeRecord.t -> bool) (records : list TimeRecord.t)
  : Prog (option TimeRecord.t) :=
  match records with
  | [] => Ret None
  | record :: rest =>
      today <- call newDate ;;
      if sameDateString (TimeRecord.date record) today && test record
      then Ret (Some record)
      else findToday test rest
  end.

(** [timeRecords.some(...)] with the same callback. *)
Definition someToday (test : TimeRecord.t -> bool) (records : list TimeRecord.t) : Prog bool :=
  found <- findToday test records ;;
  Ret (isSome found).

(** [amDisabled] (lines 859-867); [currentTime] is the cell of line 76. *)
Definition amDisabled (scope : State) (currentTime : Z) : Prog bool :=
  let isAM := getHours pf currentTime <? 12 in
  hasActiveAM <- someToday openAM (timeRecords scope) ;;
  Ret (negb isAM && negb hasActiveAM).

(** [pmDisabled] (lines 938-946). *)
Definition pmDisabled (scope : State) (currentTime : Z) : Prog bool :=
  let isPM := 12 <=? getHours pf currentTime in
  hasActivePM <- someToday openPM (timeRecords scope) ;;
  Ret (negb isPM && negb hasActivePM).

(** The two flags as one render computes them, the AM button first. *)
Definition sessionButtonsDisabled (scope : State) (currentTime : Z) : Prog (bool * bool) :=
  am <- amDisabled scope currentTime ;;
  pm <- pmDisabled scope currentTime ;;
  Ret (am, pm).

(** [disabled] of the Time In items (lines 916 and 995). *)
Definition timeInDisabled (scope : State) : bool :=
  isSome (activeTimeRecord scope) || loading scope || negb (isWithinRange scope).

(** [disabled] of the Time Out items (lines 927 and 1006). *)
Definition timeOutDisabled (scope : State) : bool :=
  negb (isSome (activeTimeRecord scope)) || loading scope || negb (isWithinRange scope).

(** [onPress] of the Offset button (lines 1044-1056). *)
Definition offsetButtonPress (scope : State) : Prog unit :=
  todayRecord <- findToday (fun _ => true) (timeRecords scope) ;;
  match todayRecord with
  | Some record => handleOffsetModalOpen pf scope record
  | None => call (showToast "No time record found for today" warning)
  end.

(** [onDayPress] of the undertime calendar (lines 1162-1167). *)
Definition undertimeDayPress (scope : State) (dateString : string) : Prog unit :=
  if Js.includesStr dateString (availableDates scope)
  then call (setState (SetUndertimeDate dateString))
  else Ret tt.

(** [onDayPress] of the makeup calendar (lines 1257-1260). *)
Definition makeupDayPress (dateString : string) : Prog unit :=
  call (setState (SetMakeupDate dateString)).

(** What the user may do to the offset form while it is shown: pick a day
    in either calendar, or move a slider (lines 1210-1236, whose
    [onValueChange] are the setters of the hours). *)
Inductive FormEdit : Type :=
| PickUndertimeDate (dateString : string)
| PickMakeupDate (dateString : string)
| SlideUndertime (value : Q)
| SlideMakeup (value : Q).

Definition formEdit (scope : State) (edit : FormEdit) : Prog unit :=
  match edit with
  | PickUndertimeDate dateString => undertimeDayPress scope dateString
  | PickMakeupDate dateString => makeupDayPress dateString
  | SlideUndertime value => call (setState (SetUndertime value))
  | SlideMakeup value => call (setState (SetMakeup value))
  end.

(** A series of edits, each made on the render of the state the one
    before it left. *)
Fixpoint editForm (env : Env) (edits : list FormEdit) (st : State) : State :=
  match edits with
  | [] => st
  | edit :: rest => editForm env rest (stateOf (exec env (formEdit st edit) st))
  end.

End Controls.

(** The requests for the position, in order, with their timeouts. *)
Fixpoint positionRequests (tr : list Event) : list (Accuracy * option Z) :=
  match tr with
  | [] => []
  | Ev c _ :: t =>
      match c with
      | getCurrentPositionAsync acc timeoutMs => (acc, timeoutMs) :: positionRequests t
      | _ => positionRequests t
      end
  end.

(** The paths the router was sent to, in order. *)
Fixpoint redirects (tr : list Event) : list string :=
  match tr with
  | [] => []
  | Ev c _ :: t =>
      match c with
      | router_replace path => path :: redirects t
      | _ => redirects t
      end
  end.

(** The user token that storage holds is missing or empty. *)
Definition noToken (env : Env) : Prop :=
  answers env (AsyncStorage_getItem "userToken") (Resolved None) \/
  answers env (AsyncStorage_getItem "userToken") (Resolved (Some "")).

(** The time value of a record's date. *)
Definition recordTime (pf : Platform) (record : TimeRecord.t) : option Z :=
  parseDate pf (TimeRecord.date record).

(** [a] is not older than [b]. *)
Definition notOlder (pf : Platform) (a b : TimeRecord.t) : Prop :=
  match recordTime pf a, recordTime pf b with
  | Some ta, Some tb => tb <= ta
  | _, _ => False
  end.

(** The records of [l] whose date has the time value [t], in order. *)
Definition recordsAt (pf : Platform) (t : Z) (l : list TimeRecord.t) : list TimeRecord.t :=
  filter (fun r => match recordTime pf r with Some t' => t' =? t | None => false end) l.

(** The answers the requests for the records list got, in order. *)
Fixpoint recordsAnswers (tr : list Event) : list (Outcome (list TimeRecord.t)) :=
  match tr with
  | [] => []
  | Ev c r :: t =>
      match c in Cmd T return T -> list (Outcome (list TimeRecord.t)) with
      | axios_get_records _ _ => fun r => r :: recordsAnswers t
      | _ => fun _ => recordsAnswers t
      end r
  end.

(** No record of [l] is older than a record that comes after it. *)
Fixpoint newestFirst (pf : Platform) (l : list TimeRecord.t) : Prop :=
  match l with
  | [] => True
  | x :: t => Forall (notOlder pf x) t /\ newestFirst pf t
  end.

(** The environment as a program sees it that starts after [k] commands
    of the run. *)
Definition shiftEnv (k : nat) (env : Env) : Env :=
  fun R c n => env R c (k + n)%nat.

(** ** Programs over other commands

    The biometric hook has cells and commands of its own, and so has the
    shell of the page (permissions, menus).  Their programs are trees of
    commands like those of [Prog]; a run threads a state through a
    function that gives every command its answer and its effect. *)

Module Tree.

Section Commands.

Variable C : Type -> Type.

Inductive t (A : Type) : Type :=
| Ret (a : A)
| Vis {R : Type} (c : C R) (k : R -> t A).

Fixpoint bind {A B : Type} (p : t A) (f : A -> t B) : t B :=
  match p with
  | Ret _ a => f a
  | Vis _ c k => Vis _ c (fun r => bind (k r) f)
  end.

Definition call {R : Type} (c : C R) : t R := Vis _ c (Ret _).

Inductive event : Type :=
| Ev {R : Type} (c : C R) (r : R).

Variable S : Type.
Variable step : forall R : Type, C R -> nat -> S -> R * S.

Fixpoint run {A : Type} (p : t A) (tr : list event) (st : S) : A * list event * S :=
  match p with
  | Ret _ a => (a, tr, st)
  | Vis _ c k =>
      let answered := step _ c (List.length tr) st in
      run (k (fst answered)) (tr ++ [Ev c (fst answered)])%list (snd answered)
  end.

End Commands.

Arguments Ret {C A} a.
Arguments Vis {C A R} c k.
Arguments bind {C A B} p f.
Arguments call {C R} c.
Arguments Ev {C R} c r.
Arguments run {C S} step {A} p tr st.

Definition result {A E S : Type} (x : A * E * S) : A := fst (fst x).
Definition trace {A E S : Type} (x : A * E * S) : E := snd (fst x).
Definition state {A E S : Type} (x : A * E * S) : S := snd x.
Arguments result {A E S} !x /.
Arguments trace {A E S} !x /.
Arguments state {A E S} !x /.

End Tree.

Declare Scope tree_scope.
Delimit Scope tree_scope with tree.
Notation "x <- p ;; q" := (Tree.bind p (fun x => q))
  (at level 61, p at next level, right associativity) : tree_scope.
Notation "p ;; q" := (Tree.bind p (fun _ => q))
  (at level 61, right associativity) : tree_scope.

(** ** The biometric hook

    [useBiometricAuth] (file [src/unnamed/part_000]) besides
    [authenticate]: the status check that runs when the hook mounts, and
    the switch of the preference. *)

Module Hook.

(** What the hook reads of the answer to [fetch]: its [ok] flag and, from
    [response.json()], the field [biometricsEnabled] of the data, which
    may be missing.  Reading the body may fail. *)
Record Response : Type := {
  ok : bool;
  json : Outcome (option bool)
}.

(** The commands of the hook.  [fetch] carries its [Authorization]
    header. *)
Inductive Cmd : Type -> Type :=
| hasHardwareAsync : Cmd (Outcome bool)
| isEnrolledAsync : Cmd (Outcome bool)
| getItem (key : string) : Cmd (Outcome (option string))
| setItem (key value : string) : Cmd (Outcome unit)
| fetch (url authorization : string) : Cmd (Outcome Response)
| setBiometricStatus (update : BiometricStatus -> BiometricStatus) : Cmd unit
| setLoading (v : bool) : Cmd unit.

(** The cells of the hook (lines 13-18), with the device's key-value
    storage: the pairs written, latest first. *)
Record State : Type := {
  biometricStatus : BiometricStatus;
  loading : bool;
  storage : list (string * string)
}.

(** The cells when the hook mounts, over a storage. *)
Definition initial (storage : list (string * string)) : State :=
  {| biometricStatus := {| available := false; enrolled := false; enabled := false |};
     loading := true;
     storage := storage |}.

(** The value that storage holds for a key. *)
Definition stored (key : string) (storage : list (string * string)) : option string :=
  option_map snd (find (fun pair => fst pair =? key)%string storage).

(** The surroundings answer the platform and the network; of an access
    to storage they decide only whether it fails. *)
Definition Env : Type := forall R : Type, Cmd R -> nat -> R.

Definition step (env : Env) (R : Type) (c : Cmd R) (n : nat) (st : State) : R * State :=
  match c in Cmd T return T -> T * State with
  | getItem key => fun answer =>
      (match answer with
       | Resolved _ => Resolved (stored key (storage st))
       | Rejected e => Rejected e
       end, st)
  | setItem key value => fun answer =>
      (answer,
       match answer with
       | Resolved _ =>
           {| biometricStatus := biometricStatus st;
              loading := loading st;
              storage := (key, value) :: storage st |}
       | Rejected _ => st
       end)
  | setBiometricStatus update => fun answer =>
      (answer,
       {| biometricStatus := update (biometricStatus st);
          loading := loading st;
          storage := storage st |})
  | setLoading v => fun answer =>
      (answer,
       {| biometricStatus := biometricStatus st; loading := v; storage := storage st |})
  | _ => fun answer => (answer, st)
  end (env R c n).

Definition Prog : Type -> Type := Tree.t Cmd.

Definition exec {A : Type} (env : Env) (p : Prog A) (st : State)
  : A * list (Tree.event Cmd) * State :=
  Tree.run (step env) p [] st.

Section Functions.

Variable pf : Platform.

Local Open Scope tree_scope.

(** [enabledStr === 'true'] after [AsyncStorage.getItem('biometricsEnabled')]
    (lines 55-56 and 60-61). *)
Definition localPreference : Prog (Outcome bool) :=
  enabledStr <- Tree.call (getItem "biometricsEnabled") ;;
  Tree.Ret
    match enabledStr with
    | Resolved (Some text) => Resolved (text =? "true")%string
    | Resolved None => Resolved false
    | Rejected e => Rejected e
    end.

(** The inner [try] of [checkBiometricStatus] (lines 40-57): the
    preference as the backend has it, copied to storage; the stored
    preference when the request, the reading of its body or the copy
    fails. *)
Definition backendPreference (token : string) : Prog (Outcome bool) :=
  response <- Tree.call (fetch (API_URL pf ++ "/api/biometrics") ("Bearer " ++ token)) ;;
  match response with
  | Rejected _ => localPreference
  | Resolved response =>
      if ok response then
        match json response with
        | Rejected _ => localPreference
        | Resolved data =>
            let enabled := match data with Some v => v | None => false end in
            copied <- Tree.call (setItem "biometricsEnabled" (if enabled then "true" else "false")) ;;
            match copied with
            | Resolved _ => Tree.Ret (Resolved enabled)
            | Rejected _ => localPreference
            end
        end
      else Tree.Ret (Resolved false)
  end.

(** [checkBiometricStatus] (lines 24-74).  Every rejection that the inner
    [try] does not catch ends in the outer [catch], which only logs. *)
Definition checkBiometricStatus : Prog unit :=
  Tree.call (setLoading true) ;;
  compatible <- Tree.call hasHardwareAsync ;;
  match compatible with
  | Rejected _ => Tree.call (setLoading false)
  | Resolved compatible =>
      enrolled <- (if compatible : bool then Tree.call isEnrolledAsync
                   else Tree.Ret (Resolved false)) ;;
      match enrolled with
      | Rejected _ => Tree.call (setLoading false)
      | Resolved enrolled =>
          token <- Tree.call (getItem "userToken") ;;
          match token with
          | Rejected _ => Tree.call (setLoading false)
          | Resolved token =>
              enabled <- (if Js.truthyOpt token
                          then backendPreference (match token with Some t => t | None => "" end)
                          else localPreference) ;;
              match enabled with
              | Rejected _ => Tree.call (setLoading false)
              | Resolved enabled =>
                  Tree.call (setBiometricStatus
                               (fun _ => {| available := compatible;
                                            enrolled := enrolled;
                                            enabled := enabled |})) ;;
                  Tree.call (setLoading false)
              end
          end
      end
  end.

(** [enableBiometrics] (lines 109-118). *)
Definition enableBiometrics (enable : bool) : Prog bool :=
  written <- Tree.call (setItem "biometricsEnabled" (if enable then "true" else "false")) ;;
  match written with
  | Resolved _ =>
      Tree.call (setBiometricStatus (fun prev => withEnabled enable prev)) ;;
      Tree.Ret true
  | Rejected _ => Tree.Ret false
  end.

End Functions.

(** The device was asked whether biometrics are enrolled. *)
Definition asksEnrollment (e : Tree.event Cmd) : bool :=
  match e with
  | Tree.Ev c _ => match c with isEnrolledAsync => true | _ => false end
  end.

(** The network was used. *)
Definition isFetch (e : Tree.event Cmd) : bool :=
  match e with
  | Tree.Ev c _ => match c with fetch _ _ => true | _ => false end
  end.

(** No rejection from the device or from storage. *)
Definition deviceAnswers (env : Env) (hardware enrolled : bool) : Prop :=
  (forall n, env _ hasHardwareAsync n = Resolved hardware) /\
  (forall n, env _ isEnrolledAsync n = Resolved enrolled) /\
  (forall key n, exists v, env _ (getItem key) n = Resolved v) /\
  (forall key value n, env _ (setItem key value) n = Resolved tt).

End Hook.

(** ** The shell of the page

    The parts of [TimeTracking] that ask for the location permission or
    move the session menus: [requestLocationPermission], the initial
    load, and the session buttons.  Their programs contain the programs
    of the screen. *)

(** The environments of the screen, under the name they have inside the
    modules that have environments of their own. *)
Definition ScreenEnv : Type := Env.

Module Shell.

(** [PermissionStatus] of [expo-location]. *)
Inductive PermissionStatus : Type := granted | denied | undetermined.

(** The commands of the screen, and with them the permission calls, the
    pause of line 534 and the setters of the two menu cells (lines
    78-79). *)
Inductive Command : Type -> Type :=
| screen {R : Type} (c : Cmd R) : Command R
| getForegroundPermissionsAsync : Command (Outcome PermissionStatus)
| requestForegroundPermissionsAsync : Command (Outcome PermissionStatus)
| pause (ms : Z) : Command unit
| setShowAMDropdown (v : bool) : Command unit
| setShowPMDropdown (v : bool) : Command unit.

Record Menus : Type := {
  showAMDropdown : bool;
  showPMDropdown : bool
}.

Definition Env : Type := forall R : Type, Command R -> nat -> R.

Definition step (env : Env) (R : Type) (c : Command R) (n : nat) (st : State * Menus)
  : R * (State * Menus) :=
  match c in Command T return T -> T * (State * Menus) with
  | screen c' => fun answer => (answer, (effect c' (fst st), snd st))
  | setShowAMDropdown v => fun answer =>
      (answer, (fst st, {| showAMDropdown := v; showPMDropdown := showPMDropdown (snd st) |}))
  | setShowPMDropdown v => fun answer =>
      (answer, (fst st, {| showAMDropdown := showAMDropdown (snd st); showPMDropdown := v |}))
  | _ => fun answer => (answer, st)
  end (env R c n).

Definition Program : Type -> Type := Tree.t Command.

Definition exec {A : Type} (env : Env) (p : Program A) (st : State) (menus : Menus)
  : A * list (Tree.event Command) * (State * Menus) :=
  Tree.run (step env) p [] (st, menus).

(** A program of the screen as a program of the shell. *)
Fixpoint lift {A : Type} (p : Prog A) : Program A :=
  match p with
  | Ret a => Tree.Ret a
  | Vis c k => Tree.Vis (screen c) (fun r => lift (k r))
  end.

Definition liftEvent (e : Event) : Tree.event Command :=
  match e with Ev c r => Tree.Ev (screen c) r end.

(** The environment of the screen inside that of the shell, from the
    [k]-th command on. *)
Definition screenEnv (env : Env) (k : nat) : ScreenEnv :=
  fun R c n => env R (screen c) (k + n)%nat.

Section Functions.

Variable pf : Platform.

Local Open Scope tree_scope.

(** [requestLocationPermission] (lines 124-157). *)
Definition requestLocationPermission : Program bool :=
  current <- Tree.call getForegroundPermissionsAsync ;;
  match current with
  | Rejected _ =>
      lift (call (showToast "Failed to request location permission. Please check your device settings." error)) ;;
      Tree.Ret false
  | Resolved granted =>
      lift (call (setState (SetLocationPermission true))) ;;
      Tree.Ret true
  | Resolved _ =>
      requested <- Tree.call requestForegroundPermissionsAsync ;;
      match requested with
      | Rejected _ =>
          lift (call (showToast "Failed to request location permission. Please check your device settings." error)) ;;
          Tree.Ret false
      | Resolved granted =>
          lift (call (setState (SetLocationPermission true))) ;;
          Tree.Ret true
      | Resolved _ =>
          lift (call (showToast "You need to grant location permission to use time tracking features. Please enable location in your device settings." warning)) ;;
          lift (call (setState (SetLocationPermission false))) ;;
          Tree.Ret false
      end
  end.

(** [loadData] (lines 518-576), run once by the effect of the first
    render: [scope] is the snapshot of that render.  The functions it
    awaits catch their own rejections, so its [catch] is never entered. *)
Definition loadData (scope : State) : Program unit :=
  lift (call (setState (SetLoading true))) ;;
  permissionGranted <- requestLocationPermission ;;
  (if permissionGranted : bool then
     location <- lift (getCurrentLocation pf scope) ;;
     Tree.call (pause 500) ;;
     office <- lift (fetchOfficeLocation pf scope) ;;
     match location, office with
     | Some location, Some _ => lift (checkOfficeRange pf scope (Some location)) ;; Tree.Ret tt
     | _, _ => Tree.Ret tt
     end
   else
     lift (fetchOfficeLocation pf scope) ;; Tree.Ret tt) ;;
  lift (fetchTimeRecords pf scope) ;;
  lift (call (setState (SetLoading false))).

(** [onPress] of the AM session button (lines 875-892); [menus] are the
    menu cells of the render. *)
Definition pressAM (scope : State) (menus : Menus) : Program unit :=
  lift (call (setState (SetActiveSession AM))) ;;
  Tree.call (setShowAMDropdown (negb (showAMDropdown menus))) ;;
  Tree.call (setShowPMDropdown false) ;;
  amRecord <- lift (findToday pf openAM (timeRecords scope)) ;;
  match amRecord with
  | Some record => lift (call (setState (SetActiveTimeRecord (Some record))))
  | None => lift (call (setState (SetActiveTimeRecord None)))
  end.

(** [onPress] of the PM session button (lines 954-971). *)
Definition pressPM (scope : State) (menus : Menus) : Program unit :=
  lift (call (setState (SetActiveSession PM))) ;;
  Tree.call (setShowPMDropdown (negb (showPMDropdown menus))) ;;
  Tree.call (setShowAMDropdown false) ;;
  pmRecord <- lift (findToday pf openPM (timeRecords scope)) ;;
  match pmRecord with
  | Some record => lift (call (setState (SetActiveTimeRecord (Some record))))
  | None => lift (call (setState (SetActiveTimeRecord None)))
  end.

(** [closeAllDropdowns] (lines 612-615). *)
Definition closeAllDropdowns : Program unit :=
  Tree.call (setShowAMDropdown false) ;;
  Tree.call (setShowPMDropdown false).

End Functions.

(** The permission dialog was shown. *)
Definition asksPermission (e : Tree.event Command) : bool :=
  match e with
  | Tree.Ev c _ => match c with requestForegroundPermissionsAsync => true | _ => false end
  end.

(** The toasts shown, in order. *)
Fixpoint toasts (tr : list (Tree.event Command)) : list (string * ToastKind) :=
  match tr with
  | [] => []
  | Tree.Ev c _ :: t =>
      match c with
      | screen c' =>
          match c' with
          | showToast m k => (m, k) :: toasts t
          | _ => toasts t
          end
      | _ => toasts t
      end
  end.

End Shell.

(** ** The sliders of the offset form

    [CustomSlider] (file [src/components/CustomSlider.tsx]), of which the
    form uses two, for the hours of undertime and of makeup. *)

Module Slider.

(** The props that decide a value; the component's defaults are those
    the form passes: from 0 to 8 in steps of 0.25. *)
Record Props : Type := {
  value : Q;
  minimumValue : Q;
  maximumValue : Q;
  step : Q
}.

Definition formSlider (value : Q) : Props :=
  {| value := value; minimumValue := 0; maximumValue := 8; step := 0.25 |}.

(** [Math.min] and [Math.max] on finite numbers. *)
Definition min (a b : Q) : Q := if Qle_bool a b then a else b.
Definition max (a b : Q) : Q := if Qle_bool a b then b else a.

(** [onAccessibilityAction] (lines 123-132): the value handed to
    [onValueChange], if any.  The sum and the difference are those of the
    rationals, which is what JavaScript computes on multiples of a
    quarter of this size. *)
Definition onAccessibilityAction (props : Props) (actionName : string) : option Q :=
  let stepValue := (if Qeq_bool (step props) 0 then 1 else step props)%Q in
  if (actionName =? "increment")%string then
    Some (min (value props + stepValue) (maximumValue props))
  else if (actionName =? "decrement")%string then
    Some (max (value props - stepValue) (minimumValue props))
  else None.

(** [handleSlidingComplete] (lines 82-84). *)
Definition handleSlidingComplete (val : Q) : Q := val.

End Slider.

(** ** More scripted surroundings

    Used to run the rest of the page, the hook and the shell on explicit
    inputs, with the platform and the worlds of [Fixture]. *)

Module Scenes.

(** High accuracy fails indoors; balanced accuracy succeeds. *)
Definition indoors : Fixture.World :=
  {| Fixture.storedToken := Resolved (Some "token-1");
     Fixture.officeAnswer := Resolved Fixture.office;
     Fixture.recordsAnswer := Resolved [Fixture.morningOpen];
     Fixture.postAnswer := Resolved "Recorded";
     Fixture.promptAnswer := Resolved true;
     Fixture.positionAnswer :=
       fun acc =>
         match acc with
         | High => Rejected {| responseError := None |}
         | Balanced => Resolved Fixture.nearby
         end;
     Fixture.clock := Fixture.at9 |}.

(** A second office, a degree further east. *)
Definition annex : OfficeLocation.t :=
  {| OfficeLocation._id := "office-2";
     OfficeLocation.name := "Annex";
     OfficeLocation.coordinates := (121.5910%Q, 18.2058%Q);
     OfficeLocation.radius := 50%Q;
     OfficeLocation.address := "Harbour Road" |}.

(** The server now names the annex as the office. *)
Definition moved : Fixture.World :=
  {| Fixture.storedToken := Resolved (Some "token-1");
     Fixture.officeAnswer := Resolved annex;
     Fixture.recordsAnswer := Resolved [Fixture.morningOpen];
     Fixture.postAnswer := Resolved "Recorded";
     Fixture.promptAnswer := Resolved true;
     Fixture.positionAnswer := fun _ => Resolved Fixture.nearby;
     Fixture.clock := Fixture.at9 |}.

(** The server cannot be reached. *)
Definition offline : Fixture.World :=
  {| Fixture.storedToken := Resolved (Some "token-1");
     Fixture.officeAnswer := Rejected {| responseError := None |};
     Fixture.recordsAnswer := Rejected {| responseError := None |};
     Fixture.postAnswer := Rejected {| responseError := None |};
     Fixture.promptAnswer := Resolved true;
     Fixture.positionAnswer := fun _ => Resolved Fixture.nearby;
     Fixture.clock := Fixture.at9 |}.

(** A closed record of [date]. *)
Definition closedRecord (id date : string) : TimeRecord.t :=
  {| TimeRecord._id := id;
     TimeRecord.date := date;
     TimeRecord.timeIn := None;
     TimeRecord.timeOut := None;
     TimeRecord.amTimeIn := Some "08:00";
     TimeRecord.amTimeOut := Some "12:00";
     TimeRecord.pmTimeIn := None;
     TimeRecord.pmTimeOut := None;
     TimeRecord.undertime := None;
     TimeRecord.makeup := None;
     TimeRecord.makeupDate := None;
     TimeRecord.totalHours := 4%Q |}.

(** Three records as a server may list them: the oldest first, and two
    of the same day. *)
Definition listed : list TimeRecord.t :=
  [closedRecord "r0" "2024-05-09"; Fixture.morningOpen; closedRecord "r2" "2024-05-10"].

(** A device for the hook: what it reports of its hardware and of the
    enrolment, and what the backend answers.  Storage never fails. *)
Definition hookEnv (hardware enrolment : bool) (backend : Outcome Hook.Response) : Hook.Env :=
  fun R c _ =>
    match c in Hook.Cmd R return R with
    | Hook.hasHardwareAsync => Resolved hardware
    | Hook.isEnrolledAsync => Resolved enrolment
    | Hook.getItem _ => Resolved None
    | Hook.setItem _ _ => Resolved tt
    | Hook.fetch _ _ => backend
    | Hook.setBiometricStatus _ => tt
    | Hook.setLoading _ => tt
    end.

(** The surroundings of the shell: a world of the screen, the permission
    the device reports and the one its dialog gives. *)
Definition shellEnv (w : Fixture.World) (current asked : Shell.PermissionStatus) : Shell.Env :=
  fun R c n =>
    match c in Shell.Command R return R with
    | Shell.screen c' => Fixture.envOf w _ c' n
    | Shell.getForegroundPermissionsAsync => Resolved current
    | Shell.requestForegroundPermissionsAsync => Resolved asked
    | Shell.pause _ => tt
    | Shell.setShowAMDropdown _ => tt
    | Shell.setShowPMDropdown _ => tt
    end.

Definition closedMenus : Shell.Menus :=
  {| Shell.showAMDropdown := false; Shell.showPMDropdown := false |}.

End Scenes.

(** ** The fingerprints of the account

    [BiometricsAuthentication] (file [src/unnamed/part_002]), the screen
    that calls the hook to add a fingerprint to the account and to switch
    the preference: [toggleBiometricsEnabled] and [addBiometric].  What
    they log is left out. *)

Module Fingerprints.

(** [BackendBiometricRecord] (lines 10-14). *)
Module Backend.
Record t : Type := mk {
  biometricId : string;
  name : string;
  createdAt : string
}.
End Backend.

(** [BiometricRecord] (lines 16-21). *)
Record BiometricRecord : Type := {
  id : string;
  name : string;
  createdAt : string;
  biometricId : string
}.

(** The record that the screen keeps for one of the backend (lines
    151-156). *)
Definition toRecord (record : Backend.t) : BiometricRecord :=
  {| id := Backend.biometricId record;
     name := Backend.name record;
     createdAt := Backend.createdAt record;
     biometricId := Backend.biometricId record |}.

(** [response.data] as the two handlers read it: the list and the flag,
    each of which may be missing. *)
Module Data.
Record t : Type := mk {
  biometrics : option (list Backend.t);
  biometricsEnabled : option bool
}.
End Data.

(** What a [catch] reads of an error: [error.response.data.error] when
    [axios.isAxiosError(error) && error.response] holds, and the message
    of an instance of [Error]. *)
Record Failure : Type := {
  response : option (option string);
  message : option string
}.

Inductive Reply (A : Type) : Type :=
| Fulfilled (a : A)
| Failed (e : Failure).
Arguments Fulfilled {A} a.
Arguments Failed {A} e.

(** The commands of the screen: those of the hook, those of the hook's
    [authenticate], and its own.  [getToken] answers with the text that
    the template of the [Authorization] header prints for the token, its
    only use; [Math_random] with the text of
    [Math.random().toString(36).substring(2, 15)].  [axios_put] carries
    the [enabled] of its body, [axios_post] the [biometricId] and the
    [name]; the data of the answer to [axios_post] may be missing. *)
Inductive Command : Type -> Type :=
| hook {R : Type} (c : Hook.Cmd R) : Command R
| device {R : Type} (c : Cmd R) : Command R
| getToken : Command (Reply string)
| axios_put (url : string) (enabled : bool) (authorization : string) : Command (Reply Data.t)
| axios_post (url biometricId name authorization : string) : Command (Reply (option Data.t))
| Date_now : Command Z
| Math_random : Command string
| Alert_alert (title message : string) : Command unit
| setLoading (v : bool) : Command unit
| setBiometrics (records : list BiometricRecord) : Command unit
| setBiometricsEnabled (v : option bool) : Command unit.

(** The cells of the screen (lines 24-26), which may come to hold a
    missing flag, and those of the hook it uses. *)
Record State : Type := {
  loading : bool;
  biometrics : list BiometricRecord;
  biometricsEnabled : option bool;
  hookCells : Hook.State
}.

Definition initial (cells : Hook.State) : State :=
  {| loading := false; biometrics := []; biometricsEnabled := Some false; hookCells := cells |}.

Definition Env : Type := forall R : Type, Command R -> nat -> R.

(** The surroundings of the hook inside those of the screen. *)
Definition hookEnv (env : Env) : Hook.Env :=
  fun R c n => env R (hook c) n.

Definition step (env : Env) (R : Type) (c : Command R) (n : nat) (st : State) : R * State :=
  match c in Command T return T * State with
  | hook c' =>
      let answered := Hook.step (hookEnv env) _ c' n (hookCells st) in
      (fst answered,
       {| loading := loading st;
          biometrics := biometrics st;
          biometricsEnabled := biometricsEnabled st;
          hookCells := snd answered |})
  | device c' => (env _ (device c') n, st)
  | getToken => (env _ getToken n, st)
  | axios_put url enabled authorization => (env _ (axios_put url enabled authorization) n, st)
  | axios_post url biometricId name authorization =>
      (env _ (axios_post url biometricId name authorization) n, st)
  | Date_now => (env _ Date_now n, st)
  | Math_random => (env _ Math_random n, st)
  | Alert_alert title message => (env _ (Alert_alert title message) n, st)
  | setLoading v =>
      (env _ (setLoading v) n,
       {| loading := v;
          biometrics := biometrics st;
          biometricsEnabled := biometricsEnabled st;
          hookCells := hookCells st |})
  | setBiometrics records =>
      (env _ (setBiometrics records) n,
       {| loading := loading st;
          biometrics := records;
          biometricsEnabled := biometricsEnabled st;
          hookCells := hookCells st |})
  | setBiometricsEnabled v =>
      (env _ (setBiometricsEnabled v) n,
       {| loading := loading st;
          biometrics := biometrics st;
          biometricsEnabled := v;
          hookCells := hookCells st |})
  end.

Definition Program : Type -> Type := Tree.t Command.

Definition exec {A : Type} (env : Env) (p : Program A) (st : State)
  : A * list (Tree.event Command) * State :=
  Tree.run (step env) p [] st.

(** A program of the hook as a program of the screen. *)
Fixpoint ofHook {A : Type} (p : Hook.Prog A) : Program A :=
  match p with
  | Tree.Ret a => Tree.Ret a
  | Tree.Vis c k => Tree.Vis (hook c) (fun r => ofHook (k r))
  end.

(** [authenticate], whose commands are among those of [TimeTracking]. *)
Fixpoint ofScreen {A : Type} (p : Prog A) : Program A :=
  match p with
  | Ret a => Tree.Ret a
  | Vis c k => Tree.Vis (device c) (fun r => ofScreen (k r))
  end.

Section Functions.

Variable pf : Platform.

Local Open Scope tree_scope.

(** The [catch] and the [finally] of [toggleBiometricsEnabled] (lines
    92-102). *)
Definition toggleFailed (e : Failure) : Program unit :=
  Tree.call (Alert_alert "Error"
               match response e with
               | Some serverError =>
                   "Failed to update biometrics settings: " ++ Js.orElse serverError "Unknown error"
               | None =>
                   match message e with
                   | Some text => text
                   | None => "Failed to update biometrics settings"
                   end
               end) ;;
  Tree.call (setLoading false).

(** [toggleBiometricsEnabled] (lines 55-103); [biometrics] is the list
    of the render.  The hook's functions catch their own rejections.  A
    missing flag reaches [enableBiometrics] as a falsy value, which it
    stores as ['false'] and which every reader of the status takes for
    [false]. *)
Definition toggleBiometricsEnabled (biometrics : list BiometricRecord) (value : bool)
  : Program unit :=
  Tree.call (setLoading true) ;;
  token <- Tree.call getToken ;;
  match token with
  | Failed e => toggleFailed e
  | Fulfilled token =>
      if value && (List.length biometrics =? 0)%nat then
        Tree.call (Alert_alert "Error"
                     "You must add at least one fingerprint before enabling biometric authentication") ;;
        Tree.call (setLoading false)
      else
        answer <- Tree.call (axios_put (API_URL pf ++ "/api/biometrics/toggle") value
                               ("Bearer " ++ token)) ;;
        match answer with
        | Failed e => toggleFailed e
        | Fulfilled data =>
            Tree.call (setBiometricsEnabled (Data.biometricsEnabled data)) ;;
            ofHook (Hook.enableBiometrics
                      match Data.biometricsEnabled data with
                      | Some flag => flag
                      | None => false
                      end) ;;
            ofHook (Hook.checkBiometricStatus pf) ;;
            (match Data.biometricsEnabled data with
             | Some flag =>
                 if Bool.eqb flag value then
                   Tree.call (Alert_alert "Success"
                                ("Biometric authentication "
                                 ++ (if value then "enabled" else "disabled")
                                 ++ " successfully"))
                 else
                   Tree.call (Alert_alert "Error"
                                "Failed to update biometrics settings. The server returned an unexpected value.")
             | None =>
                 Tree.call (Alert_alert "Error"
                              "Failed to update biometrics settings. The server returned an unexpected value.")
             end) ;;
            Tree.call (setLoading false)
        end
  end.

(** The inner [try] of [addBiometric] with its [catch] (lines 135-180). *)
Definition saveBiometric (biometricId name authorization : string) : Program unit :=
  answer <- Tree.call (axios_post (API_URL pf ++ "/api/biometrics") biometricId name
                         authorization) ;;
  match answer with
  | Fulfilled (Some data) =>
      match Data.biometrics data with
      | Some backendRecords =>
          Tree.call (setBiometrics (map toRecord backendRecords)) ;;
          Tree.call (setBiometricsEnabled (Data.biometricsEnabled data)) ;;
          if existsb (fun record => Backend.biometricId record =? biometricId)%string
               backendRecords
          then
            Tree.call (Alert_alert "Success" "Fingerprint added successfully") ;;
            ofHook (Hook.checkBiometricStatus pf)
          else
            Tree.call (Alert_alert "Error"
                         "Fingerprint was not properly saved. Please try again.")
      | None =>
          Tree.call (Alert_alert "Error"
                       "Failed to add fingerprint due to server response format")
      end
  | Fulfilled None =>
      Tree.call (Alert_alert "Error" "Failed to add fingerprint due to server response format")
  | Failed e =>
      match response e with
      | Some serverError =>
          Tree.call (Alert_alert "Error"
                       ("Failed to add fingerprint: " ++ Js.orElse serverError "Unknown error"))
      | None =>
          Tree.call (Alert_alert "Error"
                       "Failed to add fingerprint. Please check your connection.")
      end
  end.

(** [addBiometric] (lines 106-190); [biometricStatus] and [biometrics]
    are those of the render, the status also that of the hook's
    [authenticate].  A rejection of [getToken] is caught by the outer
    [catch], past the [finally] of the inner [try]. *)
Definition addBiometric (biometricStatus : BiometricStatus)
    (biometrics : list BiometricRecord) : Program unit :=
  if negb (available biometricStatus) then
    Tree.call (Alert_alert "Error" "Biometric authentication is not available on this device")
  else if negb (enrolled biometricStatus) then
    Tree.call (Alert_alert "Error"
                 "No biometrics are enrolled on this device. Please set up fingerprint in your device settings first.")
  else
    authenticated <- ofScreen (authenticate biometricStatus
                                 "Scan your fingerprint to add it to your account" true) ;;
    if negb authenticated then
      Tree.call (Alert_alert "Authentication Failed"
                   "Failed to authenticate or authentication was cancelled")
    else
      timestamp <- Tree.call Date_now ;;
      first <- Tree.call Math_random ;;
      second <- Tree.call Math_random ;;
      let biometricId := "bio_" ++ Js.numberToString timestamp ++ "_" ++ first ++ second in
      let name :=
        "Fingerprint " ++ Js.numberToString (Z.of_nat (List.length biometrics) + 1) in
      Tree.call (setLoading true) ;;
      token <- Tree.call getToken ;;
      match token with
      | Failed _ =>
          Tree.call (Alert_alert "Error" "Failed to process biometric authentication")
      | Fulfilled token =>
          saveBiometric biometricId name ("Bearer " ++ token) ;;
          Tree.call (setLoading false)
      end.

End Functions.

(** The alerts shown, in order: title and message. *)
Fixpoint alerts (tr : list (Tree.event Command)) : list (string * string) :=
  match tr with
  | [] => []
  | Tree.Ev c _ :: t =>
      match c with
      | Alert_alert title message => (title, message) :: alerts t
      | _ => alerts t
      end
  end.

(** The fingerprints sent to the backend: address, [biometricId], [name]
    and [Authorization]. *)
Fixpoint posts (tr : list (Tree.event Command)) : list (string * string * string * string) :=
  match tr with
  | [] => []
  | Tree.Ev c _ :: t =>
      match c with
      | axios_post url biometricId name authorization =>
          (url, biometricId, name, authorization) :: posts t
      | _ => posts t
      end
  end.

(** The switches sent to the backend: address and [enabled]. *)
Fixpoint puts (tr : list (Tree.event Command)) : list (string * bool) :=
  match tr with
  | [] => []
  | Tree.Ev c _ :: t =>
      match c with
      | axios_put url enabled _ => (url, enabled) :: puts t
      | _ => puts t
      end
  end.

(** The fingerprint prompts, each with its answer. *)
Fixpoint prompts (tr : list (Tree.event Command)) : list (AuthOptions * Outcome bool) :=
  match tr with
  | [] => []
  | Tree.Ev c r :: t =>
      match c in Command T return T -> list (AuthOptions * Outcome bool) with
      | device c' =>
          match c' in Cmd T return T -> list (AuthOptions * Outcome bool) with
          | authenticateAsync opts => fun answer => (opts, answer) :: prompts t
          | _ => fun _ => prompts t
          end
      | _ => fun _ => prompts t
      end r
  end.

(** The values that the hook was asked to store, in order. *)
Fixpoint writes (tr : list (Tree.event Command)) : list (string * string) :=
  match tr with
  | [] => []
  | Tree.Ev c _ :: t =>
      match c with
      | hook c' =>
          match c' with
          | Hook.setItem key value => (key, value) :: writes t
          | _ => writes t
          end
      | _ => writes t
      end
  end.

(** The hook asked the device for its hardware: a status check ran. *)
Definition checksStatus (e : Tree.event Command) : bool :=
  match e with
  | Tree.Ev c _ =>
      match c with
      | hook c' => match c' with Hook.hasHardwareAsync => true | _ => false end
      | _ => false
      end
  end.

(** The surroundings answer [getToken] with a token. *)
Definition tokenRead (env : Env) : Prop :=
  forall n, exists token, env _ getToken n = Fulfilled token.

End Fingerprints.

(** ** The status screen

    [BiometricsAuthScreen] (file
    [src/app/(dashboard)/biometrics-authentication/biometrics-authentication.tsx]):
    the message it shows for the cells of the hook (lines 32-46). *)

Module StatusScreen.

Definition message (loading : bool) (biometricStatus : BiometricStatus) : string :=
  if loading then "Checking biometric status..."
  else if negb (available biometricStatus) then
    "Biometric authentication is not available on this device."
  else if negb (enrolled biometricStatus) then
    "No fingerprint is enrolled on this device. Please set up fingerprint in your device settings to use time in/out."
  else "Your device is ready for fingerprint authentication.".

(** The message for the cells of a hook. *)
Definition shown (cells : Hook.State) : string :=
  message (Hook.loading cells) (Hook.biometricStatus cells).

End StatusScreen.

(** ** Handsets

    Scripted surroundings for the screen of the fingerprints. *)

Module Handset.

(** Storage that fails, on a device that has the hardware and a
    fingerprint; the backend is not reached. *)
Definition brokenStorage : Hook.Env :=
  fun R c _ =>
    match c in Hook.Cmd R return R with
    | Hook.hasHardwareAsync => Resolved true
    | Hook.isEnrolledAsync => Resolved true
    | Hook.getItem _ => Rejected {| responseError := None |}
    | Hook.setItem _ _ => Rejected {| responseError := None |}
    | Hook.fetch _ _ => Rejected {| responseError := None |}
    | Hook.setBiometricStatus _ => tt
    | Hook.setLoading _ => tt
    end.

(** The surroundings of the screen: those of the hook, the answer to the
    prompt, the token, and what the backend answers to a switch and to a
    new fingerprint.  The clock and the random text are fixed. *)
Definition env (device : Hook.Env) (prompt : Outcome bool)
    (token : Fingerprints.Reply string)
    (switched : Fingerprints.Reply Fingerprints.Data.t)
    (saved : Fingerprints.Reply (option Fingerprints.Data.t)) : Fingerprints.Env :=
  fun R c n =>
    match c in Fingerprints.Command R return R with
    | Fingerprints.hook c' => device _ c' n
    | Fingerprints.device c' =>
        Fixture.envOf
          {| Fixture.storedToken := Resolved None;
             Fixture.officeAnswer := Rejected {| responseError := None |};
             Fixture.recordsAnswer := Rejected {| responseError := None |};
             Fixture.postAnswer := Rejected {| responseError := None |};
             Fixture.promptAnswer := prompt;
             Fixture.positionAnswer := fun _ => Rejected {| responseError := None |};
             Fixture.clock := Fixture.at9 |} _ c' n
    | Fingerprints.getToken => token
    | Fingerprints.axios_put _ _ _ => switched
    | Fingerprints.axios_post _ _ _ _ => saved
    | Fingerprints.Date_now => Fixture.at9
    | Fingerprints.Math_random => "k3x9q"
    | Fingerprints.Alert_alert _ _ => tt
    | Fingerprints.setLoading _ => tt
    | Fingerprints.setBiometrics _ => tt
    | Fingerprints.setBiometricsEnabled _ => tt
    end.

(** A status with hardware and a fingerprint, the preference off. *)
Definition capable : BiometricStatus :=
  {| available := true; enrolled := true; enabled := false |}.

(** The list of the backend after the fingerprint of [env] was added. *)
Definition added : Fingerprints.Data.t :=
  {| Fingerprints.Data.biometrics :=
       Some [ {| Fingerprints.Backend.biometricId := "bio_1715331600000_k3x9qk3x9q";
                 Fingerprints.Backend.name := "Fingerprint 1";
                 Fingerprints.Backend.createdAt := "2024-05-10T09:00:00.000Z" |} ];
     Fingerprints.Data.biometricsEnabled := Some false |}.

(** The answer of the backend to a switch. *)
Definition switchedTo (flag : bool) : Fingerprints.Data.t :=
  {| Fingerprints.Data.biometrics := None;
     Fingerprints.Data.biometricsEnabled := Some flag |}.

Definition unreachable : Fingerprints.Failure :=
  {| Fingerprints.response := None; Fingerprints.message := Some "Network Error" |}.

End Handset.

(** ** Properties *)

Local Open Scope list_scope.

(** *** Strings *)

Lemma startsWith_app (n s : string) : Js.startsWith n (n ++ s)%string = true.
Proof.
  induction n as [|c n IH]; simpl; [reflexivity|].
  now rewrite Ascii.eqb_refl, IH.
Qed.

Lemma includes_unfold (n h : string) :
  Js.includes n h =
  Js.startsWith n h || match h with EmptyString => false | String _ t => Js.includes n t end.
Proof. destruct h; reflexivity. Qed.

Lemma includes_app (p n s : string) : Js.includes n (p ++ n ++ s)%string = true.
Proof.
  induction p as [|c p IH]; simpl.
  - rewrite includes_unfold, startsWith_app. reflexivity.
  - rewrite IH. apply orb_true_r.
Qed.

(** *** Runs *)

Lemma Always_bind {A B : Type} (P : forall R : Type, Cmd R -> Prop)
    (p : Prog A) (f : A -> Prog B) :
  Always P p -> (forall a, Always P (f a)) -> Always P (bind p f).
Proof.
  intros Hp Hf. induction Hp as [a|R c k Hc Hk IH]; simpl.
  - apply Hf.
  - constructor; assumption.
Qed.

Lemma Always_call {R : Type} (P : forall R : Type, Cmd R -> Prop) (c : Cmd R) :
  P R c -> Always P (call c).
Proof. intros H. constructor; [exact H | intros r; constructor]. Qed.

(** What a run adds to the trace, when every command satisfies [P]. *)
Lemma run_trace_Always {A : Type} (P : forall R : Type, Cmd R -> Prop)
    (env : Env) (p : Prog A) :
  Always P p ->
  forall tr st, exists added,
    traceOf (run env p tr st) = (tr ++ added)%list /\
    Forall (fun e => match e with Ev c _ => P _ c end) added.
Proof.
  intros Hp. induction Hp as [a|R c k Hc Hk IH]; intros tr st; simpl.
  - exists []. split; [symmetry; apply app_nil_r | constructor].
  - destruct (IH (env R c (List.length tr)) (tr ++ [Ev c (env R c (List.length tr))]) (effect c st))
      as [added [Ht Hf]].
    exists (Ev c (env R c (List.length tr)) :: added). split.
    + rewrite Ht, <- app_assoc. reflexivity.
    + constructor; assumption.
Qed.

(** A run changes the state through its setters only. *)
Lemma run_state_Always {A X : Type} (cells : State -> X) (env : Env) (p : Prog A) :
  Always (fun R c => forall st, cells (effect c st) = cells st) p ->
  forall tr st, cells (stateOf (run env p tr st)) = cells st.
Proof.
  intros Hp. induction Hp as [a|R c k Hc Hk IH]; intros tr st; simpl.
  - reflexivity.
  - rewrite IH. apply Hc.
Qed.

Lemma run_bind {A B : Type} (env : Env) (p : Prog A) (f : A -> Prog B) :
  forall tr st,
    run env (bind p f) tr st =
    run env (f (resultOf (run env p tr st))) (traceOf (run env p tr st)) (stateOf (run env p tr st)).
Proof.
  induction p as [a|R c k IH]; intros tr st; simpl.
  - reflexivity.
  - apply IH.
Qed.

Lemma posts_app (l l' : list Event) : posts (l ++ l') = (posts l ++ posts l')%list.
Proof.
  induction l as [|[R c r] l IH]; simpl; [reflexivity|].
  destruct c; simpl; rewrite IH; reflexivity.
Qed.

Lemma toasts_app (l l' : list Event) : toasts (l ++ l') = (toasts l ++ toasts l')%list.
Proof.
  induction l as [|[R c r] l IH]; simpl; [reflexivity|].
  destruct c; simpl; rewrite IH; reflexivity.
Qed.

Lemma recordFetches_app (l l' : list Event) :
  recordFetches (l ++ l') = (recordFetches l ++ recordFetches l')%list.
Proof.
  induction l as [|[R c r] l IH]; simpl; [reflexivity|].
  destruct c; simpl; rewrite IH; reflexivity.
Qed.

Lemma quiet_app (p : Event -> bool) (l l' : list Event) :
  quiet p (l ++ l') = quiet p l && quiet p l'.
Proof. apply forallb_app. Qed.

Lemma posts_none (l : list Event) :
  Forall (fun e => match e with Ev c _ => notPost _ c end) l -> posts l = [].
Proof.
  induction 1 as [|[R c r] l Hc _ IH]; simpl; [reflexivity|].
  destruct c; simpl in *; try assumption. contradiction.
Qed.

(** *** Tactics *)

(** Walks a handler's tree: one rule per way of building a program. *)
Ltac always :=
  repeat first
    [ apply Always_Ret
    | apply Always_call; simpl
    | apply Always_bind; [|intros ?]
    | apply Always_Vis; [simpl|intros ?]
    | match goal with
      | |- Always _ (match ?x with _ => _ end) => destruct x
      end
    | reflexivity
    | exact I ].

(** Case analysis on what the environment answered and on the tests of a
    handler, one at a time. *)
Ltac branch :=
  match goal with
  | |- context [match ?x with Resolved _ => _ | Rejected _ => _ end] =>
      let E := fresh "E" in destruct x eqn:E
  | |- context [match ?x with Some _ => _ | None => _ end] =>
      let E := fresh "E" in destruct x eqn:E
  | |- context [if ?x then _ else _] =>
      let E := fresh "E" in destruct x eqn:E
  end; simpl.

(** Rewrites one answer of the environment with the hypothesis [H] that
    fixes it. *)
Ltac answered H :=
  match goal with
  | |- context [?e _ (authenticateAsync ?o) ?n] => rewrite (H o n)
  | |- context [?e _ (axios_post ?u ?b ?a) ?n] => rewrite (H u b a n)
  | |- context [?e _ ?c ?n] => rewrite (H n)
  end.

(** Closes the side conditions of a tree that leaves the geofence cells
    alone. *)
Ltac keeps_geo :=
  always; (let s := fresh "s" in intros s; destruct s; reflexivity).

(** Builds a [GeoShape] between two explicit states. *)
Ltac geo_shape :=
  constructor; simpl;
  [ first [left; reflexivity | right; eexists; reflexivity]
  | first [left; reflexivity | right; eexists; reflexivity]
  | first
      [ left; split; reflexivity
      | right; left; reflexivity
      | right; right; do 2 eexists; (split; [|split; [|split]]);
        [ | | reflexivity | reflexivity ];
        [ first [right; reflexivity | left; eauto] | eauto ] ] ].

Section Properties.

Variable pf : Platform.

(** *** Time-in outside the geofence *)

(** C1 (as amended).  Whenever [handleTimeIn] runs with
    [isWithinRange = false] it shows exactly one message, prompts for no
    biometric, issues no request and changes no state; the biometric status
    is not consulted (any other status gives the same run).  The message is
    the no-location one when [currentLocation] is null, and otherwise the
    out-of-range one, which carries the text of the current distance. *)
Theorem handleTimeIn_outside_range (env : Env) (scope st : State) :
  isWithinRange scope = false ->
  let r := exec env (handleTimeIn pf scope) st in
  quiet isBiometric (traceOf r) = true /\
  quiet isNetwork (traceOf r) = true /\
  stateOf r = st /\
  toasts (traceOf r) =
    [match currentLocation scope with
     | None => ("Unable to get your current location", error)
     | Some _ =>
         (("You must be within office range to time in. You are currently "
           ++ Js.template (distance scope) ++ " meters away from the office.")%string, warning)
     end] /\
  (forall b, exec env (handleTimeIn pf (withBiometricStatus b scope)) st = r) /\
  (currentLocation scope <> None -> timeInDeniedWithDistance pf env scope st).
Proof.
  intros Hout r. subst r. unfold timeInDeniedWithDistance, exec, handleTimeIn.
  destruct scope as [? ? ? cl ? ? ? ? ? ? ? ? ? ? ? ? ? ? ?]; simpl in *. subst.
  destruct cl as [loc|]; simpl;
    (split; [reflexivity|]); (split; [reflexivity|]); (split; [reflexivity|]);
    (split; [reflexivity|]); (split; [intros b; reflexivity|]); intros Hloc.
  - split; [|split; reflexivity].
    do 2 eexists. split; [reflexivity|].
    exact (includes_app "You must be within office range to time in. You are currently "
             _ " meters away from the office.").
  - now elim Hloc.
Qed.

(** *** The biometric gate *)

(** C6.  An authentication of time tracking ([forceAuth], or a prompt
    that contains "time in" or "time out") returns [true] only when the
    hardware is available and enrolled and the platform prompt, called
    once with the passcode fallback disabled, reported success; and its
    run does not depend on the [enabled] preference.  The same
    independence holds for [handleTimeIn] and [handleTimeOut]. *)
Theorem authenticate_time_tracking (env : Env) (bs : BiometricStatus)
    (prompt : string) (force : bool) (st : State) :
  isTimeTracking prompt force = true ->
  let r := exec env (authenticate bs prompt force) st in
  (resultOf r = true ->
     available bs = true /\ enrolled bs = true /\
     traceOf r = [Ev (authenticateAsync (biometricOnly prompt)) (Resolved true)]) /\
  (forall e, In e (traceOf r) ->
     exists answer, e = Ev (authenticateAsync (biometricOnly prompt)) answer) /\
  (forall v, exec env (authenticate (withEnabled v bs) prompt force) st = r) /\
  (forall scope v,
     exec env (handleTimeIn pf (withBiometricStatus (withEnabled v (biometricStatus scope)) scope)) st
     = exec env (handleTimeIn pf scope) st) /\
  (forall scope v,
     exec env (handleTimeOut pf (withBiometricStatus (withEnabled v (biometricStatus scope)) scope)) st
     = exec env (handleTimeOut pf scope) st).
Proof.
  intros Htt r. subst r. unfold isTimeTracking in Htt.
  assert (Hskip : forall en,
             negb en && negb (Js.includes "time in" prompt || Js.includes "time out" prompt)
             && negb force = false).
  { intros en. destruct en; [reflexivity|]. simpl.
    rewrite <- orb_assoc in Htt.
    destruct force; [apply andb_false_r|]. simpl in Htt. rewrite Htt. reflexivity. }
  split; [|split; [|split; [|split]]].
  - unfold exec, authenticate, biometricOnly.
    destruct (available bs), (enrolled bs); simpl; try discriminate.
    rewrite Hskip. simpl.
    destruct (env _ _ _) as [ok|e] eqn:E; unfold resultOf, traceOf; simpl; [|discriminate].
    intros ->. repeat split; reflexivity.
  - unfold exec, authenticate, biometricOnly.
    destruct (available bs), (enrolled bs); simpl; try (intros e []).
    rewrite Hskip. simpl.
    destruct (env _ _ _) as [ok|e] eqn:E; unfold traceOf; simpl;
      intros e' [<-|[]]; eexists; reflexivity.
  - intros v. unfold exec, authenticate, withEnabled. simpl.
    destruct (available bs), (enrolled bs); simpl; try reflexivity.
    now rewrite !Hskip.
  - intros [? ? ? cl ? ? ? ? wr ? ? ? ? ? ? ? ? ? [a e en]] v.
    unfold exec, handleTimeIn, authenticate, withEnabled; simpl.
    destruct cl, wr, a, e, en, v; reflexivity.
  - intros [? ? ? cl ? ? ? ar wr ? ? ? ? ? ? ? ? ? [a e en]] v.
    unfold exec, handleTimeOut, authenticate, withEnabled; simpl.
    destruct ar, cl, wr, a, e, en, v; reflexivity.
Qed.

(** *** The records refresh as a step of other handlers *)

Lemma fetchTimeRecords_notPost (scope : State) :
  Always notPost (fetchTimeRecords pf scope).
Proof. unfold fetchTimeRecords, fetchTimeRecordsFailed. always. Qed.

Lemma fetchTimeRecords_posts (env : Env) (scope : State) (tr : list Event) (st : State) :
  posts (traceOf (run env (fetchTimeRecords pf scope) tr st)) = posts tr.
Proof.
  destruct (run_trace_Always notPost env _ (fetchTimeRecords_notPost scope) tr st)
    as [added [-> Hadded]].
  rewrite posts_app, (posts_none _ Hadded). apply app_nil_r.
Qed.





(** *** Session resolution *)

Lemma insertRecord_perm (x : TimeRecord.t) (l : list TimeRecord.t) :
  Permutation (x :: l) (insertRecord pf x l).
Proof.
  induction l as [|y l IH]; simpl; [apply Permutation_refl|].
  destruct (compareNewestFirst pf x y <=? 0); [apply Permutation_refl|].
  eapply Permutation_trans; [apply perm_swap|]. apply perm_skip, IH.
Qed.

Lemma sortNewestFirst_perm (data : list TimeRecord.t) :
  Permutation data (sortNewestFirst pf data).
Proof.
  induction data as [|x data IH]; simpl; [constructor|].
  eapply Permutation_trans; [apply perm_skip, IH | apply insertRecord_perm].
Qed.



Lemma fetchTimeRecords_keepsGeo (scope : State) :
  Always keepsGeo (fetchTimeRecords pf scope).
Proof. unfold fetchTimeRecords, fetchTimeRecordsFailed, keepsGeo. keeps_geo. Qed.

Opaque fetchTimeRecords.

(** *** Time-out *)

(** C4 (as amended).  [handleTimeOut] answers "No active time record
    found" when there is no active record; it issues no request when the
    state does not admit the time-out or when the biometric prompt does not
    report success; and when the state admits it, the prompt succeeds and a
    user token is stored, its only POST is the time-out request for the
    active record, with the current coordinates and session. *)
Theorem handleTimeOut_gate (env : Env) (scope st : State) :
  let r := exec env (handleTimeOut pf scope) st in
  (activeTimeRecord scope = None ->
     toasts (traceOf r) = [("No active time record found", error)]) /\
  (timeOutAdmissible scope = false ->
     quiet isNetwork (traceOf r) = true /\ quiet isBiometric (traceOf r) = true) /\
  ((forall opts n, env _ (authenticateAsync opts) n <> Resolved true) ->
     quiet isNetwork (traceOf r) = true) /\
  (forall record location token,
     activeTimeRecord scope = Some record ->
     currentLocation scope = Some location ->
     timeOutAdmissible scope = true ->
     promptSucceeds env ->
     answers env (AsyncStorage_getItem "userToken") (Resolved (Some token)) ->
     Js.truthy token = true ->
     posts (traceOf r) =
       [(timeOutUrl pf record, TimeBody (wireCoordinates location) (activeSession scope) true, token)]).
Proof.
  intros r. subst r.
  destruct scope as [? ? ? cl ? ? sess ar wr ? ? ? ? ? ? ? ? ? [a e en]].
  unfold timeOutAdmissible, timeOutUrl, exec, handleTimeOut, authenticate; simpl.
  split; [|split; [|split]].
  - intros ->. reflexivity.
  - intros Hno. destruct ar, cl, wr, a, e; simpl in *; try discriminate; split; reflexivity.
  - intros Hfail.
    destruct ar, cl, wr, a, e, en; simpl; try reflexivity;
      (match goal with
       | |- context [env ?R (authenticateAsync ?o) ?t] =>
           destruct (env R (authenticateAsync o) t) as [[|]|err] eqn:E
       end; simpl; try reflexivity; now elim (Hfail _ _ E)).
  - intros record location token -> -> Hadm Hprompt Htok Htruthy.
    destruct wr, a, e, en; simpl in *; try discriminate;
      answered Hprompt; simpl; answered Htok; simpl; rewrite Htruthy; simpl;
      (destruct (env _ (axios_post _ _ _) _) as [message|err]; simpl;
       [rewrite fetchTimeRecords_posts|]; reflexivity).
Qed.

(** *** Failed and successful submissions *)


(** *** Geofence membership *)

(** C7.  Membership is the non-strict comparison of the rounded distance
    with the radius: [isWithin d r] holds exactly when [d <= r]; so for a
    fixed radius it holds for every smaller distance once it holds for
    one, and fails for every distance above the radius.  [checkOfficeRange]
    stores that test of the distance it stores. *)
Theorem isWithin_monotone (d : Z) (r : Q) :
  (isWithin d r = true <-> (inject_Z d <= r)%Q) /\
  (forall d', d' <= d -> isWithin d r = true -> isWithin d' r = true) /\
  ((r < inject_Z d)%Q -> isWithin d r = false) /\
  (forall env scope office location st,
     officeLocation scope = Some office ->
     let st' := stateOf (exec env (checkOfficeRange pf scope (Some location)) st) in
     exists d0,
       distance st' = Some d0 /\
       isWithinRange st' = isWithin d0 (OfficeLocation.radius office)).
Proof.
  unfold isWithin. split; [apply Qle_bool_iff|]. split; [|split].
  - intros d' Hle H. apply Qle_bool_iff in H. apply Qle_bool_iff.
    apply Qle_trans with (inject_Z d); [|exact H].
    rewrite <- Zle_Qle. exact Hle.
  - intros Hlt. destruct (Qle_bool (inject_Z d) r) eqn:E; [|reflexivity].
    apply Qle_bool_iff in E. exfalso. apply (Qlt_not_le _ _ Hlt E).
  - intros env scope office location st Ho.
    unfold exec, checkOfficeRange. rewrite Ho.
    destruct (OfficeLocation.coordinates office) as [officeLong officeLat]. simpl.
    eexists. destruct st; simpl. split; reflexivity.
Qed.

(** *** The location watch *)

Lemma ltb_lt (x y : Q) : Js.ltb x y = true <-> (x < y)%Q.
Proof.
  unfold Js.ltb. split; intros H.
  - apply Qnot_le_lt. intros Hle. apply Qle_bool_iff in Hle. rewrite Hle in H. discriminate.
  - destruct (Qle_bool y x) eqn:E; [|reflexivity].
    apply Qle_bool_iff in E. exfalso. apply (Qlt_not_le _ _ H E).
Qed.

(** C8 (as amended).  A sample whose accuracy is 30 m or more, is zero or
    is missing changes no state: it is logged and nothing else happens.  A
    sample whose accuracy is a non-zero number below 30 becomes the current
    location; when the render knows an office, the distance to it and the
    membership test are stored with it, and when it knows none the run
    goes on with [fetchOfficeLocation]. *)
Theorem watchPositionCallback_filter (env : Env) (scope : State)
    (location : LocationObject) (st : State) :
  let r := exec env (watchPositionCallback pf scope location) st in
  (match accuracy location with
   | Some a => (30 <= a)%Q \/ (a == 0)%Q
   | None => True
   end ->
   stateOf r = st /\ quiet isSetter (traceOf r) = true /\
   exists msg answer, traceOf r = [Ev (console_log msg) answer]) /\
  (forall a, accuracy location = Some a -> (a < 30)%Q -> ~ (a == 0)%Q ->
     currentLocation (stateOf r) = Some location /\
     (forall office, officeLocation scope = Some office ->
        let d := haversineMeters pf (latitude location) (longitude location)
                   (snd (OfficeLocation.coordinates office))
                   (fst (OfficeLocation.coordinates office)) in
        distance (stateOf r) = Some d /\
        isWithinRange (stateOf r) = isWithin d (OfficeLocation.radius office)) /\
     (officeLocation scope = None ->
        r = run env (fetchOfficeLocation pf scope ;; Ret tt)
              [Ev (setState (SetCurrentLocation (Some location)))
                  (env unit (setState (SetCurrentLocation (Some location))) 0%nat)]
              (applyUpdate (SetCurrentLocation (Some location)) st))).
Proof.
  intros r. subst r. unfold exec, watchPositionCallback. split.
  - intros Hbad.
    assert (Hskip : Js.truthyNum (accuracy location) &&
                    match accuracy location with Some a => Js.ltb a 30 | None => false end
                    = false).
    { destruct (accuracy location) as [a|]; simpl; [|reflexivity].
      destruct Hbad as [Hge|Hz].
      - destruct (Js.ltb a 30) eqn:E; [|apply andb_false_r].
        apply ltb_lt in E. exfalso. apply (Qlt_not_le _ _ E Hge).
      - apply Qeq_bool_iff in Hz. now rewrite Hz. }
    rewrite Hskip. simpl.
    split; [reflexivity|]. split; [reflexivity|]. do 2 eexists. reflexivity.
  - intros a Ha Hlt Hnz. rewrite Ha. simpl.
    assert (Hz : Qeq_bool a 0 = false).
    { destruct (Qeq_bool a 0) eqn:E; [|reflexivity]. apply Qeq_bool_iff in E. contradiction. }
    apply ltb_lt in Hlt. rewrite Hz, Hlt. simpl.
    destruct (officeLocation scope) as [office|] eqn:Ho.
    + unfold checkOfficeRange. rewrite Ho.
      destruct (OfficeLocation.coordinates office) as [officeLong officeLat] eqn:Hc. simpl.
      destruct st; simpl. split; [reflexivity|]. split; [|discriminate].
      intros office' [= <-]. rewrite Hc. simpl. split; reflexivity.
    + split; [|split; [intros office [=] | reflexivity]].
      rewrite (run_state_Always currentLocation).
      * destruct st; reflexivity.
      * unfold useDefaultOffice, checkOfficeRange.
        always; (let s := fresh "s" in intros s; destruct s; reflexivity).
Qed.

(** *** Offset submission *)

(** C3 (as amended).  [handleOffsetSubmit] checks, in this order and
    stopping at the first failure with that rule's message, before any
    request and without changing state: a record is selected; the makeup
    date, when given, has the form YYYY-MM-DD; the undertime date is among
    the available dates; a record of that date is found; the makeup date,
    when given, is not before today.  A form without makeup date passes both
    makeup-date rules.  The hours are not examined: when every rule holds
    and a token is stored, the one POST goes to the offset address of the
    record found, carrying the undertime and makeup hours as they are. *)
Theorem handleOffsetSubmit_validation (env : Env) (scope st : State) (today : Z) :
  answers env newDate today ->
  let r := exec env (handleOffsetSubmit pf scope) st in
  match firstFailure pf scope today handlerSequence with
  | Some rule =>
      exists msg, ruleMessage rule = Some msg /\
        toasts (traceOf r) = [(msg, error)] /\
        quiet isNetwork (traceOf r) = true /\
        stateOf r = st
  | None =>
      exists record,
        find (fun record => formatRecordDate pf (TimeRecord.date record) =? undertimeDate scope)%string
             (timeRecords scope) = Some record /\
        forall token,
          answers env (AsyncStorage_getItem "userToken") (Resolved (Some token)) ->
          Js.truthy token = true ->
          posts (traceOf r) =
            [(offsetUrl pf record,
              OffsetBody (undertimeDate scope) (undertime scope) (makeup scope)
                (if Js.truthy (makeupDate scope) then Some (makeupDate scope) else None),
              token)]
  end /\
  (makeupDate scope = ""%string ->
     ruleHolds pf scope today MakeupDateFormat = true /\
     ruleHolds pf scope today MakeupDateNotPast = true).
Proof.
  intros Hnow r. subst r. split.
  - unfold firstFailure, handlerSequence, ruleHolds, exec, handleOffsetSubmit, offsetUrl.
    simpl.
    destruct (selectedRecord scope) as [selected|]; simpl;
      [|eexists; repeat split; reflexivity].
    destruct (Js.truthy (makeupDate scope)) eqn:Hm; simpl.
    + destruct (Js.isYMD (makeupDate scope)); simpl;
        [|eexists; repeat split; reflexivity].
      destruct (Js.includesStr (undertimeDate scope) (availableDates scope)); simpl;
        [|eexists; repeat split; reflexivity].
      destruct (find _ (timeRecords scope)) as [record|]; simpl;
        [|eexists; repeat split; reflexivity].
      answered Hnow.
      destruct (beforeToday pf (makeupDate scope) today); simpl;
        [eexists; repeat split; reflexivity|].
      exists record. split; [reflexivity|].
      intros token Htok Htruthy. unfold submitOffset. rewrite Hm. simpl.
      answered Htok. simpl. rewrite Htruthy. simpl.
      branch; [rewrite fetchTimeRecords_posts|]; reflexivity.
    + destruct (Js.includesStr (undertimeDate scope) (availableDates scope)); simpl;
        [|eexists; repeat split; reflexivity].
      destruct (find _ (timeRecords scope)) as [record|]; simpl;
        [|eexists; repeat split; reflexivity].
      exists record. split; [reflexivity|].
      intros token Htok Htruthy. unfold submitOffset. rewrite Hm. simpl.
      answered Htok. simpl. rewrite Htruthy. simpl.
      branch; [rewrite fetchTimeRecords_posts|]; reflexivity.
  - intros Hempty. unfold ruleHolds. rewrite Hempty. split; reflexivity.
Qed.

(** *** The geofence cells over time *)

Lemma handleTimeIn_keepsGeo (scope : State) : Always keepsGeo (handleTimeIn pf scope).
Proof.
  unfold handleTimeIn, authenticate.
  always; try apply fetchTimeRecords_keepsGeo;
    (let s := fresh "s" in intros s; destruct s; reflexivity).
Qed.

Lemma handleTimeOut_keepsGeo (scope : State) : Always keepsGeo (handleTimeOut pf scope).
Proof.
  unfold handleTimeOut, authenticate.
  always; try apply fetchTimeRecords_keepsGeo;
    (let s := fresh "s" in intros s; destruct s; reflexivity).
Qed.

Lemma handleOffsetModalOpen_keepsGeo (scope : State) (record : TimeRecord.t) :
  Always keepsGeo (handleOffsetModalOpen pf scope record).
Proof. unfold handleOffsetModalOpen. keeps_geo. Qed.

Lemma handleOffsetSubmit_keepsGeo (scope : State) : Always keepsGeo (handleOffsetSubmit pf scope).
Proof.
  unfold handleOffsetSubmit, submitOffset.
  always; try apply fetchTimeRecords_keepsGeo;
    (let s := fresh "s" in intros s; destruct s; reflexivity).
Qed.

(** *** The invariant of the geofence cells *)

(** What [checkOfficeRange] does to the state. *)
Lemma checkOfficeRange_state (env : Env) (scope : State) (location : option LocationObject)
    (tr : list Event) (st : State) :
  stateOf (run env (checkOfficeRange pf scope location) tr st) =
  match officeLocation scope, location with
  | Some o, Some l =>
      applyUpdate (SetIsWithinRange (isWithin (metersBetween pf l o) (OfficeLocation.radius o)))
        (applyUpdate (SetDistance (Some (metersBetween pf l o))) st)
  | _, _ => st
  end.
Proof.
  unfold checkOfficeRange, metersBetween.
  destruct (officeLocation scope) as [o|]; [|reflexivity].
  destruct location as [l|]; [|reflexivity].
  destruct (OfficeLocation.coordinates o) as [officeLong officeLat]. reflexivity.
Qed.



Opaque checkOfficeRange.

Lemma GeoShape_same (states : list State) (st st' : State) :
  geoCells st' = geoCells st -> GeoShape pf states st st'.
Proof.
  unfold geoCells. intros [= Hl Ho Hw Hd]. constructor; auto.
Qed.

Lemma seenLocation_cons (s : State) (states : list State) (l : LocationObject) :
  seenLocation (s :: states) l <-> currentLocation s = Some l \/ seenLocation states l.
Proof.
  unfold seenLocation. split.
  - intros [x [[<-|Hin] Hx]]; [left; exact Hx | right; exists x; auto].
  - intros [Hs|[x [Hin Hx]]]; [exists s | exists x]; simpl; auto.
Qed.

Lemma seenOffice_cons (s : State) (states : list State) (o : OfficeLocation.t) :
  seenOffice (s :: states) o <-> officeLocation s = Some o \/ seenOffice states o.
Proof.
  unfold seenOffice. split.
  - intros [x [[<-|Hin] Hx]]; [left; exact Hx | right; exists x; auto].
  - intros [Hs|[x [Hin Hx]]]; [exists s | exists x]; simpl; auto.
Qed.

Lemma Sound_step (st : State) (history : list State) (st' : State) :
  Sound pf (st :: history) ->
  GeoShape pf (st :: history) st st' ->
  Sound pf (st' :: st :: history).
Proof.
  intros (Hloc & Hoff & Hfence) [Sl So Sf]. unfold Sound.
  assert (Hloc' : (exists l, seenLocation (st' :: st :: history) l) -> currentLocation st' <> None).
  { intros [l Hl]. apply seenLocation_cons in Hl. destruct Hl as [Hl|Hl]; [congruence|].
    destruct Sl as [Sl|[l' Sl]]; [|congruence].
    rewrite Sl. apply Hloc. exists l. exact Hl. }
  assert (Hoff' : (exists o, seenOffice (st' :: st :: history) o) -> officeLocation st' <> None).
  { intros [o Ho]. apply seenOffice_cons in Ho. destruct Ho as [Ho|Ho]; [congruence|].
    destruct So as [So|[o' So]]; [|congruence].
    rewrite So. apply Hoff. exists o. exact Ho. }
  split; [exact Hloc'|]. split; [exact Hoff'|].
  intros Hw. destruct Sf as [[Sw Sd]|[Sw|(l & o & Hl & Ho & Sd & Sw)]].
  - rewrite Sw in Hw. destruct (Hfence Hw) as (l & o & Hl & Ho & Hd & Hin).
    exists l, o. rewrite Sd.
    repeat split; try assumption;
      [apply seenLocation_cons | apply seenOffice_cons]; right; assumption.
  - congruence.
  - exists l, o. repeat split.
    + apply seenLocation_cons. destruct Hl as [Hl|Hl]; [right; exact Hl | left; exact Hl].
    + apply seenOffice_cons. right. exact Ho.
    + exact Sd.
    + rewrite <- Sw. exact Hw.
Qed.

Lemma checkOfficeRange_shape (env : Env) (scope : State) (location : LocationObject)
    (states : list State) (st : State) :
  Snapshot states scope ->
  seenLocation states location ->
  GeoShape pf states st (stateOf (exec env (checkOfficeRange pf scope (Some location)) st)).
Proof.
  intros [HL HO] Hseen. unfold exec. rewrite checkOfficeRange_state.
  destruct (officeLocation scope) as [o|] eqn:Eo; destruct st; geo_shape.
Qed.

Lemma getCurrentLocation_shape (env : Env) (scope : State) (states : list State) (st : State) :
  Snapshot states scope ->
  GeoShape pf states st (stateOf (exec env (getCurrentLocation pf scope) st)).
Proof.
  intros [HL HO]. unfold exec, getCurrentLocation. simpl.
  repeat branch; rewrite ?run_bind; simpl; rewrite ?checkOfficeRange_state;
    destruct (officeLocation scope) as [o|] eqn:Eo; destruct st; geo_shape.
Qed.

Lemma fetchOfficeLocation_shape (env : Env) (scope : State) (states : list State) (st : State) :
  Snapshot states scope ->
  GeoShape pf states st (stateOf (exec env (fetchOfficeLocation pf scope) st)).
Proof.
  intros [HL HO]. unfold exec, fetchOfficeLocation, useDefaultOffice. simpl.
  repeat branch; rewrite ?run_bind; simpl; rewrite ?run_bind; simpl;
    rewrite ?checkOfficeRange_state;
    destruct (officeLocation scope) as [o|] eqn:Eo; destruct st; geo_shape.
Qed.

Lemma watchPositionCallback_shape (env : Env) (scope : State) (location : LocationObject)
    (states : list State) (st : State) :
  Snapshot states scope ->
  GeoShape pf states st (stateOf (exec env (watchPositionCallback pf scope location) st)).
Proof.
  intros [HL HO]. unfold exec, watchPositionCallback, fetchOfficeLocation, useDefaultOffice.
  simpl.
  repeat branch; rewrite ?run_bind; simpl; rewrite ?run_bind; simpl;
    rewrite ?checkOfficeRange_state;
    try (destruct (officeLocation scope) as [o|] eqn:Eo); try discriminate;
    destruct st; geo_shape.
Qed.

Lemma Snapshot_In (states : list State) (scope : State) :
  In scope states -> Snapshot states scope.
Proof.
  intros Hin. split; intros x Hx; exists scope; split; assumption.
Qed.

Lemma GeoStep_shape (states : list State) (st st' : State) :
  GeoStep pf states st st' -> GeoShape pf states st st'.
Proof.
  intros Hstep. destruct Hstep.
  - apply getCurrentLocation_shape; assumption.
  - apply watchPositionCallback_shape; assumption.
  - apply fetchOfficeLocation_shape; assumption.
  - apply checkOfficeRange_shape; assumption.
  - apply GeoShape_same, (run_state_Always geoCells), handleTimeIn_keepsGeo.
  - apply GeoShape_same, (run_state_Always geoCells), handleTimeOut_keepsGeo.
  - apply GeoShape_same, (run_state_Always geoCells), fetchTimeRecords_keepsGeo.
  - apply GeoShape_same, (run_state_Always geoCells), handleOffsetModalOpen_keepsGeo.
  - apply GeoShape_same, (run_state_Always geoCells), handleOffsetSubmit_keepsGeo.
  - apply GeoShape_same; assumption.
Qed.

Lemma Reachable_Sound (states : list State) : Reachable pf states -> Sound pf states.
Proof.
  induction 1 as [|st history st' _ IH Hstep].
  - unfold Sound. repeat split.
    + intros [l [s [[<-|[]] Hs]]]. discriminate Hs.
    + intros [o [s [[<-|[]] Hs]]]. discriminate Hs.
    + discriminate.
  - apply Sound_step; [exact IH | apply GeoStep_shape; exact Hstep].
Qed.



(** ** More properties of the screen, of the hook and of the sliders *)

(** *** A program that starts in the middle of a run *)

Lemma run_shift_gen {A : Type} (p : Prog A) :
  forall (env env' : Env) tr st,
    (forall R (c : Cmd R) n, env' R c n = env R c (List.length tr + n)%nat) ->
    run env p tr st =
    (resultOf (exec env' p st), tr ++ traceOf (exec env' p st), stateOf (exec env' p st)).
Proof.
  unfold exec.
  induction p as [a|R c k IH]; intros env env' tr st Henv; simpl.
  - now rewrite app_nil_r.
  - rewrite (Henv R c 0%nat), Nat.add_0_r.
    rewrite (IH _ env (shiftEnv 1 env')).
    + rewrite (IH _ env' (shiftEnv 1 env') [_]); [|reflexivity].
      simpl. rewrite <- app_assoc. reflexivity.
    + intros R' c' n. unfold shiftEnv. rewrite Henv, length_app. simpl.
      f_equal. lia.
Qed.

Lemma run_shift {A : Type} (env : Env) (p : Prog A) (tr : list Event) (st : State) :
  run env p tr st =
  (resultOf (exec (shiftEnv (List.length tr) env) p st),
   tr ++ traceOf (exec (shiftEnv (List.length tr) env) p st),
   stateOf (exec (shiftEnv (List.length tr) env) p st)).
Proof. apply run_shift_gen. reflexivity. Qed.

Lemma answers_shift {R : Type} (env : Env) (c : Cmd R) (r : R) (k : nat) :
  answers env c r -> answers (shiftEnv k env) c r.
Proof. intros H n. apply H. Qed.

(** *** Time-in *)

(** The request of an admitted time-in. *)
Lemma handleTimeIn_request (env : Env) (scope st : State) (location : LocationObject)
    (token : string) :
  currentLocation scope = Some location ->
  timeInAdmissible scope = true ->
  promptSucceeds env ->
  answers env (AsyncStorage_getItem "userToken") (Resolved (Some token)) ->
  Js.truthy token = true ->
  posts (traceOf (exec env (handleTimeIn pf scope) st)) =
    [((API_URL pf ++ "/api/time-records/time-in")%string,
      TimeBody (wireCoordinates location) (activeSession scope) true, token)].
Proof.
  destruct scope as [? ? ? cl ? ? sess ar wr ? ? ? ? ? ? ? ? ? [a e en]].
  unfold timeInAdmissible, exec, handleTimeIn, authenticate; simpl.
  intros -> Hadm Hprompt Htok Htruthy.
  destruct wr, a, e, en; simpl in *; try discriminate;
    answered Hprompt; simpl; answered Htok; simpl; rewrite Htruthy; simpl;
    (destruct (env _ (axios_post _ _ _) _) as [message|err]; simpl;
     [rewrite run_bind; simpl; rewrite posts_app, fetchTimeRecords_posts|]; reflexivity).
Qed.

(** X1.  [handleTimeIn] asks for a time-in only through its gate.  When
    the state does not admit it (no location, out of range, biometrics not
    set up) or the prompt does not report success, nothing is requested;
    a denial shows one message and changes no state, the message naming
    the biometric set-up or the failed prompt once location and range
    are in order.  When the state admits it, the prompt succeeds and a
    token is stored, the one POST goes to the time-in address with the
    coordinates as (longitude, latitude), the render's session and
    [biometricAuthenticated = true].  No run posts twice, and the handler
    does not look at [activeTimeRecord]. *)
Theorem handleTimeIn_gate (env : Env) (scope st : State) :
  let r := exec env (handleTimeIn pf scope) st in
  (timeInAdmissible scope = false ->
     quiet isNetwork (traceOf r) = true /\ quiet isBiometric (traceOf r) = true /\
     stateOf r = st /\ exists msg kind, toasts (traceOf r) = [(msg, kind)]) /\
  ((forall opts n, env _ (authenticateAsync opts) n <> Resolved true) ->
     quiet isNetwork (traceOf r) = true) /\
  (forall location token,
     currentLocation scope = Some location ->
     timeInAdmissible scope = true ->
     promptSucceeds env ->
     answers env (AsyncStorage_getItem "userToken") (Resolved (Some token)) ->
     Js.truthy token = true ->
     posts (traceOf r) =
       [((API_URL pf ++ "/api/time-records/time-in")%string,
         TimeBody (wireCoordinates location) (activeSession scope) true, token)]) /\
  (List.length (posts (traceOf r)) <= 1)%nat /\
  (forall record,
     exec env (handleTimeIn pf (applyUpdate (SetActiveTimeRecord record) scope)) st = r) /\
  (currentLocation scope <> None -> isWithinRange scope = true ->
     (available (biometricStatus scope) && enrolled (biometricStatus scope) = false ->
        toasts (traceOf r) =
          [("Biometric authentication is not set up on this device. Please enroll your fingerprint in device settings.",
            error)]) /\
     (timeInAdmissible scope = true ->
      (forall opts n, env _ (authenticateAsync opts) n <> Resolved true) ->
        toasts (traceOf r) = [("Biometric authentication failed or was cancelled", error)] /\
        stateOf r = st)).
Proof.
  intros r. subst r.
  split; [|split; [|split; [|split; [|split]]]]; [| |apply handleTimeIn_request| | |];
    destruct scope as [? ? ? cl ? ? sess ar wr ? ? ? ? ? ? ? ? ? [a e en]];
    unfold timeInAdmissible, exec, handleTimeIn, authenticate; simpl.
  - intros Hno. destruct cl, wr, a, e; simpl in *; try discriminate;
      repeat split; try reflexivity; do 2 eexists; reflexivity.
  - intros Hfail.
    destruct cl, wr, a, e, en; simpl; try reflexivity;
      (match goal with
       | |- context [env ?R (authenticateAsync ?o) ?t] =>
           destruct (env R (authenticateAsync o) t) as [[|]|err] eqn:E
       end; simpl; try reflexivity; now elim (Hfail _ _ E)).
  - destruct cl, wr, a, e, en; simpl; try lia; repeat branch; try lia;
      rewrite ?run_bind; simpl; rewrite ?posts_app, ?fetchTimeRecords_posts; simpl; lia.
  - intros record. reflexivity.
  - intros Hloc Hw. destruct cl as [location|]; [|now elim Hloc]. simpl in Hw. subst wr.
    split.
    + intros Hbio. destruct a, e; simpl in *; try discriminate; reflexivity.
    + intros Hadm Hfail. destruct a, e; simpl in Hadm; try discriminate.
      destruct en; simpl;
        (match goal with
         | |- context [env ?R (authenticateAsync ?o) ?t] =>
             destruct (env R (authenticateAsync o) t) as [[|]|err] eqn:E
         end; simpl; try (split; reflexivity); now elim (Hfail _ _ E)).
Qed.

(** *** The current location *)

Transparent checkOfficeRange.

(** X2.  [getCurrentLocation] asks for the position at high accuracy with
    a timeout of ten seconds and, if that fails, once more at balanced
    accuracy without timeout.  It returns the location it obtained, which
    is then the current location, with the fence evaluated against the
    office of the render (left as it was when the render knows none); it
    returns null exactly when both attempts fail, having shown one message
    and changed no state.  It never uses the network of the server. *)
Theorem getCurrentLocation_retry (env : Env) (scope st : State) :
  let r := exec env (getCurrentLocation pf scope) st in
  (forall location,
     answers env (getCurrentPositionAsync High (Some 10000)) (Resolved location) ->
     resultOf r = Some location /\
     positionRequests (traceOf r) = [(High, Some 10000)]) /\
  (forall e location,
     answers env (getCurrentPositionAsync High (Some 10000)) (Rejected e) ->
     answers env (getCurrentPositionAsync Balanced None) (Resolved location) ->
     resultOf r = Some location /\
     positionRequests (traceOf r) = [(High, Some 10000); (Balanced, None)]) /\
  (forall e e',
     answers env (getCurrentPositionAsync High (Some 10000)) (Rejected e) ->
     answers env (getCurrentPositionAsync Balanced None) (Rejected e') ->
     resultOf r = None /\
     positionRequests (traceOf r) = [(High, Some 10000); (Balanced, None)]) /\
  (forall location,
     resultOf r = Some location ->
     currentLocation (stateOf r) = Some location /\ toasts (traceOf r) = [] /\
     match officeLocation scope with
     | Some office =>
         distance (stateOf r) = Some (metersBetween pf location office) /\
         isWithinRange (stateOf r)
         = isWithin (metersBetween pf location office) (OfficeLocation.radius office)
     | None =>
         distance (stateOf r) = distance st /\ isWithinRange (stateOf r) = isWithinRange st
     end) /\
  (resultOf r = None ->
     stateOf r = st /\
     toasts (traceOf r) =
       [("Unable to get your current location. Please check your device settings and ensure location services are enabled.",
         error)]) /\
  quiet isNetwork (traceOf r) = true.
Proof.
  intros r. subst r. unfold exec, getCurrentLocation, checkOfficeRange, metersBetween. simpl.
  split; [|split; [|split; [|split; [|split]]]].
  - intros location H. answered H. simpl.
    destruct (officeLocation scope) as [o|]; [destruct (OfficeLocation.coordinates o)|];
      split; reflexivity.
  - intros e location H1 H2. answered H1. simpl. answered H2. simpl.
    destruct (officeLocation scope) as [o|]; [destruct (OfficeLocation.coordinates o)|];
      split; reflexivity.
  - intros e e' H1 H2. answered H1. simpl. answered H2. simpl. split; reflexivity.
  - intros location.
    repeat branch; try discriminate;
      try (destruct (OfficeLocation.coordinates _)); simpl; intros [= <-];
      destruct st; simpl; repeat split; reflexivity.
  - repeat branch; try (destruct (OfficeLocation.coordinates _)); simpl;
      try discriminate; intros _; split; reflexivity.
  - repeat branch; try (destruct (OfficeLocation.coordinates _)); reflexivity.
Qed.

Opaque checkOfficeRange.

(** *** The office location *)

Transparent checkOfficeRange.

(** X3.  [fetchOfficeLocation] with a missing or empty token goes to the
    sign-in route and does nothing else.  When the fetch succeeds while a
    location is known, the office fetched is stored, but the distance and
    the membership test are computed against the office of the render
    that started the fetch, and are left untouched when that render knew
    no office.  When storage or the request fails, the default office is
    stored and returned and the fence is lowered, silently and without
    resetting the distance. *)
Theorem fetchOfficeLocation_closure (env : Env) (scope st : State) :
  let r := exec env (fetchOfficeLocation pf scope) st in
  (noToken env ->
     resultOf r = None /\ stateOf r = st /\ redirects (traceOf r) = ["/"%string] /\
     quiet isNetwork (traceOf r) = true /\ toasts (traceOf r) = []) /\
  (forall token fetched location,
     answers env (AsyncStorage_getItem "userToken") (Resolved (Some token)) ->
     Js.truthy token = true ->
     answers env (axios_get_office (API_URL pf ++ "/api/office-location")%string token)
       (Resolved fetched) ->
     currentLocation scope = Some location ->
     resultOf r = Some fetched /\
     officeLocation (stateOf r) = Some fetched /\
     match officeLocation scope with
     | Some office =>
         distance (stateOf r) = Some (metersBetween pf location office) /\
         isWithinRange (stateOf r)
         = isWithin (metersBetween pf location office) (OfficeLocation.radius office)
     | None =>
         distance (stateOf r) = distance st /\ isWithinRange (stateOf r) = isWithinRange st
     end) /\
  (forall e,
     answers env (AsyncStorage_getItem "userToken") (Rejected e) \/
     (exists token,
        answers env (AsyncStorage_getItem "userToken") (Resolved (Some token)) /\
        Js.truthy token = true /\
        answers env (axios_get_office (API_URL pf ++ "/api/office-location")%string token)
          (Rejected e)) ->
     resultOf r = Some defaultOfficeLocation /\
     officeLocation (stateOf r) = Some defaultOfficeLocation /\
     isWithinRange (stateOf r) = false /\
     distance (stateOf r) = distance st /\
     currentLocation (stateOf r) = currentLocation st /\
     toasts (traceOf r) = []).
Proof.
  intros r. subst r.
  unfold exec, fetchOfficeLocation, useDefaultOffice, checkOfficeRange, metersBetween. simpl.
  split; [|split].
  - intros [H|H]; answered H; simpl; repeat split; reflexivity.
  - intros token fetched location Htok Htruthy Hget Hloc.
    answered Htok. simpl. rewrite Htruthy. simpl. answered Hget. simpl. rewrite Hloc.
    destruct (officeLocation scope) as [o|]; [destruct (OfficeLocation.coordinates o)|];
      destruct st; simpl; repeat split; reflexivity.
  - intros e [H|[token [Htok [Htruthy Hget]]]].
    + answered H. simpl. destruct st; simpl; repeat split; reflexivity.
    + answered Htok. simpl. rewrite Htruthy. simpl. answered Hget. simpl.
      destruct st; simpl; repeat split; reflexivity.
Qed.

Opaque checkOfficeRange.

(** *** A missing user token *)

Transparent fetchTimeRecords.

Lemma fetchTimeRecords_noToken (env : Env) (scope : State) (tr : list Event) (st : State) :
  noToken env ->
  exists token u1 u2 u3,
    traceOf (run env (fetchTimeRecords pf scope) tr st) =
      tr ++ [Ev (AsyncStorage_getItem "userToken") (Resolved token);
             Ev (router_replace "/") u1;
             Ev (setState (SetLoading false)) u2;
             Ev (setState (SetRefreshing false)) u3] /\
    stateOf (run env (fetchTimeRecords pf scope) tr st) =
      applyUpdate (SetRefreshing false) (applyUpdate (SetLoading false) st).
Proof.
  intros Hno. unfold fetchTimeRecords. simpl.
  destruct Hno as [H|H]; rewrite (H (List.length tr)); simpl;
    rewrite <- !app_assoc; do 4 eexists; split; reflexivity.
Qed.

Opaque fetchTimeRecords.

(** X4.  Without a stored user token (missing or empty) no handler of
    the screen uses the network: each goes to the sign-in route at most
    once.  The refresh then shows no message, leaves the session cells
    alone and still clears the two spinners; an admitted time-in or
    time-out whose prompt succeeded ends the same way, with [loading]
    false. *)
Theorem missing_token_redirects (env : Env) (scope st : State) :
  noToken env ->
  (forall p,
     In p [fetchOfficeLocation pf scope ;; Ret tt; fetchTimeRecords pf scope;
           onRefresh pf scope; handleTimeIn pf scope; handleTimeOut pf scope;
           handleOffsetSubmit pf scope] ->
     quiet isNetwork (traceOf (exec env p st)) = true /\
     (redirects (traceOf (exec env p st)) = [] \/
      redirects (traceOf (exec env p st)) = ["/"%string])) /\
  (let r := exec env (fetchTimeRecords pf scope) st in
   redirects (traceOf r) = ["/"%string] /\ toasts (traceOf r) = [] /\
   sessionCells (stateOf r) = sessionCells st /\
   loading (stateOf r) = false /\ refreshing (stateOf r) = false) /\
  (promptSucceeds env ->
   (timeInAdmissible scope = true ->
      let r := exec env (handleTimeIn pf scope) st in
      redirects (traceOf r) = ["/"%string] /\ toasts (traceOf r) = [] /\
      loading (stateOf r) = false) /\
   (timeOutAdmissible scope = true ->
      let r := exec env (handleTimeOut pf scope) st in
      redirects (traceOf r) = ["/"%string] /\ toasts (traceOf r) = [] /\
      sessionCells (stateOf r) = sessionCells st /\
      loading (stateOf r) = false)).
Proof.
  intros Hno.
  assert (Htok : forall n,
             env _ (AsyncStorage_getItem "userToken") n = Resolved None \/
             env _ (AsyncStorage_getItem "userToken") n = Resolved (Some ""%string)).
  { intros n. destruct Hno as [H|H]; [left | right]; apply H. }
  split; [|split].
  - intros p Hp. simpl in Hp.
    destruct scope as [? ? ? cl ? ? sess ar wr ? ? ? sel ? ? mk ? ? [a e en]].
    unfold exec.
    repeat (destruct Hp as [<-|Hp]); [ | | | | | |destruct Hp].
    + unfold fetchOfficeLocation. simpl.
      destruct (Htok 0%nat) as [-> | ->]; simpl; auto.
    + match goal with
      | |- context [run env (fetchTimeRecords pf ?s) ?tr ?st] =>
          destruct (fetchTimeRecords_noToken env s tr st Hno) as (t & u1 & u2 & u3 & -> & _)
      end.
      simpl. auto.
    + unfold onRefresh. simpl.
      match goal with
      | |- context [run env (fetchTimeRecords pf ?s) ?tr ?st] =>
          destruct (fetchTimeRecords_noToken env s tr st Hno) as (t & u1 & u2 & u3 & -> & _)
      end.
      simpl. auto.
    + unfold handleTimeIn, authenticate. simpl.
      destruct cl, wr, a, e, en; simpl; auto;
        (match goal with
         | |- context [env ?R (authenticateAsync ?o) ?t] =>
             destruct (env R (authenticateAsync o) t) as [[|]|err]
         end; simpl; auto;
         match goal with
         | |- context [env _ (AsyncStorage_getItem _) ?n] =>
             destruct (Htok n) as [-> | ->]
         end; simpl; auto).
    + unfold handleTimeOut, authenticate. simpl.
      destruct ar, cl, wr, a, e, en; simpl; auto;
        (match goal with
         | |- context [env ?R (authenticateAsync ?o) ?t] =>
             destruct (env R (authenticateAsync o) t) as [[|]|err]
         end; simpl; auto;
         match goal with
         | |- context [env _ (AsyncStorage_getItem _) ?n] =>
             destruct (Htok n) as [-> | ->]
         end; simpl; auto).
    + unfold handleOffsetSubmit, submitOffset. simpl.
      destruct sel; simpl; auto.
      repeat match goal with
             | |- context [if ?x then _ else _] => destruct x; simpl; auto
             | |- context [match find ?f ?l with _ => _ end] => destruct (find f l); simpl; auto
             | |- context [env _ (AsyncStorage_getItem _) ?n] =>
                 destruct (Htok n) as [-> | ->]; simpl; auto
             end.
  - unfold exec.
    destruct (fetchTimeRecords_noToken env scope [] st Hno) as (t & u1 & u2 & u3 & -> & ->).
    destruct st; simpl; repeat split; reflexivity.
  - intros Hprompt.
    destruct scope as [? ? ? cl ? ? sess ar wr ? ? ? sel ? ? mk ? ? [a e en]].
    unfold timeInAdmissible, timeOutAdmissible, exec, handleTimeIn, handleTimeOut, authenticate.
    simpl. split; intros Hadm.
    + destruct cl, wr, a, e, en; simpl in *; try discriminate;
        answered Hprompt; simpl;
        (match goal with
         | |- context [env _ (AsyncStorage_getItem _) ?n] =>
             destruct (Htok n) as [-> | ->]
         end; simpl; destruct st; simpl; repeat split; reflexivity).
    + destruct ar, cl, wr, a, e, en; simpl in *; try discriminate;
        answered Hprompt; simpl;
        (match goal with
         | |- context [env _ (AsyncStorage_getItem _) ?n] =>
             destruct (Htok n) as [-> | ->]
         end; simpl; destruct st; simpl; repeat split; reflexivity).
Qed.

(** *** The records refresh *)

Transparent fetchTimeRecords.

(** The [finally] of the refresh. *)
Lemma fetchTimeRecords_settles (env : Env) (scope st : State) :
  loading (stateOf (exec env (fetchTimeRecords pf scope) st)) = false /\
  refreshing (stateOf (exec env (fetchTimeRecords pf scope) st)) = false.
Proof.
  unfold exec, fetchTimeRecords, fetchTimeRecordsFailed. simpl.
  repeat branch; destruct st; split; reflexivity.
Qed.

Lemma fetchTimeRecords_fetches_once (env : Env) (scope st : State) :
  (List.length (recordFetches (traceOf (exec env (fetchTimeRecords pf scope) st))) <= 1)%nat.
Proof.
  unfold exec, fetchTimeRecords, fetchTimeRecordsFailed. simpl.
  repeat branch; simpl; lia.
Qed.

(** X5.  Every run of [fetchTimeRecords] ends with [loading] and
    [refreshing] false and asks for the records at most once.  When
    storage or the request fails, one message is shown, the records list
    is emptied and the raw answer cleared, while the active record and
    the active session stay what they were.  When the request succeeds,
    the raw answer is stored as received, the records shown are a
    permutation of it, and no message is shown. *)
Theorem fetchTimeRecords_failure (env : Env) (scope st : State) :
  let r := exec env (fetchTimeRecords pf scope) st in
  (loading (stateOf r) = false /\ refreshing (stateOf r) = false) /\
  (forall e,
     answers env (AsyncStorage_getItem "userToken") (Rejected e) \/
     (exists token,
        answers env (AsyncStorage_getItem "userToken") (Resolved (Some token)) /\
        Js.truthy token = true /\
        answers env (axios_get_records (API_URL pf ++ "/api/time-records")%string token)
          (Rejected e)) ->
     toasts (traceOf r) =
       [("Failed to fetch time records. Please check your connection or try again.", error)] /\
     timeRecords (stateOf r) = [] /\ rawTimeRecords (stateOf r) = None /\
     activeTimeRecord (stateOf r) = activeTimeRecord st /\
     activeSession (stateOf r) = activeSession st /\
     redirects (traceOf r) = []) /\
  (forall data,
     In (Resolved data) (recordsAnswers (traceOf r)) ->
     rawTimeRecords (stateOf r) = Some data /\
     Permutation data (timeRecords (stateOf r)) /\
     toasts (traceOf r) = []) /\
  (List.length (recordFetches (traceOf r)) <= 1)%nat.
Proof.
  intros r. subst r. split; [apply fetchTimeRecords_settles|].
  split; [|split].
  - unfold exec, fetchTimeRecords, fetchTimeRecordsFailed. simpl.
    intros e [H|[token [Htok [Htruthy Hget]]]].
    + answered H. simpl. destruct st; simpl; repeat split; reflexivity.
    + answered Htok. simpl. rewrite Htruthy. simpl. answered Hget. simpl.
      destruct st; simpl; repeat split; reflexivity.
  - unfold exec, fetchTimeRecords, fetchTimeRecordsFailed. simpl.
    intros data.
    repeat branch; intros Hin; simpl in Hin;
      repeat match goal with
             | H : _ \/ _ |- _ => destruct H
             | H : False |- _ => destruct H
             | H : Rejected _ = Resolved _ |- _ => discriminate H
             | H : Resolved _ = Resolved _ |- _ => injection H as ->
             end;
      destruct st; simpl; (split; [reflexivity|]);
      (split; [apply sortNewestFirst_perm | reflexivity]).
  - apply fetchTimeRecords_fetches_once.
Qed.

(** *** Pull to refresh *)

(** X6.  Pull-to-refresh always ends with both spinners off, posts
    nothing, asks for the records at most once and leaves the geofence
    cells alone.  It resolves the session with the snapshot of the first
    render, whose session is AM: when the refreshed list holds a record
    of today with an open morning session, that record becomes the active
    one and the active session is left as it is. *)
Theorem onRefresh_settles (env : Env) (scope st : State) :
  let r := exec env (onRefresh pf scope) st in
  (refreshing (stateOf r) = false /\ loading (stateOf r) = false) /\
  geoCells (stateOf r) = geoCells st /\
  posts (traceOf r) = [] /\
  (List.length (recordFetches (traceOf r)) <= 1)%nat /\
  (forall token data now x,
     answers env (AsyncStorage_getItem "userToken") (Resolved (Some token)) ->
     Js.truthy token = true ->
     answers env (axios_get_records (API_URL pf ++ "/api/time-records")%string token)
       (Resolved data) ->
     answers env newDate now ->
     activeSession scope = AM ->
     find openAM (filter (isToday pf now) (sortNewestFirst pf data)) = Some x ->
     activeTimeRecord (stateOf r) = Some x /\
     activeSession (stateOf r) = activeSession st).
Proof.
  intros r. subst r. unfold exec, onRefresh. cbn [bind call run List.length app effect].
  rewrite run_shift. cbn [List.length stateOf traceOf snd fst].
  split; [|split; [|split; [|split]]].
  - destruct (fetchTimeRecords_settles (shiftEnv 1 env) scope
                (applyUpdate (SetRefreshing true) st)) as [H1 H2].
    split; assumption.
  - unfold exec. rewrite (run_state_Always geoCells) by apply fetchTimeRecords_keepsGeo.
    destruct st; reflexivity.
  - rewrite posts_app. unfold exec. rewrite fetchTimeRecords_posts. reflexivity.
  - rewrite recordFetches_app. simpl. apply fetchTimeRecords_fetches_once.
  - intros token data now x Htok Htruthy Hget Hnow Hsess Hfind.
    apply (answers_shift _ _ _ 1) in Htok, Hget, Hnow.
    unfold exec, fetchTimeRecords. simpl.
    answered Htok. simpl. rewrite Htruthy. simpl. answered Hget. simpl.
    answered Hnow. rewrite Hsess, Hfind. simpl.
    destruct st; simpl; split; reflexivity.
Qed.

Opaque fetchTimeRecords.

(** *** The order of the records *)

Lemma notOlder_trans (a b c : TimeRecord.t) :
  notOlder pf a b -> notOlder pf b c -> notOlder pf a c.
Proof.
  unfold notOlder.
  destruct (recordTime pf a), (recordTime pf b), (recordTime pf c); try tauto. lia.
Qed.

Lemma insertRecord_newestFirst (x : TimeRecord.t) (l : list TimeRecord.t) :
  recordTime pf x <> None ->
  Forall (fun r => recordTime pf r <> None) l ->
  newestFirst pf l -> newestFirst pf (insertRecord pf x l).
Proof.
  intros Hx Hl. induction l as [|y l IH]; simpl; intros Hs.
  - split; [constructor | exact I].
  - inversion Hl as [|? ? Hy Hl']; subst. destruct Hs as [Hy_l Hs].
    unfold compareNewestFirst. fold (recordTime pf y). fold (recordTime pf x).
    destruct (recordTime pf y) as [ty|] eqn:Ey; [|now elim Hy].
    destruct (recordTime pf x) as [tx|] eqn:Ex; [|now elim Hx].
    destruct (ty - tx <=? 0) eqn:E.
    + apply Z.leb_le in E.
      assert (Hxy : notOlder pf x y) by (unfold notOlder; rewrite Ex, Ey; lia).
      simpl. split; [|split; assumption].
      constructor; [exact Hxy|].
      eapply Forall_impl; [|exact Hy_l]. intros z Hz. eapply notOlder_trans; eassumption.
    + apply Z.leb_gt in E. simpl. split; [|apply IH; assumption].
      assert (Hyx : notOlder pf y x) by (unfold notOlder; rewrite Ex, Ey; lia).
      apply (Permutation_Forall (insertRecord_perm x l)).
      constructor; assumption.
Qed.

Lemma insertRecord_recordsAt (t : Z) (x : TimeRecord.t) (l : list TimeRecord.t) :
  recordsAt pf t (insertRecord pf x l) = recordsAt pf t (x :: l).
Proof.
  induction l as [|y l IH]; [reflexivity|].
  simpl insertRecord. unfold compareNewestFirst.
  fold (recordTime pf y). fold (recordTime pf x).
  destruct (recordTime pf y) as [ty|] eqn:Ey; [destruct (recordTime pf x) as [tx|] eqn:Ex|];
    try reflexivity.
  destruct (ty - tx <=? 0) eqn:E; [reflexivity|].
  apply Z.leb_gt in E.
  unfold recordsAt in *. simpl in *. rewrite Ey, Ex in *.
  destruct (ty =? t) eqn:Ety; destruct (tx =? t) eqn:Etx; rewrite IH; try reflexivity.
  apply Z.eqb_eq in Ety, Etx. lia.
Qed.

(** X7.  The records shown after a refresh are the records received.
    When every date is valid they are in a stable order, newest first:
    records of the same date keep the order the server gave them, and no
    record is older than one that follows it. *)
Theorem sortNewestFirst_stable (data : list TimeRecord.t) :
  Permutation data (sortNewestFirst pf data) /\
  (Forall (fun r => recordTime pf r <> None) data ->
     (forall t, recordsAt pf t (sortNewestFirst pf data) = recordsAt pf t data) /\
     newestFirst pf (sortNewestFirst pf data)).
Proof.
  split; [apply sortNewestFirst_perm|]. intros Hvalid. split.
  - intros t. clear Hvalid. induction data as [|x data IH]; [reflexivity|].
    simpl sortNewestFirst. rewrite insertRecord_recordsAt.
    unfold recordsAt in *. simpl. now rewrite IH.
  - induction data as [|x data IH]; [exact I|].
    inversion Hvalid; subst. simpl sortNewestFirst.
    apply insertRecord_newestFirst; auto.
    eapply Permutation_Forall; [apply sortNewestFirst_perm | assumption].
Qed.

(** *** The offset form *)

Lemma includesStr_In (x : string) (l : list string) :
  Js.includesStr x l = true <-> In x l.
Proof.
  unfold Js.includesStr. rewrite existsb_exists. split.
  - intros [y [Hin Heq]]. apply String.eqb_eq in Heq. now subst.
  - intros Hin. exists x. split; [exact Hin | apply String.eqb_refl].
Qed.

Lemma dedupe_In (d : string) (l seen : list string) :
  In d (Js.dedupe seen l) <-> In d l /\ ~ In d seen.
Proof.
  revert seen. induction l as [|x l IH]; intros seen; simpl; [tauto|].
  destruct (Js.includesStr x seen) eqn:E.
  - apply includesStr_In in E. rewrite IH. split.
    + intros [H1 H2]. auto.
    + intros [[->|H1] H2]; [contradiction | auto].
  - assert (Hx : ~ In x seen).
    { intros H. apply includesStr_In in H. congruence. }
    simpl. rewrite IH. simpl. split.
    + intros [->|[H1 H2]]; [auto|]. split; [auto|]. intros H. apply H2. auto.
    + intros [[->|H1] H2]; [auto|].
      destruct (string_dec x d) as [->|Hne]; [auto|]. right. split; [exact H1|].
      intros [H|H]; [contradiction | contradiction].
Qed.

Lemma dedupe_NoDup (l seen : list string) : NoDup (Js.dedupe seen l).
Proof.
  revert seen. induction l as [|x l IH]; intros seen; simpl; [constructor|].
  destruct (Js.includesStr x seen); [apply IH|].
  constructor; [|apply IH].
  rewrite dedupe_In. intros [_ H]. apply H. simpl. auto.
Qed.

(** The cells of the form after [handleOffsetModalOpen]. *)
Lemma handleOffsetModalOpen_state (env : Env) (scope : State) (record : TimeRecord.t)
    (tr : list Event) (st : State) :
  stateOf (run env (handleOffsetModalOpen pf scope record) tr st) =
  applyUpdate (SetShowOffsetModal true)
    (applyUpdate
       (SetAvailableDates
          (Js.dedupe [] (map (fun x => formatRecordDate pf (TimeRecord.date x))
                             (timeRecords scope))))
       (applyUpdate (SetUndertimeDate (formatRecordDate pf (TimeRecord.date record)))
          (applyUpdate
             (SetMakeupDate
                match TimeRecord.makeupDate record with
                | Some d => if Js.truthy d then formatRecordDate pf d else ""%string
                | None => ""%string
                end)
             (applyUpdate
                (SetMakeup
                   match TimeRecord.makeup record with
                   | Some m => if Qeq_bool m 0 then 0%Q else m
                   | None => 0%Q
                   end)
                (applyUpdate
                   (SetUndertime
                      match TimeRecord.undertime record with
                      | Some u => if Qeq_bool u 0 then 0%Q else u
                      | None => 0%Q
                      end)
                   (applyUpdate (SetSelectedRecord (Some record)) st)))))).
Proof. reflexivity. Qed.

Lemma availableDates_listed (scope : State) (d : string) :
  In d (Js.dedupe [] (map (fun x => formatRecordDate pf (TimeRecord.date x))
                          (timeRecords scope))) <->
  exists x, In x (timeRecords scope) /\ formatRecordDate pf (TimeRecord.date x) = d.
Proof.
  rewrite dedupe_In, in_map_iff. split.
  - intros [[x [Hx Hi]] _]. exists x. auto.
  - intros [x [Hi Hx]]. split; [exists x; auto | intros []].
Qed.

(** X8.  Opening the offset form for a record selects it, shows the
    form, and sets the undertime date to the text of the record's date.
    The available dates are the texts of the dates of the render's
    records, each once; so the undertime date is available whenever the
    record is one of those records.  Missing hours become 0 and a missing
    makeup date the empty text.  Nothing else changes and nothing is
    requested. *)
Theorem handleOffsetModalOpen_form (env : Env) (scope : State) (record : TimeRecord.t)
    (st : State) :
  let r := exec env (handleOffsetModalOpen pf scope record) st in
  let st' := stateOf r in
  selectedRecord st' = Some record /\
  showOffsetModal st' = true /\
  undertimeDate st' = formatRecordDate pf (TimeRecord.date record) /\
  NoDup (availableDates st') /\
  (forall d,
     In d (availableDates st') <->
     exists x, In x (timeRecords scope) /\ formatRecordDate pf (TimeRecord.date x) = d) /\
  (In record (timeRecords scope) ->
     Js.includesStr (undertimeDate st') (availableDates st') = true) /\
  (TimeRecord.undertime record = None -> undertime st' = 0%Q) /\
  (TimeRecord.makeup record = None -> makeup st' = 0%Q) /\
  (TimeRecord.makeupDate record = None -> makeupDate st' = ""%string) /\
  (forall d, TimeRecord.makeupDate record = Some d -> Js.truthy d = true ->
     makeupDate st' = formatRecordDate pf d) /\
  sessionCells st' = sessionCells st /\ geoCells st' = geoCells st /\
  loading st' = loading st /\
  toasts (traceOf r) = [] /\ quiet isNetwork (traceOf r) = true.
Proof.
  intros r st'. subst st' r. unfold exec at 1 2 3 4 5 6 7 8 9 10 11 12 13. rewrite handleOffsetModalOpen_state.
  pose proof (availableDates_listed scope) as Hin.
  unfold exec, handleOffsetModalOpen. destruct st; simpl.
  repeat match goal with |- _ /\ _ => split end; try reflexivity.
  - apply dedupe_NoDup.
  - exact Hin.
  - intros Hrec. apply includesStr_In, Hin. exists record. auto.
  - intros ->. reflexivity.
  - intros ->. reflexivity.
  - intros ->. reflexivity.
  - intros d -> ->. reflexivity.
Qed.

Lemma formEdit_cells (env : Env) (edit : FormEdit) (st : State) :
  let st' := stateOf (exec env (formEdit st edit) st) in
  selectedRecord st' = selectedRecord st /\
  timeRecords st' = timeRecords st /\
  availableDates st' = availableDates st /\
  (Js.includesStr (undertimeDate st) (availableDates st) = true ->
   Js.includesStr (undertimeDate st') (availableDates st') = true).
Proof.
  unfold exec. destruct edit as [d|d|v|v]; simpl.
  - unfold undertimeDayPress. destruct (Js.includesStr d (availableDates st)) eqn:E; simpl.
    + destruct st; simpl in *. repeat split; auto.
    + repeat split; auto.
  - destruct st; simpl. repeat split; auto.
  - destruct st; simpl. repeat split; auto.
  - destruct st; simpl. repeat split; auto.
Qed.

Lemma editForm_cells (env : Env) (edits : list FormEdit) (st : State) :
  let st' := editForm env edits st in
  selectedRecord st' = selectedRecord st /\
  timeRecords st' = timeRecords st /\
  availableDates st' = availableDates st /\
  (Js.includesStr (undertimeDate st) (availableDates st) = true ->
   Js.includesStr (undertimeDate st') (availableDates st') = true).
Proof.
  revert st. induction edits as [|edit edits IH]; intros st; simpl; [auto|].
  destruct (formEdit_cells env edit st) as (H1 & H2 & H3 & H4).
  destruct (IH (stateOf (exec env (formEdit st edit) st))) as (I1 & I2 & I3 & I4).
  repeat split; try congruence. auto.
Qed.

(** X9.  A form opened for a record of the list, and then changed only
    through its calendars and sliders, always passes the three rules on
    the record: a record is selected, the undertime date is available,
    and a record of that date is found.  Only the two rules on the makeup
    date can stop its submission; with no makeup date and a stored token
    the one POST goes to the offset address of the first record of the
    list whose date reads as the undertime date, with the form's hours
    and no makeup date. *)
Theorem offset_form_passes_record_rules (env : Env) (scope st : State)
    (record : TimeRecord.t) (edits : list FormEdit) (today : Z) :
  In record (timeRecords scope) ->
  timeRecords st = timeRecords scope ->
  let opened := stateOf (exec env (handleOffsetModalOpen pf scope record) st) in
  let form := editForm env edits opened in
  ruleHolds pf form today RecordSelected = true /\
  ruleHolds pf form today UndertimeDateListed = true /\
  ruleHolds pf form today UndertimeRecordFound = true /\
  (firstFailure pf form today handlerSequence = None \/
   firstFailure pf form today handlerSequence = Some MakeupDateFormat \/
   firstFailure pf form today handlerSequence = Some MakeupDateNotPast) /\
  (makeupDate form = ""%string ->
   forall token st0,
     answers env (AsyncStorage_getItem "userToken") (Resolved (Some token)) ->
     Js.truthy token = true ->
     exists first,
       find (fun x => formatRecordDate pf (TimeRecord.date x) =? undertimeDate form)%string
            (timeRecords scope) = Some first /\
       posts (traceOf (exec env (handleOffsetSubmit pf form) st0)) =
         [(offsetUrl pf first,
           OffsetBody (undertimeDate form) (undertime form) (makeup form) None, token)]).
Proof.
  intros Hrec Hsame opened form.
  assert (Hsel : selectedRecord opened = Some record)
    by (subst opened; unfold exec; rewrite handleOffsetModalOpen_state; destruct st; reflexivity).
  assert (Hrecs : timeRecords opened = timeRecords st)
    by (subst opened; unfold exec; rewrite handleOffsetModalOpen_state; destruct st; reflexivity).
  assert (Havail : forall d,
             In d (availableDates opened) <->
             exists x, In x (timeRecords scope) /\ formatRecordDate pf (TimeRecord.date x) = d).
  { intros d. rewrite <- availableDates_listed.
    subst opened; unfold exec; rewrite handleOffsetModalOpen_state; destruct st; reflexivity. }
  assert (Hlisted : Js.includesStr (undertimeDate opened) (availableDates opened) = true).
  { apply includesStr_In, Havail. exists record. split; [exact Hrec|].
    subst opened; unfold exec; rewrite handleOffsetModalOpen_state; destruct st; reflexivity. }
  destruct (editForm_cells env edits opened) as (E1 & E2 & E3 & E4). fold form in E1, E2, E3, E4.
  specialize (E4 Hlisted).
  assert (Hrecords : timeRecords form = timeRecords scope) by congruence.
  assert (Hfound : exists first,
             find (fun x => formatRecordDate pf (TimeRecord.date x) =? undertimeDate form)%string
                  (timeRecords scope) = Some first).
  { destruct (find _ (timeRecords scope)) as [first|] eqn:F; [eauto|].
    exfalso.
    apply includesStr_In in E4. rewrite E3 in E4. apply Havail in E4.
    destruct E4 as [x [Hx Hd]].
    pose proof (find_none _ _ F x Hx) as Hn. simpl in Hn.
    rewrite Hd, String.eqb_refl in Hn. discriminate. }
  destruct Hfound as [first Hfirst].
  assert (R1 : ruleHolds pf form today RecordSelected = true).
  { simpl. rewrite E1, Hsel. reflexivity. }
  assert (R2 : ruleHolds pf form today UndertimeDateListed = true) by exact E4.
  assert (R3 : ruleHolds pf form today UndertimeRecordFound = true).
  { simpl. rewrite Hrecords, Hfirst. reflexivity. }
  split; [exact R1|]. split; [exact R2|]. split; [exact R3|]. split.
  - unfold firstFailure, handlerSequence. cbn [find].
    rewrite R1, R2, R3. cbn [negb].
    destruct (ruleHolds pf form today MakeupDateFormat); cbn [negb]; [|auto].
    destruct (ruleHolds pf form today MakeupDateNotPast); cbn [negb]; auto.
  - intros Hempty token st0 Htok Htruthy. exists first. split; [exact Hfirst|].
    unfold exec, handleOffsetSubmit, offsetUrl.
    rewrite E1, Hsel, Hempty. simpl. rewrite <- Hempty.
    simpl in R2. rewrite R2. simpl. rewrite Hrecords, Hfirst.
    unfold submitOffset. rewrite Hempty. simpl.
    answered Htok. simpl. rewrite Htruthy. simpl.
    branch; [rewrite fetchTimeRecords_posts|]; reflexivity.
Qed.

(** *** The text of a record's date *)

Lemma matchesPattern_app (p1 p2 : list (option ascii)) (s1 s2 : string) :
  Js.matchesPattern p1 s1 = true -> Js.matchesPattern p2 s2 = true ->
  Js.matchesPattern (p1 ++ p2) (s1 ++ s2)%string = true.
Proof.
  revert s1. induction p1 as [|[a|] p1 IH]; intros s1 H1 H2; destruct s1 as [|c s1];
    simpl in *; try discriminate; auto;
    apply andb_true_iff in H1; destruct H1 as [Hc H1]; rewrite Hc; simpl; auto.
Qed.

Lemma in_range_seq (lo n x : Z) :
  lo <= x < lo + n -> In x (map (fun k => lo + Z.of_nat k) (seq 0 (Z.to_nat n))).
Proof.
  intros H. apply in_map_iff. exists (Z.to_nat (x - lo)). split; [lia|].
  apply in_seq. lia.
Qed.

Lemma year_four_digits (y : Z) :
  1000 <= y <= 9999 -> Js.matchesPattern [None; None; None; None] (Js.numberToString y) = true.
Proof.
  intros H.
  assert (Hall : forallb (fun y => Js.matchesPattern [None; None; None; None] (Js.numberToString y))
                   (map (fun k => 1000 + Z.of_nat k) (seq 0 (Z.to_nat 9000))) = true)
    by (vm_compute; reflexivity).
  rewrite forallb_forall in Hall. apply Hall, in_range_seq. lia.
Qed.

Lemma pad2_two_digits (n : Z) :
  0 <= n <= 99 -> Js.matchesPattern [None; None] (Js.pad2 n) = true.
Proof.
  intros H.
  assert (Hall : forallb (fun n => Js.matchesPattern [None; None] (Js.pad2 n))
                   (map (fun k => 0 + Z.of_nat k) (seq 0 (Z.to_nat 100))) = true)
    by (vm_compute; reflexivity).
  rewrite forallb_forall in Hall. apply Hall, in_range_seq. lia.
Qed.

(** X10.  The text [formatRecordDate] gives a valid date whose year has
    four digits matches the pattern the offset form demands of a makeup
    date; an invalid date gives "NaN-NaN-NaN", which does not.  So a form
    opened for a record without makeup date, or with a valid one, passes
    the format rule. *)
Theorem formatRecordDate_isYMD (dateString : string) :
  (forall t y m d,
     parseDate pf dateString = Some t -> localDateParts pf t = (y, m, d) ->
     1000 <= y <= 9999 -> 0 <= m <= 11 -> 1 <= d <= 31 ->
     Js.isYMD (formatRecordDate pf dateString) = true) /\
  (parseDate pf dateString = None ->
     formatRecordDate pf dateString = "NaN-NaN-NaN"%string /\
     Js.isYMD (formatRecordDate pf dateString) = false) /\
  (forall env scope record st today,
     match TimeRecord.makeupDate record with
     | None => True
     | Some makeupDate =>
         exists t y m d,
           parseDate pf makeupDate = Some t /\ localDateParts pf t = (y, m, d) /\
           1000 <= y <= 9999 /\ 0 <= m <= 11 /\ 1 <= d <= 31
     end ->
     ruleHolds pf (stateOf (exec env (handleOffsetModalOpen pf scope record) st)) today
       MakeupDateFormat = true).
Proof.
  assert (Hfmt : forall s t y m d,
             parseDate pf s = Some t -> localDateParts pf t = (y, m, d) ->
             1000 <= y <= 9999 -> 0 <= m <= 11 -> 1 <= d <= 31 ->
             Js.isYMD (formatRecordDate pf s) = true).
  { intros s t y m d Hp Hl Hy Hm Hd. unfold formatRecordDate. rewrite Hp, Hl.
    unfold Js.isYMD.
    change [None; None; None; None; Some "-"%char; None; None; Some "-"%char; None; None]
      with ([None; None; None; None] ++ [Some "-"%char] ++ [None; None]
            ++ [Some "-"%char] ++ [@None ascii; None]).
    apply matchesPattern_app; [apply year_four_digits; exact Hy|].
    apply (matchesPattern_app [Some "-"%char] _ "-"); [reflexivity|].
    apply matchesPattern_app; [apply pad2_two_digits; lia|].
    apply (matchesPattern_app [Some "-"%char] _ "-"); [reflexivity|].
    apply pad2_two_digits; lia. }
  split; [|split].
  - apply Hfmt.
  - intros Hp. unfold formatRecordDate. rewrite Hp. split; reflexivity.
  - intros env scope record st today Hd.
    unfold exec, handleOffsetModalOpen. destruct st; simpl.
    destruct (TimeRecord.makeupDate record) as [md|]; [|reflexivity].
    destruct (Js.truthy md); [|reflexivity].
    destruct Hd as (t & y & m & d & Hp & Hl & Hy & Hm & Hd).
    rewrite (Hfmt md t y m d); auto. apply orb_true_r.
Qed.

(** *** The controls of the page *)

(** The search for a record of today only reads the clock. *)
Lemma findToday_run (env : Env) (test : TimeRecord.t -> bool) (today : Z)
    (records : list TimeRecord.t) :
  answers env newDate today ->
  forall tr st,
    exists clock,
      run env (findToday pf test records) tr st =
      (find (fun record => sameDateString pf (TimeRecord.date record) today && test record) records,
       tr ++ clock, st) /\
      Forall (fun e => e = Ev newDate today) clock.
Proof.
  intros Hnow. induction records as [|record rest IH]; intros tr st; simpl.
  - exists []. rewrite app_nil_r. split; [reflexivity | constructor].
  - rewrite (Hnow (List.length tr)).
    destruct (sameDateString pf (TimeRecord.date record) today && test record); simpl.
    + exists [Ev newDate today]. split; [reflexivity | repeat constructor].
    + destruct (IH (tr ++ [Ev newDate today]) st) as [clock [-> Hc]].
      exists (Ev newDate today :: clock). rewrite <- app_assoc. split; [reflexivity|].
      constructor; [reflexivity | exact Hc].
Qed.

Lemma clock_silent (today : Z) (clock : list Event) :
  Forall (fun e => e = Ev newDate today) clock ->
  toasts clock = [] /\ posts clock = [] /\ quiet isNetwork clock = true /\
  quiet isSetter clock = true.
Proof.
  induction 1 as [|e clock -> _ IH]; simpl; [repeat split; reflexivity | exact IH].
Qed.

(** X11.  The Offset button opens the form for the first record of the
    list whose date is today's, and for no other: that record is
    selected and its date is available.  When no record is of today it
    shows one warning and changes nothing.  It requests nothing. *)
Theorem offsetButtonPress_today (env : Env) (scope st : State) (today : Z) :
  answers env newDate today ->
  let r := exec env (offsetButtonPress pf scope) st in
  quiet isNetwork (traceOf r) = true /\
  match find (fun record => sameDateString pf (TimeRecord.date record) today) (timeRecords scope) with
  | Some record =>
      In record (timeRecords scope) /\
      toasts (traceOf r) = [] /\
      stateOf r = stateOf (exec env (handleOffsetModalOpen pf scope record) st) /\
      selectedRecord (stateOf r) = Some record /\
      showOffsetModal (stateOf r) = true /\
      Js.includesStr (undertimeDate (stateOf r)) (availableDates (stateOf r)) = true
  | None =>
      toasts (traceOf r) = [("No time record found for today", warning)] /\
      stateOf r = st
  end /\
  (timeRecords scope = [] -> stateOf r = st).
Proof.
  intros Hnow r. subst r. unfold exec, offsetButtonPress.
  rewrite run_bind.
  destruct (findToday_run env (fun _ => true) today (timeRecords scope) Hnow [] st)
    as [clock [-> Hclock]].
  destruct (clock_silent today clock Hclock) as (Ht & Hp & Hn & Hs).
  cbn [resultOf traceOf stateOf fst snd app].
  assert (Hfind : find (fun record => sameDateString pf (TimeRecord.date record) today && true)
                    (timeRecords scope)
                  = find (fun record => sameDateString pf (TimeRecord.date record) today)
                      (timeRecords scope)).
  { induction (timeRecords scope) as [|x l IH]; simpl; [reflexivity|].
    rewrite andb_true_r, IH. reflexivity. }
  rewrite Hfind. clear Hfind.
  destruct (find _ (timeRecords scope)) as [record|] eqn:F.
  - rewrite run_shift.
    cbn [traceOf stateOf fst snd].
    unfold exec. rewrite !handleOffsetModalOpen_state.
    unfold handleOffsetModalOpen. simpl.
    unfold quiet in *. rewrite forallb_app, Hn, toasts_app, Ht. simpl.
    apply find_some in F. destruct F as [Hin _].
    split; [reflexivity|]. split; [|intros H; rewrite H in Hin; destruct Hin].
    split; [exact Hin|]. split; [reflexivity|]. split; [reflexivity|].
    destruct st; simpl. split; [reflexivity|]. split; [reflexivity|].
    apply includesStr_In, availableDates_listed. exists record. auto.
  - simpl. unfold quiet in *. rewrite forallb_app, Hn, toasts_app, Ht. simpl.
    repeat split; reflexivity.
Qed.

(** *** Authentication outside time tracking *)

(** X12.  [authenticate] never changes state and prompts at most once.
    Without hardware or enrolment it answers [false] without prompting,
    also when forced.  With both, the preference off, no force and a
    prompt that mentions neither "time in" nor "time out" (the default
    prompt is such), it answers [true] without prompting.  Otherwise it
    prompts once with the passcode fallback disabled and answers what the
    platform reports, [false] if the platform fails. *)
Theorem authenticate_shortcuts (env : Env) (bs : BiometricStatus) (prompt : string)
    (force : bool) (st : State) :
  let r := exec env (authenticate bs prompt force) st in
  stateOf r = st /\
  (available bs = false \/ enrolled bs = false ->
     resultOf r = false /\ traceOf r = []) /\
  (available bs = true -> enrolled bs = true ->
   enabled bs = false -> isTimeTracking prompt force = false ->
     resultOf r = true /\ traceOf r = []) /\
  (available bs = true -> enrolled bs = true ->
   enabled bs = true \/ isTimeTracking prompt force = true ->
     exists answer,
       traceOf r = [Ev (authenticateAsync (biometricOnly prompt)) answer] /\
       resultOf r = match answer with Resolved ok => ok | Rejected _ => false end) /\
  isTimeTracking "Authenticate to continue" false = false.
Proof.
  intros r. subst r. unfold exec, authenticate, isTimeTracking, biometricOnly.
  destruct bs as [a e en]. simpl.
  split; [|split; [|split; [|split]]].
  - destruct a, e; simpl; try reflexivity.
    destruct (negb en && _ && _); simpl; [reflexivity|].
    destruct (env _ _ _); reflexivity.
  - intros [-> | ->]; [|destruct a]; simpl; split; reflexivity.
  - intros -> -> -> H. simpl.
    destruct force; [discriminate|]. simpl in H. rewrite H. simpl. split; reflexivity.
  - intros -> -> H. simpl.
    assert (Hgo : negb en && negb (Js.includes "time in" prompt || Js.includes "time out" prompt)
                  && negb force = false).
    { destruct H as [-> | H]; [reflexivity|].
      destruct en; [reflexivity|]. simpl.
      destruct force; [apply andb_false_r|]. simpl in H. rewrite H. reflexivity. }
    rewrite Hgo. simpl.
    destruct (env _ _ _) as [ok|err]; simpl; eexists; split; reflexivity.
  - reflexivity.
Qed.

(** *** The items of the session menus *)

(** X13.  In every state the screen can reach, an enabled Time In or
    Time Out item means that a location is known, the fence is up and
    nothing is loading; the two items are never enabled together.  The
    handler of an enabled item therefore stops only at the biometric
    checks: with biometrics set up, a successful prompt and a stored
    token, pressing an enabled Time In item sends the time-in request. *)
Theorem enabled_items_reach_the_prompt (scope : State) (history : list State) :
  Reachable pf (scope :: history) ->
  (timeInDisabled scope = false \/ timeOutDisabled scope = false ->
     isWithinRange scope = true /\ loading scope = false /\
     exists location, currentLocation scope = Some location) /\
  (timeInDisabled scope = false ->
     activeTimeRecord scope = None /\ timeOutDisabled scope = true /\
     timeInAdmissible scope
     = available (biometricStatus scope) && enrolled (biometricStatus scope)) /\
  (timeOutDisabled scope = false ->
     timeInDisabled scope = true /\
     timeOutAdmissible scope
     = available (biometricStatus scope) && enrolled (biometricStatus scope)) /\
  (forall env st token,
     timeInDisabled scope = false ->
     available (biometricStatus scope) = true -> enrolled (biometricStatus scope) = true ->
     promptSucceeds env ->
     answers env (AsyncStorage_getItem "userToken") (Resolved (Some token)) ->
     Js.truthy token = true ->
     exists location,
       currentLocation scope = Some location /\
       posts (traceOf (exec env (handleTimeIn pf scope) st)) =
         [((API_URL pf ++ "/api/time-records/time-in")%string,
           TimeBody (wireCoordinates location) (activeSession scope) true, token)]).
Proof.
  intros Hreach. apply Reachable_Sound in Hreach. destruct Hreach as (Hloc & _ & Hfence).
  assert (Hknown : isWithinRange scope = true -> exists location, currentLocation scope = Some location).
  { intros Hw. destruct (Hfence Hw) as (l & o & Hl & _).
    destruct (currentLocation scope) as [location|] eqn:E; [eauto|].
    exfalso. apply Hloc; [exists l; exact Hl | reflexivity]. }
  unfold timeInDisabled, timeOutDisabled, timeInAdmissible, timeOutAdmissible in *.
  split; [|split; [|split]].
  - intros H.
    assert (Hw : isWithinRange scope = true /\ loading scope = false).
    { destruct (isWithinRange scope), (loading scope), (activeTimeRecord scope);
        simpl in H; destruct H; try discriminate; auto. }
    destruct Hw as [Hw Hl]. auto.
  - intros H.
    destruct (isWithinRange scope) eqn:Hw; [|rewrite !orb_true_r in H; discriminate].
    destruct (Hknown eq_refl) as [location ->].
    destruct (activeTimeRecord scope); [discriminate|].
    destruct (loading scope); [discriminate|]. simpl. auto.
  - intros H.
    destruct (isWithinRange scope) eqn:Hw; [|rewrite !orb_true_r in H; discriminate].
    destruct (Hknown eq_refl) as [location ->].
    destruct (activeTimeRecord scope); [|discriminate].
    destruct (loading scope); [discriminate|]. simpl. auto.
  - intros env st token H Ha He Hprompt Htok Htruthy.
    destruct (isWithinRange scope) eqn:Hw; [|rewrite !orb_true_r in H; discriminate].
    destruct (Hknown eq_refl) as [location Hl]. exists location. split; [exact Hl|].
    apply handleTimeIn_request; auto.
    unfold timeInAdmissible. rewrite Hl, Hw, Ha, He. reflexivity.
Qed.

Lemma findToday_keeps_state (test : TimeRecord.t -> bool) (records : list TimeRecord.t) :
  Always (fun R c => forall st, effect c st = st) (findToday pf test records).
Proof.
  induction records as [|record rest IH]; simpl; [constructor|].
  constructor; [reflexivity|]. intros today.
  destruct (_ && _); [constructor | exact IH].
Qed.

(** X14.  The render never disables both session buttons: before noon
    the AM button is enabled, from noon on the PM button is.  Computing
    the flags changes no state; with a steady clock each flag is the
    negation of "it is that half of the day, or a record of today is open
    for that session". *)
Theorem session_buttons (env : Env) (scope st : State) (currentTime : Z) :
  let r := exec env (sessionButtonsDisabled pf scope currentTime) st in
  fst (resultOf r) && snd (resultOf r) = false /\
  stateOf r = st /\
  (getHours pf currentTime < 12 -> fst (resultOf r) = false) /\
  (12 <= getHours pf currentTime -> snd (resultOf r) = false) /\
  (forall today,
     answers env newDate today ->
     resultOf r =
       (negb (getHours pf currentTime <? 12) &&
        negb (existsb (fun x => sameDateString pf (TimeRecord.date x) today && openAM x)
                (timeRecords scope)),
        negb (12 <=? getHours pf currentTime) &&
        negb (existsb (fun x => sameDateString pf (TimeRecord.date x) today && openPM x)
                (timeRecords scope)))).
Proof.
  intros r. subst r.
  unfold exec, sessionButtonsDisabled, amDisabled, pmDisabled, someToday.
  rewrite !run_bind. cbn [run resultOf traceOf stateOf fst snd].
  set (am := run env (findToday pf openAM (timeRecords scope)) [] st).
  set (pm := run env (findToday pf openPM (timeRecords scope)) _ _).
  assert (Hst : stateOf pm = st).
  { subst pm. rewrite (run_state_Always (fun s => s)) by apply findToday_keeps_state.
    subst am. rewrite (run_state_Always (fun s => s)) by apply findToday_keeps_state.
    reflexivity. }
  split; [|split; [exact Hst|split; [|split]]].
  - destruct (getHours pf currentTime <? 12) eqn:E; [reflexivity|].
    apply Z.ltb_ge in E. apply Z.leb_le in E. rewrite E. simpl. apply andb_false_r.
  - intros H. apply Z.ltb_lt in H. rewrite H. reflexivity.
  - intros H. apply Z.leb_le in H. rewrite H. reflexivity.
  - intros today Hnow.
    assert (Hsome : forall test (l : list TimeRecord.t),
               isSome (find (fun x => sameDateString pf (TimeRecord.date x) today && test x) l)
               = existsb (fun x => sameDateString pf (TimeRecord.date x) today && test x) l).
    { intros test l. induction l as [|x l IH]; simpl; [reflexivity|].
      destruct (_ && _); simpl; [reflexivity | exact IH]. }
    subst pm am.
    destruct (findToday_run env openAM today (timeRecords scope) Hnow [] st) as [c1 [-> _]].
    cbn [resultOf traceOf stateOf fst snd].
    destruct (findToday_run env openPM today (timeRecords scope) Hnow ([] ++ c1) st)
      as [c2 [-> _]].
    cbn [resultOf traceOf stateOf fst snd]. rewrite !Hsome. reflexivity.
Qed.

(** *** Programs of the shell *)

Lemma tree_run_bind {C : Type -> Type} {S A B : Type}
    (step : forall R : Type, C R -> nat -> S -> R * S) (p : Tree.t C A) (f : A -> Tree.t C B) :
  forall tr st,
    Tree.run step (Tree.bind p f) tr st =
    Tree.run step (f (Tree.result (Tree.run step p tr st)))
      (Tree.trace (Tree.run step p tr st)) (Tree.state (Tree.run step p tr st)).
Proof.
  induction p as [a|R c k IH]; intros tr st; simpl.
  - reflexivity.
  - apply IH.
Qed.

Lemma run_lift_gen {A : Type} (p : Prog A) :
  forall (env : Shell.Env) (env' : Env) tr st menus,
    (forall R (c : Cmd R) n, env' R c n = env R (Shell.screen c) (List.length tr + n)%nat) ->
    Tree.run (Shell.step env) (Shell.lift p) tr (st, menus) =
    (resultOf (exec env' p st),
     tr ++ map Shell.liftEvent (traceOf (exec env' p st)),
     (stateOf (exec env' p st), menus)).
Proof.
  unfold exec.
  induction p as [a|R c k IH]; intros env env' tr st menus Henv; simpl.
  - now rewrite app_nil_r.
  - unfold Shell.step. simpl.
    rewrite (Henv R c 0%nat), Nat.add_0_r.
    rewrite (IH _ env (shiftEnv 1 env')).
    + rewrite (run_shift_gen (k _) env' (shiftEnv 1 env') [_]); [|reflexivity].
      unfold exec. simpl. rewrite <- app_assoc. reflexivity.
    + intros R' c' n. unfold shiftEnv. rewrite Henv, length_app. simpl.
      f_equal. lia.
Qed.

Lemma run_lift {A : Type} (env : Shell.Env) (p : Prog A) (tr : list (Tree.event Shell.Command))
    (st : State) (menus : Shell.Menus) :
  Tree.run (Shell.step env) (Shell.lift p) tr (st, menus) =
  (resultOf (exec (Shell.screenEnv env (List.length tr)) p st),
   tr ++ map Shell.liftEvent (traceOf (exec (Shell.screenEnv env (List.length tr)) p st)),
   (stateOf (exec (Shell.screenEnv env (List.length tr)) p st), menus)).
Proof. apply run_lift_gen. reflexivity. Qed.

Lemma shell_toasts_app (l l' : list (Tree.event Shell.Command)) :
  Shell.toasts (l ++ l') = Shell.toasts l ++ Shell.toasts l'.
Proof.
  induction l as [|[R c r] l IH]; simpl; [reflexivity|].
  destruct c as [R c| | | | |]; simpl; try exact IH.
  destruct c; simpl; rewrite ?IH; reflexivity.
Qed.

Lemma shell_toasts_lift (tr : list Event) :
  Shell.toasts (map Shell.liftEvent tr) = toasts tr.
Proof.
  induction tr as [|[R c r] tr IH]; simpl; [reflexivity|].
  destruct c; simpl; rewrite IH; reflexivity.
Qed.

(** A run keeps what each of its commands keeps. *)
Lemma run_preserves {A : Type} (I : State -> Prop) (env : Env) (p : Prog A) :
  Always (fun R c => forall st, I st -> I (effect c st)) p ->
  forall tr st, I st -> I (stateOf (run env p tr st)).
Proof.
  intros Hp. induction Hp as [a|R c k Hc Hk IH]; intros tr st Hst; simpl.
  - exact Hst.
  - apply IH, Hc, Hst.
Qed.

(** What [requestLocationPermission] does to the cells. *)
Lemma requestLocationPermission_cells (env : Shell.Env)
    (tr : list (Tree.event Shell.Command)) (st : State) (menus : Shell.Menus) :
  let r := Tree.run (Shell.step env) Shell.requestLocationPermission tr (st, menus) in
  snd (Tree.state r) = menus /\
  (fst (Tree.state r) = st \/
   exists v, fst (Tree.state r) = applyUpdate (SetLocationPermission v) st).
Proof.
  unfold Shell.requestLocationPermission. cbn.
  destruct (env _ Shell.getForegroundPermissionsAsync _) as [[| |]|e]; cbn;
    try (destruct (env _ Shell.requestForegroundPermissionsAsync _) as [[| |]|e']; cbn);
    eauto.
Qed.

(** X16.  [requestLocationPermission] answers [true] only after the
    permission was granted, and then the permission cell is true and no
    message was shown; when it answers [false] exactly one message was
    shown, and the cell is false after a refusal and untouched after a
    failure.  A permission already granted is not asked for again.  No
    other cell changes. *)
Theorem requestLocationPermission_outcome (env : Shell.Env) (st : State)
    (menus : Shell.Menus) :
  let r := Shell.exec env Shell.requestLocationPermission st menus in
  let st' := fst (Tree.state r) in
  (Tree.result r = true ->
     locationPermission st' = true /\ Shell.toasts (Tree.trace r) = []) /\
  (Tree.result r = false ->
     exists message kind,
       Shell.toasts (Tree.trace r) = [(message, kind)] /\
       (kind = warning -> locationPermission st' = false) /\
       (kind = error -> st' = st)) /\
  ((forall n, env _ Shell.getForegroundPermissionsAsync n = Resolved Shell.granted) ->
     Tree.result r = true /\
     forallb (fun e => negb (Shell.asksPermission e)) (Tree.trace r) = true) /\
  (forall current asked,
     (forall n, env _ Shell.getForegroundPermissionsAsync n = Resolved current) ->
     current <> Shell.granted ->
     (forall n, env _ Shell.requestForegroundPermissionsAsync n = Resolved asked) ->
     Tree.result r = match asked with Shell.granted => true | _ => false end) /\
  st' = applyUpdate (SetLocationPermission (locationPermission st')) st /\
  snd (Tree.state r) = menus.
Proof.
  intros r st'. subst st' r. unfold Shell.exec, Shell.requestLocationPermission. cbn.
  split; [|split; [|split; [|split; [|split]]]].
  - destruct (env _ Shell.getForegroundPermissionsAsync _) as [[| |]|e]; cbn;
      try (destruct (env _ Shell.requestForegroundPermissionsAsync _) as [[| |]|e']; cbn);
      try discriminate; intros _; destruct st; split; reflexivity.
  - destruct (env _ Shell.getForegroundPermissionsAsync _) as [[| |]|e]; cbn;
      try (destruct (env _ Shell.requestForegroundPermissionsAsync _) as [[| |]|e']; cbn);
      try discriminate; intros _; do 2 eexists; (split; [reflexivity|]);
      (split; [|]); intros H; try discriminate H; destruct st; reflexivity.
  - intros H. rewrite H. cbn. split; reflexivity.
  - intros current asked Hc Hne Ha. rewrite Hc.
    destruct current; [now elim Hne| |]; cbn; rewrite Ha; destruct asked; reflexivity.
  - destruct (env _ Shell.getForegroundPermissionsAsync _) as [[| |]|e]; cbn;
      try (destruct (env _ Shell.requestForegroundPermissionsAsync _) as [[| |]|e']; cbn);
      destruct st; reflexivity.
  - destruct (env _ Shell.getForegroundPermissionsAsync _) as [[| |]|e]; cbn;
      try (destruct (env _ Shell.requestForegroundPermissionsAsync _) as [[| |]|e']; cbn);
      reflexivity.
Qed.

Lemma Always_impl {A : Type} (P Q : forall R : Type, Cmd R -> Prop) (p : Prog A) :
  (forall R c, P R c -> Q R c) -> Always P p -> Always Q p.
Proof.
  intros H Hp. induction Hp as [a|R c k Hc Hk IH]; constructor; auto.
Qed.

Transparent checkOfficeRange.

(** With the snapshot of the first render, which knows neither a
    location nor an office, the commands of the initial load can only
    lower the fence. *)
Lemma mount_commands_lower_fence (scope st0 : State) :
  currentLocation scope = None -> officeLocation scope = None ->
  let I := fun st =>
    (isWithinRange st0 = false -> isWithinRange st = false) /\
    (distance st0 = None -> distance st = None) in
  Always (fun R c => forall st, I st -> I (effect c st)) (getCurrentLocation pf scope) /\
  Always (fun R c => forall st, I st -> I (effect c st)) (fetchOfficeLocation pf scope) /\
  (forall location,
     Always (fun R c => forall st, I st -> I (effect c st))
       (checkOfficeRange pf scope location)) /\
  Always (fun R c => forall st, I st -> I (effect c st)) (fetchTimeRecords pf scope) /\
  (forall v st, I st -> I (applyUpdate (SetLoading v) st)) /\
  (forall v st, I st -> I (applyUpdate (SetLocationPermission v) st)).
Proof.
  intros Hl Ho I.
  assert (Hkeep : forall R (c : Cmd R), keepsGeo R c -> forall st, I st -> I (effect c st)).
  { intros R c Hc st [H1 H2]. specialize (Hc st). unfold geoCells in Hc.
    injection Hc as _ _ Hw Hd. subst I. simpl. rewrite Hw, Hd. auto. }
  split; [|split; [|split; [|split; [|split]]]].
  - unfold getCurrentLocation, checkOfficeRange. rewrite Ho.
    always; auto; intros st [H1 H2]; destruct st; subst I; simpl in *; auto.
  - unfold fetchOfficeLocation, useDefaultOffice, checkOfficeRange. rewrite Hl, ?Ho.
    always; auto; intros st [H1 H2]; destruct st; subst I; simpl in *; auto.
  - intros location. unfold checkOfficeRange. rewrite Ho. constructor.
  - eapply Always_impl; [exact Hkeep | apply fetchTimeRecords_keepsGeo].
  - intros v st [H1 H2]. destruct st; subst I; simpl in *; auto.
  - intros v st [H1 H2]. destruct st; subst I; simpl in *; auto.
Qed.

Opaque checkOfficeRange.

(** X17.  The initial load runs on the snapshot of the first render,
    which knows neither a location nor an office: whatever the device
    and the server answer, it ends with [loading] false and cannot raise
    the fence: if [isWithinRange] was false before it is false after,
    and a null distance stays null. *)
Theorem loadData_leaves_fence_down (env : Shell.Env) (scope st : State)
    (menus : Shell.Menus) :
  currentLocation scope = None -> officeLocation scope = None ->
  let r := Shell.exec env (Shell.loadData pf scope) st menus in
  let st' := fst (Tree.state r) in
  loading st' = false /\
  (isWithinRange st = false -> isWithinRange st' = false) /\
  (distance st = None -> distance st' = None) /\
  snd (Tree.state r) = menus.
Proof.
  intros Hl Ho r st'. subst st' r.
  destruct (mount_commands_lower_fence scope st Hl Ho) as (Hget & Hoff & Hchk & Hrec & Hload & Hperm).
  set (I := fun s : State =>
              (isWithinRange st = false -> isWithinRange s = false) /\
              (distance st = None -> distance s = None)) in *.
  assert (HI0 : I st) by (split; auto).
  unfold Shell.exec, Shell.loadData.
  rewrite tree_run_bind, run_lift. cbn [Tree.result Tree.trace Tree.state fst snd].
  rewrite tree_run_bind.
  match goal with
  | |- context [Tree.run (Shell.step env) Shell.requestLocationPermission ?tr (?s, menus)] =>
      pose proof (requestLocationPermission_cells env tr s menus) as Hp;
      cbv zeta in Hp;
      destruct (Tree.run (Shell.step env) Shell.requestLocationPermission tr (s, menus))
        as [[permissionGranted tr1] [st1 menus1]] eqn:E1;
      assert (HI1 : I st1 /\ menus1 = menus)
  end.
  { cbn in Hp. destruct Hp as [-> Hp]. split; [|reflexivity].
    unfold exec, call in Hp. cbn in Hp.
    destruct Hp as [-> | [v ->]]; [|apply Hperm]; apply Hload; exact HI0. }
  destruct HI1 as [HI1 ->]. clear Hp E1.
  cbn [Tree.result Tree.trace Tree.state fst snd].
  rewrite tree_run_bind.
  assert (Hbranch : forall tr,
             exists a tr2 st2,
               Tree.run (Shell.step env)
                 (if permissionGranted
                  then
                    Tree.bind (Shell.lift (getCurrentLocation pf scope))
                      (fun location =>
                         Tree.bind (Tree.call (Shell.pause 500))
                           (fun _ =>
                              Tree.bind (Shell.lift (fetchOfficeLocation pf scope))
                                (fun office =>
                                   match location, office with
                                   | Some location, Some _ =>
                                       Tree.bind
                                         (Shell.lift (checkOfficeRange pf scope (Some location)))
                                         (fun _ => Tree.Ret tt)
                                   | _, _ => Tree.Ret tt
                                   end)))
                  else
                    Tree.bind (Shell.lift (fetchOfficeLocation pf scope))
                      (fun _ => Tree.Ret tt))
                 tr (st1, menus)
               = (a, tr2, (st2, menus)) /\ I st2).
  { intros tr. destruct permissionGranted.
    - rewrite tree_run_bind, run_lift. cbn [Tree.result Tree.trace Tree.state fst snd].
      cbn [Tree.bind Tree.call Tree.run Shell.step fst snd].
      rewrite tree_run_bind, run_lift. cbn [Tree.result Tree.trace Tree.state fst snd].
      match goal with
      | |- context [stateOf (exec ?e2 (fetchOfficeLocation pf scope)
                               (stateOf (exec ?e1 (getCurrentLocation pf scope) st1)))] =>
          assert (HI2 : I (stateOf (exec e2 (fetchOfficeLocation pf scope)
                                      (stateOf (exec e1 (getCurrentLocation pf scope) st1)))))
            by (apply (run_preserves I); [exact Hoff|];
                apply (run_preserves I); [exact Hget | exact HI1])
      end.
      repeat match goal with
             | |- context [match resultOf ?x with _ => _ end] => destruct (resultOf x)
             end;
        try (do 3 eexists; split; [reflexivity | exact HI2]).
      rewrite tree_run_bind, run_lift. cbn [Tree.result Tree.trace Tree.state fst snd Tree.run].
      do 3 eexists. split; [reflexivity|].
      apply (run_preserves I); [apply Hchk | exact HI2].
    - rewrite tree_run_bind, run_lift. cbn [Tree.result Tree.trace Tree.state fst snd Tree.run].
      do 3 eexists. split; [reflexivity|].
      apply (run_preserves I); [exact Hoff | exact HI1]. }
  match goal with
  | |- context [Tree.run (Shell.step env) (if permissionGranted then _ else _) ?tr _] =>
      destruct (Hbranch tr) as (a & tr2 & st2 & -> & HI2)
  end.
  cbn [Tree.result Tree.trace Tree.state fst snd].
  rewrite tree_run_bind, run_lift. cbn [Tree.result Tree.trace Tree.state fst snd].
  rewrite run_lift. cbn [Tree.result Tree.trace Tree.state fst snd].
  assert (HI3 : I (stateOf (exec (Shell.screenEnv env (List.length tr2))
                              (fetchTimeRecords pf scope) st2)))
    by (apply (run_preserves I); [exact Hrec | exact HI2]).
  unfold exec at 1 3 5. cbn [call run effect stateOf snd].
  apply (Hload false) in HI3. destruct HI3 as [H1 H2].
  split; [|split; [exact H1 | split; [exact H2 | reflexivity]]].
  destruct (stateOf _); reflexivity.
Qed.

(** X15.  Pressing a session button makes that session the active one,
    toggles its menu and closes the other, and makes the first record of
    the render's list that is of today and open for that session the
    active record, or none.  An active record set this way is always a
    record of the list that is open for the session.  The geofence cells
    and the list are untouched, and [closeAllDropdowns] leaves both menus
    closed. *)
Theorem session_press (env : Shell.Env) (scope st : State) (menus live : Shell.Menus)
    (today : Z) :
  (forall n, env _ (Shell.screen newDate) n = today) ->
  let am := Tree.state (Shell.exec env (Shell.pressAM pf scope menus) st live) in
  let pm := Tree.state (Shell.exec env (Shell.pressPM pf scope menus) st live) in
  (activeSession (fst am) = AM /\
   activeTimeRecord (fst am)
   = find (fun x => sameDateString pf (TimeRecord.date x) today && openAM x) (timeRecords scope) /\
   Shell.showAMDropdown (snd am) = negb (Shell.showAMDropdown menus) /\
   Shell.showPMDropdown (snd am) = false) /\
  (activeSession (fst pm) = PM /\
   activeTimeRecord (fst pm)
   = find (fun x => sameDateString pf (TimeRecord.date x) today && openPM x) (timeRecords scope) /\
   Shell.showPMDropdown (snd pm) = negb (Shell.showPMDropdown menus) /\
   Shell.showAMDropdown (snd pm) = false) /\
  (forall record,
     activeTimeRecord (fst am) = Some record ->
     In record (timeRecords scope) /\ openAM record = true /\
     sameDateString pf (TimeRecord.date record) today = true) /\
  (forall record,
     activeTimeRecord (fst pm) = Some record ->
     In record (timeRecords scope) /\ openPM record = true /\
     sameDateString pf (TimeRecord.date record) today = true) /\
  geoCells (fst am) = geoCells st /\ geoCells (fst pm) = geoCells st /\
  timeRecords (fst am) = timeRecords st /\ timeRecords (fst pm) = timeRecords st /\
  Shell.showAMDropdown (snd (Tree.state (Shell.exec env Shell.closeAllDropdowns st live)))
  || Shell.showPMDropdown (snd (Tree.state (Shell.exec env Shell.closeAllDropdowns st live)))
  = false.
Proof.
  intros Hnow am pm.
  assert (Hclock : forall k, answers (Shell.screenEnv env k) newDate today).
  { intros k n. apply Hnow. }
  assert (Ham : fst am = applyUpdate
                  (SetActiveTimeRecord
                     (find (fun x => sameDateString pf (TimeRecord.date x) today && openAM x)
                        (timeRecords scope)))
                  (applyUpdate (SetActiveSession AM) st) /\
                snd am = {| Shell.showAMDropdown := negb (Shell.showAMDropdown menus);
                            Shell.showPMDropdown := false |}).
  { subst am. unfold Shell.exec, Shell.pressAM.
    cbn [Shell.lift call Tree.bind Tree.call Tree.run Shell.step effect fst snd].
    rewrite tree_run_bind, run_lift. unfold exec.
    match goal with
    | |- context [run ?e (findToday pf openAM (timeRecords scope)) [] ?s] =>
        destruct (findToday_run e openAM today (timeRecords scope) (Hclock _) [] s)
          as [clock [-> _]]
    end.
    cbn [resultOf traceOf stateOf Tree.result Tree.trace Tree.state fst snd].
    destruct (find (fun x => sameDateString pf (TimeRecord.date x) today && openAM x)
                (timeRecords scope)); cbn; split; reflexivity. }
  assert (Hpm : fst pm = applyUpdate
                  (SetActiveTimeRecord
                     (find (fun x => sameDateString pf (TimeRecord.date x) today && openPM x)
                        (timeRecords scope)))
                  (applyUpdate (SetActiveSession PM) st) /\
                snd pm = {| Shell.showAMDropdown := false;
                            Shell.showPMDropdown := negb (Shell.showPMDropdown menus) |}).
  { subst pm. unfold Shell.exec, Shell.pressPM.
    cbn [Shell.lift call Tree.bind Tree.call Tree.run Shell.step effect fst snd].
    rewrite tree_run_bind, run_lift. unfold exec.
    match goal with
    | |- context [run ?e (findToday pf openPM (timeRecords scope)) [] ?s] =>
        destruct (findToday_run e openPM today (timeRecords scope) (Hclock _) [] s)
          as [clock [-> _]]
    end.
    cbn [resultOf traceOf stateOf Tree.result Tree.trace Tree.state fst snd].
    destruct (find (fun x => sameDateString pf (TimeRecord.date x) today && openPM x)
                (timeRecords scope)); cbn; split; reflexivity. }
  destruct Ham as [-> ->], Hpm as [-> ->].
  assert (Hfound : forall test record,
             find (fun x => sameDateString pf (TimeRecord.date x) today && test x)
               (timeRecords scope) = Some record ->
             In record (timeRecords scope) /\ test record = true /\
             sameDateString pf (TimeRecord.date record) today = true).
  { intros test record H. apply find_some in H. destruct H as [Hin H].
    apply andb_true_iff in H. tauto. }
  destruct st; simpl.
  repeat match goal with |- _ /\ _ => split end; try reflexivity;
    intros record H; apply Hfound; exact H.
Qed.

(** *** The biometric hook *)

Lemma hook_length_snoc (l : list (Tree.event Hook.Cmd)) (x : Tree.event Hook.Cmd) :
  List.length (l ++ [x]) = S (List.length l).
Proof. rewrite length_app. simpl. lia. Qed.

Ltac hook_branch :=
  match goal with
  | |- context [match ?x with Resolved _ => _ | Rejected _ => _ end] =>
      let E := fresh "E" in destruct x eqn:E
  | |- context [match ?x with Some _ => _ | None => _ end] =>
      let E := fresh "E" in destruct x eqn:E
  | |- context [if ?x then _ else _] =>
      let E := fresh "E" in destruct x eqn:E
  end; cbn.

(** X18.  Every run of [checkBiometricStatus] ends with the hook's
    [loading] false and writes no key of storage but the preference.  The
    status is either left as it was or set from what the device reported;
    without hardware the enrolment is not asked and is recorded as
    absent. *)
Theorem checkBiometricStatus_settles (env : Hook.Env) (st : Hook.State) :
  let r := Hook.exec env (Hook.checkBiometricStatus pf) st in
  Hook.loading (Tree.state r) = false /\
  (forall key, key <> "biometricsEnabled"%string ->
     Hook.stored key (Hook.storage (Tree.state r)) = Hook.stored key (Hook.storage st)) /\
  (Hook.biometricStatus (Tree.state r) = Hook.biometricStatus st \/
   exists hardware, In (Tree.Ev Hook.hasHardwareAsync (Resolved hardware)) (Tree.trace r) /\
     available (Hook.biometricStatus (Tree.state r)) = hardware /\
     (hardware = false -> enrolled (Hook.biometricStatus (Tree.state r)) = false)) /\
  ((forall n, env _ Hook.hasHardwareAsync n = Resolved false) ->
     forallb (fun e => negb (Hook.asksEnrollment e)) (Tree.trace r) = true).
Proof.
  intros r. subst r.
  unfold Hook.exec, Hook.checkBiometricStatus, Hook.backendPreference, Hook.localPreference.
  cbn.
  split; [|split; [|split]].
  - repeat hook_branch; reflexivity.
  - intros key Hkey.
    assert (Hk : forall v s, Hook.stored key (("biometricsEnabled"%string, v) :: s) = Hook.stored key s).
    { intros v s. unfold Hook.stored. cbn [find fst].
      destruct (String.eqb_spec "biometricsEnabled" key); [congruence | reflexivity]. }
    repeat hook_branch; rewrite ?Hk; reflexivity.
  - repeat hook_branch; auto; right; eexists; (split; [simpl; eauto 20|]);
      split; try reflexivity; try discriminate; auto.
  - intros Hno. rewrite Hno. cbn. repeat hook_branch; reflexivity.
Qed.

Lemma stored_head (key value : string) (s : list (string * string)) :
  Hook.stored key ((key, value) :: s) = Some value.
Proof. unfold Hook.stored. cbn [find fst]. rewrite String.eqb_refl. reflexivity. Qed.

(** X19.  Where the preference comes from, the device and storage not
    failing.  Without a token it is the stored preference.  With a token
    and an answer of the backend that is [ok], it is the backend's flag
    (off when the flag is missing), and storage is made to agree with it;
    an answer that is not [ok] gives off and leaves storage alone; a
    failed request or an unreadable body falls back to the stored
    preference.  [available] is the hardware and [enrolled] the
    enrolment on hardware. *)
Theorem checkBiometricStatus_preference (env : Hook.Env) (st : Hook.State)
    (hardware enrolment : bool) :
  Hook.deviceAnswers env hardware enrolment ->
  let r := Hook.exec env (Hook.checkBiometricStatus pf) st in
  let status := Hook.biometricStatus (Tree.state r) in
  let storage' := Hook.storage (Tree.state r) in
  let local :=
    match Hook.stored "biometricsEnabled" (Hook.storage st) with
    | Some text => (text =? "true")%string
    | None => false
    end in
  available status = hardware /\
  enrolled status = hardware && enrolment /\
  (Js.truthyOpt (Hook.stored "userToken" (Hook.storage st)) = false ->
     enabled status = local /\ storage' = Hook.storage st /\
     forallb (fun e => negb (Hook.isFetch e)) (Tree.trace r) = true) /\
  (forall token,
     Hook.stored "userToken" (Hook.storage st) = Some token ->
     Js.truthy token = true ->
     (forall response,
        (forall n, env _ (Hook.fetch (API_URL pf ++ "/api/biometrics") ("Bearer " ++ token)) n
                   = Resolved response) ->
        match Hook.ok response, Hook.json response with
        | true, Resolved data =>
            enabled status = match data with Some v => v | None => false end /\
            Hook.stored "biometricsEnabled" storage'
            = Some (if enabled status then "true" else "false")%string
        | true, Rejected _ => enabled status = local /\ storage' = Hook.storage st
        | false, _ => enabled status = false /\ storage' = Hook.storage st
        end) /\
     (forall err,
        (forall n, env _ (Hook.fetch (API_URL pf ++ "/api/biometrics") ("Bearer " ++ token)) n
                   = Rejected err) ->
        enabled status = local /\ storage' = Hook.storage st)).
Proof.
  intros (Hhw & Hen & Hget & Hset) r status storage' local. subst r status storage' local.
  unfold Hook.exec, Hook.checkBiometricStatus, Hook.backendPreference, Hook.localPreference.
  cbn. rewrite Hhw. cbn.
  assert (Hread : forall key n,
             match env _ (Hook.getItem key) n with
             | Resolved _ => Resolved (Hook.stored key (Hook.storage st))
             | Rejected e => Rejected e
             end = Resolved (Hook.stored key (Hook.storage st))).
  { intros key n. destruct (Hget key n) as [v ->]. reflexivity. }
  destruct hardware; cbn; rewrite ?Hen; cbn; rewrite !Hread; cbn.
  all: (split; [|split; [|split]]).
  all: try (intros Hno; rewrite Hno; cbn; rewrite ?Hread; cbn;
            destruct (Hook.stored "biometricsEnabled" (Hook.storage st)); cbn;
            repeat split; reflexivity).
  all: try (intros token Htok Htruthy; rewrite Htok; cbn; rewrite Htruthy; cbn; split;
            [ intros response Hrsp; rewrite Hrsp; cbn;
              destruct (Hook.ok response); cbn;
              [ destruct (Hook.json response) as [[v|]|err]; cbn;
                rewrite ?Hset; cbn; rewrite ?Hread; cbn;
                try (destruct (Hook.stored "biometricsEnabled" (Hook.storage st)); cbn;
                     split; reflexivity);
                (split; [reflexivity | apply stored_head])
              | split; reflexivity ]
            | intros err Hrsp; rewrite Hrsp; cbn; rewrite ?Hread; cbn;
              destruct (Hook.stored "biometricsEnabled" (Hook.storage st)); cbn;
              split; reflexivity ]).
  all: destruct (Hook.stored "userToken" (Hook.storage st)) as [token|]; cbn;
    [destruct (Js.truthy token); cbn|];
    rewrite ?Hread; cbn;
    try (destruct (Hook.stored "biometricsEnabled" (Hook.storage st)); reflexivity);
    (destruct (env _ (Hook.fetch _ _) _) as [response|err]; cbn; rewrite ?Hread; cbn;
     [destruct (Hook.ok response); cbn;
      [destruct (Hook.json response) as [[v|]|err]; cbn; rewrite ?Hset; cbn; rewrite ?Hread; cbn|]
     |]);
    try reflexivity;
    destruct (Hook.stored "biometricsEnabled" (Hook.storage st)); reflexivity.
Qed.

(** Rewrites every read of storage that the goal shows, [H] saying that
    no read fails. *)
Ltac read_storage H :=
  repeat match goal with
         | |- context [?e _ (Hook.getItem ?k) ?n] =>
             let v := fresh "v" in
             let Hv := fresh "Hv" in
             destruct (H k n) as [v Hv]; rewrite Hv; clear v Hv; cbn
         end.

(** X20.  [enableBiometrics] answers [false] and changes nothing when
    the write to storage fails.  Otherwise it answers [true], sets the
    preference of the status and stores its text; a status check that
    then cannot reach the backend (no token, or a failed request) reads
    the same preference back. *)
Theorem enableBiometrics_round_trip (env : Hook.Env) (st : Hook.State) (enable : bool) :
  let r := Hook.exec env (Hook.enableBiometrics enable) st in
  ((exists err, env _ (Hook.setItem "biometricsEnabled" (if enable then "true" else "false"))
                  0%nat = Rejected err) ->
     Tree.result r = false /\ Tree.state r = st) /\
  (forall hardware enrolment,
     Hook.deviceAnswers env hardware enrolment ->
     Tree.result r = true /\
     Hook.biometricStatus (Tree.state r) = withEnabled enable (Hook.biometricStatus st) /\
     Hook.stored "biometricsEnabled" (Hook.storage (Tree.state r))
     = Some (if enable then "true" else "false")%string /\
     (Js.truthyOpt (Hook.stored "userToken" (Hook.storage st)) = false \/
      (forall url auth n, exists err, env _ (Hook.fetch url auth) n = Rejected err) ->
      let checked := Hook.exec env (Hook.checkBiometricStatus pf) (Tree.state r) in
      enabled (Hook.biometricStatus (Tree.state checked)) = enable /\
      available (Hook.biometricStatus (Tree.state checked)) = hardware)).
Proof.
  intros r. subst r. unfold Hook.exec, Hook.enableBiometrics. cbn. split.
  - intros [err ->]. cbn. split; reflexivity.
  - intros hardware enrolment (Hhw & Hen & Hget & Hset). rewrite Hset. cbn.
    split; [reflexivity|]. split; [reflexivity|]. split; [reflexivity|].
    assert (Htoken : forall v s,
               Hook.stored "userToken" (("biometricsEnabled"%string, v) :: s)
               = Hook.stored "userToken" s).
    { intros v s. reflexivity. }
    intros Hoff.
    unfold Hook.checkBiometricStatus, Hook.backendPreference, Hook.localPreference. cbn.
    rewrite Hhw. cbn.
    assert (Hlocal : String.eqb (if enable then "true" else "false") "true" = enable)
      by (destruct enable; reflexivity).
    destruct hardware; cbn; rewrite ?Hen; cbn; read_storage Hget; rewrite ?Htoken.
    all: destruct Hoff as [Hno|Hfail];
      [ rewrite Hno; cbn; read_storage Hget; split; [exact Hlocal | reflexivity]
      | destruct (Hook.stored "userToken" (Hook.storage st)) as [token|]; cbn;
        [destruct (Js.truthy token); cbn|];
        read_storage Hget;
        try (split; [exact Hlocal | reflexivity]);
        match goal with
        | |- context [?e _ (Hook.fetch ?u ?a) ?n] =>
            destruct (Hfail u a n) as [err ->]
        end;
        cbn; read_storage Hget; split; [exact Hlocal | reflexivity] ].
Qed.

(** *** The hook and the screen *)

(** X21.  On a device that reports no biometric hardware, or fails to
    report, the status of a freshly mounted hook is unavailable; with it
    [authenticate] answers [false] without prompting, and neither
    [handleTimeIn] nor [handleTimeOut] prompts or requests anything: a
    time-in within range is answered by the set-up message. *)
Theorem no_hardware_denies_time_tracking (henv : Hook.Env) (storage : list (string * string))
    (env : Env) (scope st : State) :
  (forall n, henv _ Hook.hasHardwareAsync n = Resolved false) \/
  (forall n, exists err, henv _ Hook.hasHardwareAsync n = Rejected err) ->
  let status :=
    Hook.biometricStatus
      (Tree.state (Hook.exec henv (Hook.checkBiometricStatus pf) (Hook.initial storage))) in
  let scope' := withBiometricStatus status scope in
  available status = false /\
  (forall prompt force,
     exec env (authenticate status prompt force) st = (false, [], st)) /\
  quiet isBiometric (traceOf (exec env (handleTimeIn pf scope') st)) = true /\
  quiet isNetwork (traceOf (exec env (handleTimeIn pf scope') st)) = true /\
  quiet isBiometric (traceOf (exec env (handleTimeOut pf scope') st)) = true /\
  quiet isNetwork (traceOf (exec env (handleTimeOut pf scope') st)) = true /\
  (currentLocation scope <> None -> isWithinRange scope = true ->
     toasts (traceOf (exec env (handleTimeIn pf scope') st)) =
       [("Biometric authentication is not set up on this device. Please enroll your fingerprint in device settings.",
         error)]).
Proof.
  intros Hno status scope'.
  assert (Hav : available status = false).
  { subst status.
    unfold Hook.exec, Hook.checkBiometricStatus, Hook.backendPreference, Hook.localPreference.
    cbn. destruct Hno as [H|H].
    - rewrite H. cbn. repeat hook_branch; reflexivity.
    - destruct (H 1%nat) as [err ->]. reflexivity. }
  split; [exact Hav|].
  subst scope'. destruct status as [a e en]. simpl in Hav. subst a.
  destruct scope as [? ? ? cl ? ? sess ar wr ? ? ? ? ? ? ? ? ? bs].
  unfold exec, handleTimeIn, handleTimeOut, authenticate. simpl.
  split; [reflexivity|].
  destruct ar, cl, wr; simpl; repeat split; try reflexivity;
    intros H1 H2; try discriminate; now elim H1.
Qed.

(** *** The sliders of the offset form *)

Lemma quarterHours_iff (q : Q) :
  quarterHours q = true <->
  (0 <= q)%Q /\ (q <= 8)%Q /\ exists k : Z, (q == k # 4)%Q.
Proof.
  unfold quarterHours. rewrite !andb_true_iff, !Qle_bool_iff, Z.eqb_eq.
  destruct q as [a b]. cbn [Qnum Qden]. split.
  - intros [[H0 H8] Hm]. split; [exact H0|]. split; [exact H8|].
    apply Z.mod_divide in Hm; [|discriminate]. destruct Hm as [k Hk].
    exists k. unfold Qeq. simpl. lia.
  - intros (H0 & H8 & [k Hk]). split; [split; assumption|].
    unfold Qeq in Hk. simpl in Hk.
    apply Z.mod_divide; [discriminate|]. exists k. lia.
Qed.

(** X22.  The accessibility actions of the sliders of the offset form
    keep the hours on the grid.  From a multiple of a quarter within
    [0, 8], "increment" hands the setter the next quarter, or 8 when
    that would pass 8, and "decrement" the previous quarter, or 0 when
    that would pass 0; any other action hands it nothing.  A value
    handed over is again such a multiple, in either cell of the form. *)
Theorem slider_actions_keep_quarter_hours (value : Q) (actionName : string) :
  quarterHours value = true ->
  (exists up,
     Slider.onAccessibilityAction (Slider.formSlider value) "increment" = Some up /\
     quarterHours up = true /\
     ((value + 0.25 <= 8)%Q -> (up == value + 0.25)%Q) /\
     (~ (value + 0.25 <= 8)%Q -> (up == 8)%Q)) /\
  (exists down,
     Slider.onAccessibilityAction (Slider.formSlider value) "decrement" = Some down /\
     quarterHours down = true /\
     ((0 <= value - 0.25)%Q -> (down == value - 0.25)%Q) /\
     (~ (0 <= value - 0.25)%Q -> (down == 0)%Q)) /\
  (actionName <> "increment"%string -> actionName <> "decrement"%string ->
     Slider.onAccessibilityAction (Slider.formSlider value) actionName = None) /\
  (forall v,
     Slider.onAccessibilityAction (Slider.formSlider value) actionName = Some v ->
     forall env st,
       undertime (stateOf (exec env (formEdit st (SlideUndertime v)) st)) = v /\
       makeup (stateOf (exec env (formEdit st (SlideMakeup v)) st)) = v /\
       quarterHours v = true).
Proof.
  intros Hq.
  apply quarterHours_iff in Hq. destruct Hq as (H0 & H8 & [k Hk]).
  assert (Hup : exists up,
             Slider.onAccessibilityAction (Slider.formSlider value) "increment" = Some up /\
             quarterHours up = true /\
             ((value + 0.25 <= 8)%Q -> (up == value + 0.25)%Q) /\
             (~ (value + 0.25 <= 8)%Q -> (up == 8)%Q)).
  { unfold Slider.onAccessibilityAction, Slider.formSlider, Slider.min. cbn.
    destruct (Qle_bool (value + 0.25) 8) eqn:E; eexists; (split; [reflexivity|]).
    - apply Qle_bool_iff in E. split; [|split; [reflexivity | now intros H]].
      apply quarterHours_iff. split; [|split; [exact E|]].
      + destruct value as [a b]. unfold Qle, Qplus in *. simpl in *. nia.
      + exists (k + 1). rewrite Hk. unfold Qeq, Qplus. simpl. lia.
    - split; [reflexivity|]. split; [|reflexivity].
      intros Hle. apply Qle_bool_iff in Hle. congruence. }
  assert (Hdown : exists down,
             Slider.onAccessibilityAction (Slider.formSlider value) "decrement" = Some down /\
             quarterHours down = true /\
             ((0 <= value - 0.25)%Q -> (down == value - 0.25)%Q) /\
             (~ (0 <= value - 0.25)%Q -> (down == 0)%Q)).
  { unfold Slider.onAccessibilityAction, Slider.formSlider, Slider.max. cbn.
    destruct (Qle_bool (value - 0.25) 0) eqn:E; eexists; (split; [reflexivity|]).
    - apply Qle_bool_iff in E. split; [reflexivity|]. split; [|reflexivity].
      intros Hge. apply Qle_antisym; assumption.
    - assert (Hpos : (0 <= value - 0.25)%Q).
      { destruct (Qlt_le_dec (value - 0.25) 0) as [Hlt|Hge]; [|exact Hge].
        apply Qlt_le_weak, Qle_bool_iff in Hlt. congruence. }
      split; [|split; [reflexivity | now intros H]].
      apply quarterHours_iff. split; [exact Hpos|]. split.
      + destruct value as [a b]. unfold Qle, Qminus, Qplus, Qopp in *. simpl in *. nia.
      + exists (k - 1). rewrite Hk. unfold Qeq, Qminus, Qplus, Qopp. simpl. lia. }
  split; [exact Hup|]. split; [exact Hdown|]. split.
  - intros Hni Hnd. unfold Slider.onAccessibilityAction.
    destruct (String.eqb_spec actionName "increment") as [->|_]; [now elim Hni|].
    destruct (String.eqb_spec actionName "decrement") as [->|_]; [now elim Hnd|].
    reflexivity.
  - intros v Hact env st.
    assert (Hv : quarterHours v = true).
    { destruct Hup as (up & Hu & Hqu & _). destruct Hdown as (down & Hd & Hqd & _).
      unfold Slider.onAccessibilityAction in Hact, Hu, Hd.
      destruct (actionName =? "increment")%string.
      - cbn in Hu, Hact. congruence.
      - destruct (actionName =? "decrement")%string.
        + cbn in Hd, Hact. congruence.
        + discriminate Hact. }
    unfold exec. destruct st; simpl. repeat split; try reflexivity. exact Hv.
Qed.


(** *** The fingerprints of the account *)

Ltac screen_branch :=
  match goal with
  | |- context [match ?x with Fingerprints.Fulfilled _ => _ | Fingerprints.Failed _ => _ end] =>
      let E := fresh "E" in destruct x eqn:E
  | |- context [match ?x with Resolved _ => _ | Rejected _ => _ end] =>
      let E := fresh "E" in destruct x eqn:E
  | |- context [match ?x with Some _ => _ | None => _ end] =>
      let E := fresh "E" in destruct x eqn:E
  | |- context [if ?x then _ else _] =>
      let E := fresh "E" in destruct x eqn:E
  end; cbn.

(** X23.  [addBiometric] sends a fingerprint to the backend only on a
    status with hardware and enrolment and after the prompt "Scan your
    fingerprint to add it to your account", biometric only, has
    succeeded; it sends it once, under the name "Fingerprint n+1" for a
    list of n and an identifier that begins with "bio_".  On such a
    status the prompt is shown whatever the preference of the app.  On a
    status without hardware or enrolment there is one alert and nothing
    else: no prompt, no request, no cell changed. *)
Theorem addBiometric_gate (env : Fingerprints.Env) (status : BiometricStatus)
    (biometrics : list Fingerprints.BiometricRecord) (st : Fingerprints.State) :
  let r := Fingerprints.exec env (Fingerprints.addBiometric pf status biometrics) st in
  let prompt := biometricOnly "Scan your fingerprint to add it to your account" in
  (available status && enrolled status = false ->
     Tree.state r = st /\
     Fingerprints.prompts (Tree.trace r) = [] /\
     Fingerprints.posts (Tree.trace r) = [] /\
     List.length (Fingerprints.alerts (Tree.trace r)) = 1%nat) /\
  (available status && enrolled status = true ->
     map fst (Fingerprints.prompts (Tree.trace r)) = [prompt]) /\
  (forall post, In post (Fingerprints.posts (Tree.trace r)) ->
     available status && enrolled status = true /\
     Fingerprints.prompts (Tree.trace r) = [(prompt, Resolved true)] /\
     Fingerprints.posts (Tree.trace r) = [post] /\
     exists timestamp first second token,
       post = (API_URL pf ++ "/api/biometrics",
               "bio_" ++ Js.numberToString timestamp ++ "_" ++ first ++ second,
               "Fingerprint " ++ Js.numberToString (Z.of_nat (List.length biometrics) + 1),
               "Bearer " ++ token)%string).
Proof.
  intros r prompt. subst r prompt.
  unfold Fingerprints.exec, Fingerprints.addBiometric, Fingerprints.saveBiometric, authenticate,
    Hook.checkBiometricStatus, Hook.backendPreference, Hook.localPreference, biometricOnly.
  destruct status as [a e en]. cbn [available enrolled enabled].
  destruct a, e; cbn.
  all: try (split; [intros _; repeat split; reflexivity
                   | split; [discriminate | intros post []]]).
  split; [discriminate|].
  rewrite andb_false_r. cbn.
  split.
  - intros _. repeat screen_branch; reflexivity.
  - intros post. 
    repeat screen_branch; cbn; intros Hin; try contradiction.
    all: match goal with H : negb ?a = false |- _ => destruct a; [clear H | discriminate H] end.
    all: destruct Hin as [<-|[]]; split; [reflexivity|]; (split; [reflexivity|]);
      (split; [reflexivity|]); eexists _, _, _, _; reflexivity.
Qed.
Ltac unfold_screen :=
  unfold Fingerprints.exec, Fingerprints.addBiometric, Fingerprints.saveBiometric,
    Fingerprints.toggleBiometricsEnabled, Fingerprints.toggleFailed, authenticate,
    Hook.enableBiometrics, Hook.checkBiometricStatus, Hook.backendPreference,
    Hook.localPreference, biometricOnly.

(** X24.  A run of [addBiometric] that sent the fingerprint ends with
    [loading] off, and when the token can be read a run either changed
    nothing or ends with [loading] off.  When the prompt succeeds and
    reading the token fails, nothing is sent, the alert is that of the
    outer [catch], and [loading] stays on. *)
Theorem addBiometric_loading (env : Fingerprints.Env) (status : BiometricStatus)
    (biometrics : list Fingerprints.BiometricRecord) (st : Fingerprints.State) :
  let r := Fingerprints.exec env (Fingerprints.addBiometric pf status biometrics) st in
  (Fingerprints.posts (Tree.trace r) <> [] -> Fingerprints.loading (Tree.state r) = false) /\
  (Fingerprints.tokenRead env ->
     Tree.state r = st \/ Fingerprints.loading (Tree.state r) = false) /\
  (available status = true -> enrolled status = true ->
   (forall n, env _ (Fingerprints.device
                       (authenticateAsync
                          (biometricOnly "Scan your fingerprint to add it to your account"))) n
              = Resolved true) ->
   (forall n, exists e, env _ Fingerprints.getToken n = Fingerprints.Failed e) ->
   Fingerprints.loading (Tree.state r) = true /\
   Fingerprints.posts (Tree.trace r) = [] /\
   Fingerprints.alerts (Tree.trace r) = [("Error", "Failed to process biometric authentication")]).
Proof.
  intros r. subst r. unfold_screen.
  destruct status as [a e en]. cbn [available enrolled enabled].
  split; [|split].
  - destruct a, e; cbn; try congruence. rewrite andb_false_r. cbn.
    repeat screen_branch; congruence.
  - intros Htoken. destruct a, e; cbn; auto. rewrite andb_false_r. cbn.
    destruct (env _ (Fingerprints.device _) 0%nat) as [[|]|]; cbn; auto.
    destruct (Htoken 5%nat) as [token ->]. cbn.
    right. repeat screen_branch; reflexivity.
  - intros -> -> Hprompt Htoken. cbn. rewrite andb_false_r. cbn.
    unfold biometricOnly in Hprompt. rewrite Hprompt. cbn.
    destruct (Htoken 5%nat) as [err ->]. cbn. auto.
Qed.

(** X25.  What [addBiometric] shows for the answer to the fingerprint it
    sent.  A list in the answer replaces that of the screen, and its flag
    the preference shown, whether or not the new identifier is in the
    list; success is reported, and the status of the hook checked again,
    exactly when it is.  An answer without a list and a failed request
    change neither the list, nor the preference, nor the cells of the
    hook; the alert of a failed request carries the error of the server
    when the failure has a response. *)
Theorem addBiometric_outcome (env : Fingerprints.Env) (status : BiometricStatus)
    (biometrics : list Fingerprints.BiometricRecord) (st : Fingerprints.State)
    (url biometricId name authorization : string) (reply : Fingerprints.Reply (option Fingerprints.Data.t)) :
  let r := Fingerprints.exec env (Fingerprints.addBiometric pf status biometrics) st in
  let untouched :=
    Fingerprints.biometrics (Tree.state r) = Fingerprints.biometrics st /\
    Fingerprints.biometricsEnabled (Tree.state r) = Fingerprints.biometricsEnabled st /\
    Fingerprints.hookCells (Tree.state r) = Fingerprints.hookCells st /\
    existsb Fingerprints.checksStatus (Tree.trace r) = false in
  In (url, biometricId, name, authorization) (Fingerprints.posts (Tree.trace r)) ->
  (forall n, env _ (Fingerprints.axios_post url biometricId name authorization) n = reply) ->
  (forall data backendRecords,
     reply = Fingerprints.Fulfilled (Some data) ->
     Fingerprints.Data.biometrics data = Some backendRecords ->
     let saved :=
       existsb (fun record => Fingerprints.Backend.biometricId record =? biometricId)%string
         backendRecords in
     Fingerprints.biometrics (Tree.state r) = map Fingerprints.toRecord backendRecords /\
     Fingerprints.biometricsEnabled (Tree.state r) = Fingerprints.Data.biometricsEnabled data /\
     Fingerprints.alerts (Tree.trace r)
     = [if saved then ("Success", "Fingerprint added successfully")
        else ("Error", "Fingerprint was not properly saved. Please try again.")] /\
     existsb Fingerprints.checksStatus (Tree.trace r) = saved /\
     (saved = false -> Fingerprints.hookCells (Tree.state r) = Fingerprints.hookCells st)) /\
  (reply = Fingerprints.Fulfilled None \/
   (exists data, reply = Fingerprints.Fulfilled (Some data) /\
                 Fingerprints.Data.biometrics data = None) ->
   untouched /\
   Fingerprints.alerts (Tree.trace r)
   = [("Error", "Failed to add fingerprint due to server response format")]) /\
  (forall e, reply = Fingerprints.Failed e ->
     untouched /\
     Fingerprints.alerts (Tree.trace r)
     = [("Error",
         match Fingerprints.response e with
         | Some serverError =>
             ("Failed to add fingerprint: " ++ Js.orElse serverError "Unknown error")%string
         | None => "Failed to add fingerprint. Please check your connection."
         end)]).
Proof.
  intros r untouched. subst r untouched. unfold_screen.
  destruct status as [a e en]. cbn [available enrolled enabled].
  destruct a, e; cbn; try contradiction. rewrite andb_false_r. cbn.
  destruct (env _ (Fingerprints.device _) 0%nat) as [[|]|]; cbn; try contradiction.
  destruct (env _ Fingerprints.getToken 5%nat) as [token|err] eqn:Etoken; cbn;
    try contradiction.
  match goal with
  | |- context [env _ (Fingerprints.axios_post ?u ?i ?m ?h) 6%nat] =>
      remember u as u' eqn:Hu; remember i as i' eqn:Hi; remember m as m' eqn:Hm;
      remember h as h' eqn:Hh
  end.
  assert (Hpost : In (url, biometricId, name, authorization) [(u', i', m', h')] ->
                  (forall n, env _ (Fingerprints.axios_post url biometricId name authorization) n
                             = reply) ->
                  env _ (Fingerprints.axios_post u' i' m' h') 6%nat = reply).
  { intros [Heq|[]] H. injection Heq as -> -> -> ->. apply H. }
  clear Hu Hi Hm Hh.
  destruct (env _ (Fingerprints.axios_post u' i' m' h') 6%nat) as [[data|]|err] eqn:Epost; cbn.
  - destruct (Fingerprints.Data.biometrics data) as [records|] eqn:Erecords; cbn.
    + destruct (existsb _ records) eqn:Esaved; cbn.
      * repeat screen_branch.
        all: intros Hin Hreply; pose proof (Hpost Hin Hreply) as <-;
          destruct Hin as [Heq|[]]; injection Heq as -> -> -> ->.
        all: (split; [|split]);
          [ intros data' records' Hd Hr; injection Hd as <-;
            rewrite Erecords in Hr; injection Hr as <-; rewrite Esaved;
            repeat split; try reflexivity; discriminate
          | intros [H|(data' & H & Hr)]; [discriminate H|];
            injection H as <-; congruence
          | intros e' H; discriminate H ].
      * intros Hin Hreply; pose proof (Hpost Hin Hreply) as <-;
          destruct Hin as [Heq|[]]; injection Heq as -> -> -> ->.
        (split; [|split]);
          [ intros data' records' Hd Hr; injection Hd as <-;
            rewrite Erecords in Hr; injection Hr as <-; rewrite Esaved;
            repeat split; reflexivity
          | intros [H|(data' & H & Hr)]; [discriminate H|];
            injection H as <-; congruence
          | intros e' H; discriminate H ].
    + intros Hin Hreply; pose proof (Hpost Hin Hreply) as <-.
      (split; [|split]);
        [ intros data' records' Hd Hr; injection Hd as <-; congruence
        | intros _; repeat split; reflexivity
        | intros e' H; discriminate H ].
  - intros Hin Hreply; pose proof (Hpost Hin Hreply) as <-.
    (split; [|split]);
      [ intros data' records' Hd Hr; discriminate Hd
      | intros _; repeat split; reflexivity
      | intros e' H; discriminate H ].
  - destruct (Fingerprints.response err) eqn:Er; cbn.
    all: intros Hin Hreply; pose proof (Hpost Hin Hreply) as <-.
    all: (split; [|split]);
      [ intros data' records' Hd Hr; discriminate Hd
      | intros [H|(data' & H & Hr)]; discriminate H
      | intros e' H; injection H as <-; rewrite Er; repeat split; reflexivity ].
Qed.
(** X26.  Switching biometrics on with no fingerprint in the list sends
    nothing to the backend and stores nothing: the preference shown and
    the cells of the hook stay as they were, and [loading] ends off; with
    a token the alert asks for a fingerprint first.  Switching off with
    an empty list, and on with a list that is not empty, is sent. *)
Theorem toggleBiometricsEnabled_guard (env : Fingerprints.Env) (st : Fingerprints.State)
    (biometrics : list Fingerprints.BiometricRecord) :
  let on := Fingerprints.exec env (Fingerprints.toggleBiometricsEnabled pf [] true) st in
  let off := Fingerprints.exec env (Fingerprints.toggleBiometricsEnabled pf [] false) st in
  let more :=
    Fingerprints.exec env (Fingerprints.toggleBiometricsEnabled pf biometrics true) st in
  Fingerprints.puts (Tree.trace on) = [] /\
  Fingerprints.writes (Tree.trace on) = [] /\
  Fingerprints.loading (Tree.state on) = false /\
  Fingerprints.biometricsEnabled (Tree.state on) = Fingerprints.biometricsEnabled st /\
  Fingerprints.hookCells (Tree.state on) = Fingerprints.hookCells st /\
  (Fingerprints.tokenRead env ->
     Fingerprints.alerts (Tree.trace on)
     = [("Error",
         "You must add at least one fingerprint before enabling biometric authentication")] /\
     Fingerprints.puts (Tree.trace off) = [((API_URL pf ++ "/api/biometrics/toggle")%string, false)] /\
     (biometrics <> [] ->
      Fingerprints.puts (Tree.trace more)
      = [((API_URL pf ++ "/api/biometrics/toggle")%string, true)])).
Proof.
  intros on off more. subst on off more. unfold_screen. cbn.
  destruct (env _ Fingerprints.getToken 1%nat) as [token|err] eqn:Etoken; cbn.
  - do 5 (split; [reflexivity|]). intros _.
    split; [reflexivity|]. split.
    + repeat screen_branch; reflexivity.
    + intros Hne. destruct biometrics as [|b l]; [congruence|]. cbn.
      repeat screen_branch; reflexivity.
  - do 5 (split; [reflexivity|]).
    intros Htoken; destruct (Htoken 1%nat) as [token Ht]; congruence.
Qed.

(** X27.  Every run of [toggleBiometricsEnabled] ends with [loading] off
    and leaves the list alone.  When the backend answers the switch, the
    preference shown is the flag of the answer, that flag is what the
    hook is asked to store, the status is checked again, and success is
    reported exactly when the flag is the value asked for, whatever
    storage and the device do in between.  When the request fails, the
    preference shown and the cells of the hook stay as they were, and
    the alert carries the error of the server, else the message of the
    error. *)
Theorem toggleBiometricsEnabled_outcome (env : Fingerprints.Env)
    (biometrics : list Fingerprints.BiometricRecord) (value : bool) (st : Fingerprints.State) :
  let r := Fingerprints.exec env (Fingerprints.toggleBiometricsEnabled pf biometrics value) st in
  Fingerprints.loading (Tree.state r) = false /\
  Fingerprints.biometrics (Tree.state r) = Fingerprints.biometrics st /\
  (forall token,
     (forall n, env _ Fingerprints.getToken n = Fingerprints.Fulfilled token) ->
     value && (List.length biometrics =? 0)%nat = false ->
     (forall data,
        (forall n, env _ (Fingerprints.axios_put (API_URL pf ++ "/api/biometrics/toggle") value
                            ("Bearer " ++ token)) n = Fingerprints.Fulfilled data) ->
        let flag := Fingerprints.Data.biometricsEnabled data in
        let stored := match flag with Some true => "true" | _ => "false" end in
        Fingerprints.biometricsEnabled (Tree.state r) = flag /\
        Fingerprints.alerts (Tree.trace r)
        = [match flag with
           | Some answer =>
               if Bool.eqb answer value
               then ("Success",
                     ("Biometric authentication " ++ (if value then "enabled" else "disabled")
                      ++ " successfully")%string)
               else ("Error",
                     "Failed to update biometrics settings. The server returned an unexpected value.")
           | None =>
               ("Error",
                "Failed to update biometrics settings. The server returned an unexpected value.")
           end] /\
        hd_error (Fingerprints.writes (Tree.trace r)) = Some ("biometricsEnabled", stored) /\
        existsb Fingerprints.checksStatus (Tree.trace r) = true /\
        Hook.loading (Fingerprints.hookCells (Tree.state r)) = false) /\
     (forall e,
        (forall n, env _ (Fingerprints.axios_put (API_URL pf ++ "/api/biometrics/toggle") value
                            ("Bearer " ++ token)) n = Fingerprints.Failed e) ->
        Fingerprints.biometricsEnabled (Tree.state r) = Fingerprints.biometricsEnabled st /\
        Fingerprints.hookCells (Tree.state r) = Fingerprints.hookCells st /\
        Fingerprints.alerts (Tree.trace r)
        = [("Error",
            match Fingerprints.response e with
            | Some serverError =>
                ("Failed to update biometrics settings: "
                 ++ Js.orElse serverError "Unknown error")%string
            | None =>
                match Fingerprints.message e with
                | Some text => text
                | None => "Failed to update biometrics settings"
                end
            end)])).
Proof.
  intros r. subst r. unfold_screen. cbn.
  split; [|split].
  - repeat screen_branch; reflexivity.
  - repeat screen_branch; reflexivity.
  - intros token Htoken Hguard. rewrite Htoken. cbn. rewrite Hguard. cbn.
    split.
    + intros data Hput. cbn in Hput. rewrite Hput. cbn.
      destruct (Fingerprints.Data.biometricsEnabled data) as [[|]|]; cbn.
      all: destruct value; cbn.
      all: repeat screen_branch; repeat split; reflexivity.
    + intros e Hput. cbn in Hput. rewrite Hput. cbn.
      repeat split; reflexivity.
Qed.

(** *** The status screen *)

(** The cells after a status check: [loading] is off; the status is left
    or set from what the device reported; a storage that cannot be read
    leaves it. *)
Lemma checkBiometricStatus_reads (env : Hook.Env) (st : Hook.State) :
  let r := Hook.exec env (Hook.checkBiometricStatus pf) st in
  Hook.loading (Tree.state r) = false /\
  (Hook.biometricStatus (Tree.state r) = Hook.biometricStatus st \/
   exists hardware enrolment,
     In (Tree.Ev Hook.hasHardwareAsync (Resolved hardware)) (Tree.trace r) /\
     (hardware = true ->
      In (Tree.Ev Hook.isEnrolledAsync (Resolved enrolment)) (Tree.trace r)) /\
     available (Hook.biometricStatus (Tree.state r)) = hardware /\
     enrolled (Hook.biometricStatus (Tree.state r)) = hardware && enrolment) /\
  ((forall key n, exists e, env _ (Hook.getItem key) n = Rejected e) ->
   Hook.biometricStatus (Tree.state r) = Hook.biometricStatus st).
Proof.
  intros r. subst r.
  unfold Hook.exec, Hook.checkBiometricStatus, Hook.backendPreference, Hook.localPreference.
  cbn. split; [|split].
  - repeat hook_branch; reflexivity.
  - repeat hook_branch; auto; right.
    all: match goal with
         | |- context [Tree.Ev Hook.isEnrolledAsync (Resolved ?b)] =>
             exists true, b
         | _ => exists false, false
         end.
    all: split; [simpl; auto 20|]; split; [|split; reflexivity].
    all: try discriminate.
    all: intros _; simpl; auto 20.
  - intros Hfail.
    repeat match goal with
           | |- context [?e _ (Hook.getItem ?k) ?n] =>
               let err := fresh "err" in
               let Herr := fresh "Herr" in
               destruct (Hfail k n) as [err Herr]; rewrite Herr; cbn; clear Herr
           | _ => hook_branch
           end; reflexivity.
Qed.

(** X28.  The message of the status screen after the check of a freshly
    mounted hook is never the waiting one.  It says that the device is
    ready only when the device reported hardware and an enrolled
    fingerprint; when storage cannot be read it says that biometrics are
    not available, whatever the device reported. *)
Theorem status_message_after_check (env : Hook.Env) (storage : list (string * string)) :
  let r := Hook.exec env (Hook.checkBiometricStatus pf) (Hook.initial storage) in
  let shown := StatusScreen.shown (Tree.state r) in
  shown <> "Checking biometric status..." /\
  (shown = "Your device is ready for fingerprint authentication." ->
     In (Tree.Ev Hook.hasHardwareAsync (Resolved true)) (Tree.trace r) /\
     In (Tree.Ev Hook.isEnrolledAsync (Resolved true)) (Tree.trace r)) /\
  ((forall key n, exists e, env _ (Hook.getItem key) n = Rejected e) ->
   shown = "Biometric authentication is not available on this device.").
Proof.
  intros r shown.
  destruct (checkBiometricStatus_reads env (Hook.initial storage)) as (Hl & Hshape & Hfail).
  fold r in Hl, Hshape, Hfail.
  subst shown. unfold StatusScreen.shown, StatusScreen.message. rewrite Hl.
  split; [|split].
  - destruct (available _), (enrolled _); discriminate.
  - destruct Hshape as [->|(hardware & enrolment & Hhw & Hen & -> & ->)].
    + simpl. discriminate.
    + destruct hardware; simpl; [|discriminate].
      destruct enrolment; simpl; [|discriminate].
      intros _. split; [exact Hhw | exact (Hen eq_refl)].
  - intros H. rewrite (Hfail H). reflexivity.
Qed.
End Properties.

(** ** Runs on explicit inputs *)

(** C1, as the specification states it, fails on the state the screen
    starts in: nothing is within range yet, and the one message shown does
    not mention a distance. *)
Lemma handleTimeIn_initial_state_no_distance :
  isWithinRange initialState = false /\
  ~ timeInDeniedWithDistance Fixture.utc (Fixture.envOf Fixture.sunny) initialState initialState.
Proof.
  split; [reflexivity|].
  intros [[msg [kind [Ht Hi]]] _].
  vm_compute in Ht. injection Ht as <- <-. vm_compute in Hi. discriminate.
Qed.

(** C1 at 150 m from an office of radius 100 m. *)
Lemma handleTimeIn_outside_range_witness :
  let scope := applyUpdate (SetDistance (Some 150)) (applyUpdate (SetIsWithinRange false) Fixture.ready) in
  toasts (traceOf (exec (Fixture.envOf Fixture.sunny) (handleTimeIn Fixture.utc scope) scope)) =
    [("You must be within office range to time in. You are currently 150 meters away from the office.", warning)]
  /\ quiet isNetwork (traceOf (exec (Fixture.envOf Fixture.sunny) (handleTimeIn Fixture.utc scope) scope)) = true.
Proof.
  intros scope.
  pose proof (handleTimeIn_outside_range Fixture.utc (Fixture.envOf Fixture.sunny) scope scope eq_refl) as H.
  destruct H as (_ & Hn & _ & Ht & _).
  split; [exact Ht | exact Hn].
Defined.

(** C6 on the prompt of [handleTimeIn]: with the preference off and the
    platform reporting a failed match, the answer is [false]; with the
    preference on it is the same answer. *)
Lemma authenticate_time_tracking_witness :
  isTimeTracking "Authenticate to time in" true = true /\
  let status := {| available := true; enrolled := true; enabled := false |} in
  let env := Fixture.envOf Fixture.mismatch in
  exec env (authenticate (withEnabled true status) "Authenticate to time in" true) Fixture.ready
  = exec env (authenticate status "Authenticate to time in" true) Fixture.ready /\
  resultOf (exec env (authenticate status "Authenticate to time in" true) Fixture.ready) = false.
Proof.
  split; [reflexivity|]. intros status env.
  pose proof (authenticate_time_tracking Fixture.utc env status "Authenticate to time in" true
                Fixture.ready eq_refl) as H.
  destruct H as (_ & _ & Hsame & _).
  split; [exact (Hsame true) | reflexivity].
Defined.

(** C4, as the specification states it, fails when the user token is gone
    from storage: every precondition holds and the prompt succeeds, yet
    the handler leaves for the sign-in route without a request. *)
Lemma handleTimeOut_without_token_no_request :
  timeOutAdmissible Fixture.ready = true /\
  promptSucceeds (Fixture.envOf Fixture.loggedOut) /\
  ~ timeOutRequestWhenAdmitted Fixture.utc (Fixture.envOf Fixture.loggedOut) Fixture.ready Fixture.ready.
Proof.
  split; [reflexivity|]. split; [intros opts n; reflexivity|].
  intros H.
  destruct (H Fixture.morningOpen eq_refl eq_refl (fun _ _ => eq_refl)) as [body [auth Hp]].
  vm_compute in Hp. discriminate.
Qed.

(** C4 with everything in place: one request, to the record [r1]. *)
Lemma handleTimeOut_gate_witness :
  posts (traceOf (exec (Fixture.envOf Fixture.sunny) (handleTimeOut Fixture.utc Fixture.ready) Fixture.ready))
  = [("https://api.example/api/time-records/r1/time-out",
      TimeBody (120.5910%Q, 18.2067%Q) AM true, "token-1")].
Proof.
  pose proof (handleTimeOut_gate Fixture.utc (Fixture.envOf Fixture.sunny) Fixture.ready Fixture.ready) as H.
  destruct H as (_ & _ & _ & H).
  exact (H Fixture.morningOpen Fixture.nearby "token-1" eq_refl eq_refl eq_refl
           (fun _ _ => eq_refl) (fun _ => eq_refl) eq_refl).
Defined.




(** C7 at the radius and one metre beyond it. *)
Lemma isWithin_monotone_witness :
  isWithin 100 100%Q = true /\ isWithin 99 100%Q = true /\ isWithin 101 100%Q = false.
Proof.
  split; [reflexivity|].
  destruct (isWithin_monotone Fixture.utc 100 100%Q) as (_ & Hdown & _).
  split; [apply (Hdown 99); [lia | reflexivity]|].
  destruct (isWithin_monotone Fixture.utc 101 100%Q) as (_ & _ & Hup & _).
  apply Hup. reflexivity.
Defined.

(** C8, as the specification states it, fails on a sample whose accuracy
    is reported as zero: zero is below 30, yet the sample is ignored and
    the current location stays what it was. *)
Lemma watchPositionCallback_zero_accuracy_ignored :
  accuracy Fixture.zeroAccuracy = Some 0%Q /\ (0 < 30)%Q /\
  ~ acceptsAccurateSample Fixture.utc (Fixture.envOf Fixture.sunny) Fixture.ready
      Fixture.zeroAccuracy Fixture.ready.
Proof.
  split; [reflexivity|]. split; [reflexivity|].
  intros H. specialize (H 0%Q eq_refl eq_refl).
  vm_compute in H. discriminate.
Qed.

(** C8 on a sample of accuracy 5 m taken 0.0009 degrees north of the
    office: it becomes the current location, at 100 m, within range. *)
Lemma watchPositionCallback_filter_witness :
  let r := exec (Fixture.envOf Fixture.sunny)
             (watchPositionCallback Fixture.utc Fixture.ready Fixture.nearby) initialState in
  currentLocation (stateOf r) = Some Fixture.nearby /\
  distance (stateOf r) = Some 100 /\
  isWithinRange (stateOf r) = true.
Proof.
  intros r.
  pose proof (watchPositionCallback_filter Fixture.utc (Fixture.envOf Fixture.sunny)
                Fixture.ready Fixture.nearby initialState) as H.
  destruct H as (_ & H).
  assert (Hnz : ~ (5 == 0)%Q) by (intros E; discriminate E).
  destruct (H 5%Q eq_refl eq_refl Hnz) as (Hloc & Hoffice & _).
  destruct (Hoffice Fixture.office eq_refl) as (Hd & Hw).
  split; [exact Hloc|]. split; [exact Hd | exact Hw].
Defined.

(** C3, as the specification states it, fails twice.  With a malformed
    makeup date and an undertime date that no record has, the specified
    sequence stops at the undertime date; the handler reports the makeup
    date's format.  With nine hours of undertime on an otherwise valid
    form, the specified sequence stops at the hours; the handler submits. *)
Lemma handleOffsetSubmit_not_in_specified_sequence :
  ~ validatesInSpecifiedSequence Fixture.utc (Fixture.envOf Fixture.sunny) Fixture.at9
      (Fixture.offsetForm "2099-01-01" "tomorrow" 2%Q 1%Q) Fixture.ready /\
  ~ validatesInSpecifiedSequence Fixture.utc (Fixture.envOf Fixture.sunny) Fixture.at9
      (Fixture.offsetForm "2024-05-10" "" 9%Q 0%Q) Fixture.ready.
Proof.
  split; intros H.
  - destruct (H UndertimeDateListed eq_refl) as (_ & msg & kind & Ht & Hm).
    specialize (Hm _ eq_refl). vm_compute in Ht. injection Ht as <- _. discriminate Hm.
  - destruct (H HoursInRange eq_refl) as (Hq & _).
    vm_compute in Hq. discriminate.
Qed.

(** C3 on the three submissions of the specification's examples: an
    undertime date without record, a makeup date in the past, and no
    makeup date. *)
Lemma handleOffsetSubmit_validation_witness :
  let run form := traceOf (exec (Fixture.envOf Fixture.sunny)
                             (handleOffsetSubmit Fixture.utc form) Fixture.ready) in
  toasts (run (Fixture.offsetForm "2099-01-01" "" 2%Q 0%Q))
    = [("Undertime date must exist in daily records", error)] /\
  toasts (run (Fixture.offsetForm "2024-05-10" "2000-01-01" 2%Q 1%Q))
    = [("Makeup date must be today or a future date", error)] /\
  posts (run (Fixture.offsetForm "2024-05-10" "" 2%Q 1%Q))
    = [("https://api.example/api/time-records/r1/offset",
        OffsetBody "2024-05-10" 2%Q 1%Q None, "token-1")].
Proof.
  intros run.
  pose proof (fun form =>
    handleOffsetSubmit_validation Fixture.utc (Fixture.envOf Fixture.sunny) form Fixture.ready
      Fixture.at9 (fun _ => eq_refl)) as H.
  split; [|split].
  - destruct (H (Fixture.offsetForm "2099-01-01" "" 2%Q 0%Q)) as (H1 & _).
    vm_compute in H1. destruct H1 as (msg & Hmsg & Ht & _). injection Hmsg as <-. exact Ht.
  - destruct (H (Fixture.offsetForm "2024-05-10" "2000-01-01" 2%Q 1%Q)) as (H1 & _).
    vm_compute in H1. destruct H1 as (msg & Hmsg & Ht & _). injection Hmsg as <-. exact Ht.
  - destruct (H (Fixture.offsetForm "2024-05-10" "" 2%Q 1%Q)) as (H1 & _).
    vm_compute in H1. destruct H1 as (record & Hrec & Hp). injection Hrec as <-.
    exact (Hp "token-1" (fun _ => eq_refl) eq_refl).
Defined.


(** ** More runs on explicit inputs *)

(** X1 with everything in place: one request, to the time-in address. *)
Lemma handleTimeIn_gate_witness :
  posts (traceOf (exec (Fixture.envOf Fixture.sunny) (handleTimeIn Fixture.utc Fixture.ready) Fixture.ready))
  = [("https://api.example/api/time-records/time-in",
      TimeBody (120.5910%Q, 18.2067%Q) AM true, "token-1")].
Proof.
  pose proof (handleTimeIn_gate Fixture.utc (Fixture.envOf Fixture.sunny) Fixture.ready Fixture.ready) as H.
  destruct H as (_ & _ & H & _).
  exact (H Fixture.nearby "token-1" eq_refl eq_refl (fun _ _ => eq_refl) (fun _ => eq_refl) eq_refl).
Defined.

(** X2 indoors: the second attempt gives the location. *)
Lemma getCurrentLocation_retry_witness :
  let r := exec (Fixture.envOf Scenes.indoors) (getCurrentLocation Fixture.utc Fixture.ready)
             initialState in
  resultOf r = Some Fixture.nearby /\
  positionRequests (traceOf r) = [(High, Some 10000); (Balanced, None)] /\
  currentLocation (stateOf r) = Some Fixture.nearby /\
  distance (stateOf r) = Some 100.
Proof.
  intros r.
  pose proof (getCurrentLocation_retry Fixture.utc (Fixture.envOf Scenes.indoors)
                Fixture.ready initialState) as H.
  destruct H as (_ & H2 & _ & H4 & _).
  destruct (H2 {| responseError := None |} Fixture.nearby (fun _ => eq_refl) (fun _ => eq_refl))
    as (Hres & Hreq).
  destruct (H4 Fixture.nearby Hres) as (Hloc & _ & Hd & _).
  split; [exact Hres|]. split; [exact Hreq|]. split; [exact Hloc | exact Hd].
Defined.

(** X3 when the office has moved a degree east: the annex is stored, but
    the distance is still the 100 m to the office of the render, within
    its range. *)
Lemma fetchOfficeLocation_closure_witness :
  let r := exec (Fixture.envOf Scenes.moved) (fetchOfficeLocation Fixture.utc Fixture.ready)
             Fixture.ready in
  officeLocation (stateOf r) = Some Scenes.annex /\
  distance (stateOf r) = Some 100 /\
  isWithinRange (stateOf r) = true.
Proof.
  intros r.
  pose proof (fetchOfficeLocation_closure Fixture.utc (Fixture.envOf Scenes.moved)
                Fixture.ready Fixture.ready) as H.
  destruct H as (_ & H & _).
  destruct (H "token-1" Scenes.annex Fixture.nearby (fun _ => eq_refl) eq_refl
              (fun _ => eq_refl) eq_refl) as (_ & Ho & Hd & Hw).
  split; [exact Ho|]. split; [exact Hd | exact Hw].
Defined.

(** X4 after the token is gone: a refresh goes to the sign-in route. *)
Lemma missing_token_redirects_witness :
  let r := exec (Fixture.envOf Fixture.loggedOut) (fetchTimeRecords Fixture.utc Fixture.ready)
             Fixture.ready in
  redirects (traceOf r) = ["/"] /\ quiet isNetwork (traceOf r) = true.
Proof.
  intros r.
  assert (Hno : noToken (Fixture.envOf Fixture.loggedOut)) by (left; intros n; reflexivity).
  pose proof (missing_token_redirects Fixture.utc (Fixture.envOf Fixture.loggedOut)
                Fixture.ready Fixture.ready Hno) as H.
  destruct H as (Hall & (Hr & _) & _).
  split; [exact Hr|].
  apply (Hall (fetchTimeRecords Fixture.utc Fixture.ready)). simpl. auto.
Defined.

(** X5 offline: the list is emptied, the active record stays. *)
Lemma fetchTimeRecords_failure_witness :
  let r := exec (Fixture.envOf Scenes.offline) (fetchTimeRecords Fixture.utc Fixture.ready)
             Fixture.ready in
  timeRecords (stateOf r) = [] /\
  activeTimeRecord (stateOf r) = Some Fixture.morningOpen /\
  loading (stateOf r) = false.
Proof.
  intros r.
  pose proof (fetchTimeRecords_failure Fixture.utc (Fixture.envOf Scenes.offline)
                Fixture.ready Fixture.ready) as H.
  destruct H as ((Hl & _) & H & _).
  destruct (H {| responseError := None |}) as (_ & Ht & _ & Ha & _).
  - right. exists "token-1". repeat split; intros n; reflexivity.
  - split; [exact Ht|]. split; [exact Ha | exact Hl].
Defined.

(** X6 in the afternoon session: the refresh finds the open morning
    record, makes it the active one and leaves the session PM. *)
Lemma onRefresh_settles_witness :
  let st := applyUpdate (SetActiveTimeRecord None) (applyUpdate (SetActiveSession PM) Fixture.ready) in
  let r := exec (Fixture.envOf Fixture.afternoon) (onRefresh Fixture.utc initialState) st in
  activeTimeRecord (stateOf r) = Some Fixture.morningOpen /\
  activeSession (stateOf r) = PM /\
  refreshing (stateOf r) = false.
Proof.
  intros st r.
  pose proof (onRefresh_settles Fixture.utc (Fixture.envOf Fixture.afternoon) initialState st) as H.
  destruct H as ((Hr & _) & _ & _ & _ & H).
  destruct (H "token-1" [Fixture.morningOpen] Fixture.at13 Fixture.morningOpen
              (fun _ => eq_refl) eq_refl (fun _ => eq_refl) (fun _ => eq_refl) eq_refl eq_refl)
    as (Ha & Hs).
  split; [exact Ha|]. split; [exact Hs | exact Hr].
Defined.

(** X7 on a list of three records, the oldest first and two of one day. *)
Lemma sortNewestFirst_stable_witness :
  sortNewestFirst Fixture.utc Scenes.listed
  = [Fixture.morningOpen; Scenes.closedRecord "r2" "2024-05-10";
     Scenes.closedRecord "r0" "2024-05-09"] /\
  newestFirst Fixture.utc (sortNewestFirst Fixture.utc Scenes.listed).
Proof.
  split; [reflexivity|].
  destruct (sortNewestFirst_stable Fixture.utc Scenes.listed) as (_ & H).
  apply H. repeat constructor; discriminate.
Defined.

(** X8 for the record of 2024-05-10 of the ready state. *)
Lemma handleOffsetModalOpen_form_witness :
  let st' := stateOf (exec (Fixture.envOf Fixture.sunny)
                        (handleOffsetModalOpen Fixture.utc Fixture.ready Fixture.morningOpen)
                        Fixture.ready) in
  undertimeDate st' = "2024-05-10" /\
  Js.includesStr (undertimeDate st') (availableDates st') = true.
Proof.
  intros st'.
  pose proof (handleOffsetModalOpen_form Fixture.utc (Fixture.envOf Fixture.sunny)
                Fixture.ready Fixture.morningOpen Fixture.ready) as H.
  destruct H as (_ & _ & Hd & _ & _ & Hin & _).
  split; [exact Hd|]. apply Hin. left. reflexivity.
Defined.

(** X9: the form is opened, a day without record is pressed (and
    ignored), the undertime is set to an hour and a half, and the form is
    saved. *)
Lemma offset_form_passes_record_rules_witness :
  let env := Fixture.envOf Fixture.sunny in
  let opened := stateOf (exec env (handleOffsetModalOpen Fixture.utc Fixture.ready
                                     Fixture.morningOpen) Fixture.ready) in
  let form := editForm env [PickUndertimeDate "2024-01-01"; SlideUndertime 1.5%Q] opened in
  posts (traceOf (exec env (handleOffsetSubmit Fixture.utc form) form))
  = [("https://api.example/api/time-records/r1/offset",
      OffsetBody "2024-05-10" 1.5%Q 0%Q None, "token-1")].
Proof.
  intros env opened form.
  pose proof (offset_form_passes_record_rules Fixture.utc env Fixture.ready Fixture.ready
                Fixture.morningOpen [PickUndertimeDate "2024-01-01"; SlideUndertime 1.5%Q]
                Fixture.at9 (or_introl eq_refl) eq_refl) as H.
  destruct H as (_ & _ & _ & _ & H).
  destruct (H eq_refl "token-1" form (fun _ => eq_refl) eq_refl) as (first & Hfirst & Hp).
  vm_compute in Hfirst. injection Hfirst as <-. exact Hp.
Defined.

(** X10 on the tenth of May 2024. *)
Lemma formatRecordDate_isYMD_witness :
  formatRecordDate Fixture.utc "2024-05-10" = "2024-05-10" /\
  Js.isYMD (formatRecordDate Fixture.utc "2024-05-10") = true.
Proof.
  split; [reflexivity|].
  destruct (formatRecordDate_isYMD Fixture.utc "2024-05-10") as (H & _).
  apply (H Fixture.may10 2024 4 10); [reflexivity | reflexivity | lia | lia | lia].
Defined.

(** X11 on the tenth of May 2024: the form opens for the record of that
    day. *)
Lemma offsetButtonPress_today_witness :
  let r := exec (Fixture.envOf Fixture.sunny) (offsetButtonPress Fixture.utc Fixture.ready)
             Fixture.ready in
  selectedRecord (stateOf r) = Some Fixture.morningOpen /\
  showOffsetModal (stateOf r) = true /\
  toasts (traceOf r) = [].
Proof.
  intros r.
  pose proof (offsetButtonPress_today Fixture.utc (Fixture.envOf Fixture.sunny) Fixture.ready
                Fixture.ready Fixture.at9 (fun _ => eq_refl)) as H.
  destruct H as (_ & H & _). vm_compute find in H.
  destruct H as (_ & Ht & _ & Hs & Hm & _).
  split; [exact Hs|]. split; [exact Hm | exact Ht].
Defined.

(** X12 with the preference off and the default prompt: allowed without
    a prompt. *)
Lemma authenticate_shortcuts_witness :
  let r := exec (Fixture.envOf Fixture.mismatch)
             (authenticate {| available := true; enrolled := true; enabled := false |}
                "Authenticate to continue" false) Fixture.ready in
  resultOf r = true /\ traceOf r = [].
Proof.
  intros r.
  pose proof (authenticate_shortcuts (Fixture.envOf Fixture.mismatch)
                {| available := true; enrolled := true; enabled := false |}
                "Authenticate to continue" false Fixture.ready) as H.
  destruct H as (_ & _ & H & _).
  exact (H eq_refl eq_refl eq_refl eq_refl).
Defined.

(** X13 along a history in which the office is fetched, a position 100 m
    from it is obtained, the (empty) records are loaded and the hook
    reports biometrics as set up: the Time In item is enabled, and
    pressing it sends the request. *)
Lemma enabled_items_reach_the_prompt_witness :
  let env := Fixture.envOf (Fixture.emptyDay Fixture.at9) in
  let s0 := initialState in
  let s1 := stateOf (exec env (fetchOfficeLocation Fixture.utc s0) s0) in
  let s2 := stateOf (exec env (getCurrentLocation Fixture.utc s1) s1) in
  let s3 := stateOf (exec env (fetchTimeRecords Fixture.utc s2) s2) in
  let s4 := withBiometricStatus {| available := true; enrolled := true; enabled := false |} s3 in
  Reachable Fixture.utc [s4; s3; s2; s1; s0] /\
  timeInDisabled s4 = false /\
  posts (traceOf (exec env (handleTimeIn Fixture.utc s4) s4))
  = [("https://api.example/api/time-records/time-in",
      TimeBody (120.5910%Q, 18.2067%Q) AM true, "token-1")].
Proof.
  intros env s0 s1 s2 s3 s4.
  assert (Hreach : Reachable Fixture.utc [s4; s3; s2; s1; s0]).
  { apply reach_step; [apply reach_step; [apply reach_step; [apply reach_step|]|]|].
    - apply reach_init.
    - apply step_office, Snapshot_In. left. reflexivity.
    - apply step_position, Snapshot_In. left. reflexivity.
    - apply step_refresh.
    - apply step_other. reflexivity. }
  split; [exact Hreach|]. split; [reflexivity|].
  destruct (enabled_items_reach_the_prompt Fixture.utc s4 [s3; s2; s1; s0] Hreach)
    as (_ & _ & _ & H).
  destruct (H env s4 "token-1" eq_refl eq_refl eq_refl (fun _ _ => eq_refl)
              (fun _ => eq_refl) eq_refl) as (location & Hl & Hp).
  vm_compute in Hl. injection Hl as <-. exact Hp.
Defined.

(** X14 at nine in the morning of a day without records: the AM button
    is enabled, the PM button is not. *)
Lemma session_buttons_witness :
  resultOf (exec (Fixture.envOf (Fixture.emptyDay Fixture.at9))
              (sessionButtonsDisabled Fixture.utc initialState Fixture.at9) initialState)
  = (false, true).
Proof.
  destruct (session_buttons Fixture.utc (Fixture.envOf (Fixture.emptyDay Fixture.at9))
              initialState initialState Fixture.at9) as (_ & _ & _ & _ & H).
  exact (H Fixture.at9 (fun _ => eq_refl)).
Defined.

(** X15 on the ready state: the AM button picks the open morning record
    and opens its menu; the PM button finds no record. *)
Lemma session_press_witness :
  let env := Scenes.shellEnv Fixture.sunny Shell.granted Shell.granted in
  let am := Tree.state (Shell.exec env (Shell.pressAM Fixture.utc Fixture.ready Scenes.closedMenus)
                          Fixture.ready Scenes.closedMenus) in
  let pm := Tree.state (Shell.exec env (Shell.pressPM Fixture.utc Fixture.ready Scenes.closedMenus)
                          Fixture.ready Scenes.closedMenus) in
  activeTimeRecord (fst am) = Some Fixture.morningOpen /\
  Shell.showAMDropdown (snd am) = true /\
  activeSession (fst pm) = PM /\ activeTimeRecord (fst pm) = None.
Proof.
  intros env am pm.
  destruct (session_press Fixture.utc env Fixture.ready Fixture.ready Scenes.closedMenus
              Scenes.closedMenus Fixture.at9 (fun _ => eq_refl))
    as ((_ & Ha & Hm & _) & (Hs & Hp & _) & _).
  split; [exact Ha|]. split; [exact Hm|]. split; [exact Hs | exact Hp].
Defined.

(** X16 when the permission is granted in the dialog. *)
Lemma requestLocationPermission_outcome_witness :
  let r := Shell.exec (Scenes.shellEnv Fixture.sunny Shell.undetermined Shell.granted)
             Shell.requestLocationPermission initialState Scenes.closedMenus in
  Tree.result r = true /\ locationPermission (fst (Tree.state r)) = true.
Proof.
  intros r.
  pose proof (requestLocationPermission_outcome
                (Scenes.shellEnv Fixture.sunny Shell.undetermined Shell.granted)
                initialState Scenes.closedMenus) as H.
  destruct H as (H1 & _ & _ & H4 & _).
  assert (Hr : Tree.result r = true).
  { apply (H4 Shell.undetermined Shell.granted); [reflexivity | discriminate | reflexivity]. }
  split; [exact Hr|]. apply H1. exact Hr.
Defined.

(** X17 when everything succeeds: the initial load obtains the location
    and the office, and the fence is still down. *)
Lemma loadData_leaves_fence_down_witness :
  let r := Shell.exec (Scenes.shellEnv Fixture.sunny Shell.granted Shell.granted)
             (Shell.loadData Fixture.utc initialState) initialState Scenes.closedMenus in
  currentLocation (fst (Tree.state r)) = Some Fixture.nearby /\
  officeLocation (fst (Tree.state r)) = Some Fixture.office /\
  isWithinRange (fst (Tree.state r)) = false /\
  distance (fst (Tree.state r)) = None /\
  loading (fst (Tree.state r)) = false.
Proof.
  intros r.
  pose proof (loadData_leaves_fence_down Fixture.utc
                (Scenes.shellEnv Fixture.sunny Shell.granted Shell.granted)
                initialState initialState Scenes.closedMenus eq_refl eq_refl) as H.
  destruct H as (Hl & Hw & Hd & _).
  split; [reflexivity|]. split; [reflexivity|].
  split; [exact (Hw eq_refl)|]. split; [exact (Hd eq_refl) | exact Hl].
Defined.

(** X18 on a device without biometric hardware. *)
Lemma checkBiometricStatus_settles_witness :
  let env := Scenes.hookEnv false true (Rejected {| responseError := None |}) in
  let r := Hook.exec env (Hook.checkBiometricStatus Fixture.utc) (Hook.initial []) in
  Hook.loading (Tree.state r) = false /\
  forallb (fun e => negb (Hook.asksEnrollment e)) (Tree.trace r) = true.
Proof.
  intros env r.
  pose proof (checkBiometricStatus_settles Fixture.utc env (Hook.initial [])) as H.
  destruct H as (Hl & _ & _ & H).
  split; [exact Hl | exact (H (fun _ => eq_refl))].
Defined.

(** X19 when the backend has the preference on: the status has it on
    and storage is made to say so. *)
Lemma checkBiometricStatus_preference_witness :
  let backend := Resolved {| Hook.ok := true; Hook.json := Resolved (Some true) |} in
  let r := Hook.exec (Scenes.hookEnv true true backend) (Hook.checkBiometricStatus Fixture.utc)
             (Hook.initial [("userToken", "token-1")]) in
  Hook.biometricStatus (Tree.state r)
  = {| available := true; enrolled := true; enabled := true |} /\
  Hook.stored "biometricsEnabled" (Hook.storage (Tree.state r)) = Some "true".
Proof.
  intros backend r.
  assert (Hdev : Hook.deviceAnswers (Scenes.hookEnv true true backend) true true).
  { repeat split; try reflexivity. intros key n. exists None. reflexivity. }
  pose proof (checkBiometricStatus_preference Fixture.utc (Scenes.hookEnv true true backend)
                (Hook.initial [("userToken", "token-1")]) true true Hdev) as H.
  destruct H as (_ & _ & _ & H).
  destruct (H "token-1" eq_refl eq_refl) as (Hok & _).
  specialize (Hok _ (fun _ => eq_refl)). simpl in Hok. destruct Hok as (_ & Hstored).
  split; [reflexivity | exact Hstored].
Defined.

(** X20: the preference is switched on, then checked without a token. *)
Lemma enableBiometrics_round_trip_witness :
  let env := Scenes.hookEnv true true (Rejected {| responseError := None |}) in
  let switched := Hook.exec env (Hook.enableBiometrics true) (Hook.initial []) in
  let checked := Hook.exec env (Hook.checkBiometricStatus Fixture.utc) (Tree.state switched) in
  Tree.result switched = true /\
  enabled (Hook.biometricStatus (Tree.state checked)) = true.
Proof.
  intros env switched checked.
  assert (Hdev : Hook.deviceAnswers env true true).
  { repeat split; try reflexivity. intros key n. exists None. reflexivity. }
  pose proof (enableBiometrics_round_trip Fixture.utc env (Hook.initial []) true) as H.
  destruct H as (_ & H).
  destruct (H true true Hdev) as (Hr & _ & _ & Hback).
  split; [exact Hr|].
  destruct (Hback (or_introl eq_refl)) as (He & _). exact He.
Defined.

(** X21 on a device without biometric hardware: a time-in within range
    is answered by the set-up message. *)
Lemma no_hardware_denies_time_tracking_witness :
  let henv := Scenes.hookEnv false false (Rejected {| responseError := None |}) in
  let status := Hook.biometricStatus
                  (Tree.state (Hook.exec henv (Hook.checkBiometricStatus Fixture.utc)
                                 (Hook.initial []))) in
  let r := exec (Fixture.envOf Fixture.sunny)
             (handleTimeIn Fixture.utc (withBiometricStatus status Fixture.ready)) Fixture.ready in
  toasts (traceOf r) =
    [("Biometric authentication is not set up on this device. Please enroll your fingerprint in device settings.",
      error)] /\
  quiet isNetwork (traceOf r) = true.
Proof.
  intros henv status r.
  pose proof (no_hardware_denies_time_tracking Fixture.utc henv [] (Fixture.envOf Fixture.sunny)
                Fixture.ready Fixture.ready (or_introl (fun _ => eq_refl))) as H.
  destruct H as (_ & _ & _ & Hn & _ & _ & Ht).
  split; [apply Ht; [discriminate | reflexivity] | exact Hn].
Defined.

(** X22 from one hour: "increment" hands over an hour and a quarter,
    "decrement" three quarters, and "activate" nothing. *)
Lemma slider_actions_keep_quarter_hours_witness :
  (exists up,
     Slider.onAccessibilityAction (Slider.formSlider 1%Q) "increment" = Some up /\
     (up == 1.25)%Q) /\
  (exists down,
     Slider.onAccessibilityAction (Slider.formSlider 1%Q) "decrement" = Some down /\
     (down == 0.75)%Q) /\
  Slider.onAccessibilityAction (Slider.formSlider 1%Q) "activate" = None.
Proof.
  destruct (slider_actions_keep_quarter_hours 1%Q "activate" eq_refl)
    as ((up & Hup & _ & Hnext & _) & (down & Hdown & _ & Hprev & _) & Hnone & _).
  split; [|split].
  - exists up. split; [exact Hup|]. rewrite Hnext; [reflexivity | discriminate].
  - exists down. split; [exact Hdown|]. rewrite Hprev; [reflexivity | discriminate].
  - apply Hnone; discriminate.
Defined.

(** X23 on a capable handset with the preference off: the fingerprint is
    posted after the prompt succeeded. *)
Lemma addBiometric_gate_witness :
  let env := Handset.env (Scenes.hookEnv true true (Rejected {| responseError := None |}))
               (Resolved true) (Fingerprints.Fulfilled "token-1")
               (Fingerprints.Failed Handset.unreachable)
               (Fingerprints.Fulfilled (Some Handset.added)) in
  let r := Fingerprints.exec env (Fingerprints.addBiometric Fixture.utc Handset.capable [])
             (Fingerprints.initial (Hook.initial [])) in
  Fingerprints.posts (Tree.trace r)
  = [("https://api.example/api/biometrics", "bio_1715331600000_k3x9qk3x9q", "Fingerprint 1",
      "Bearer token-1")] /\
  Fingerprints.prompts (Tree.trace r)
  = [(biometricOnly "Scan your fingerprint to add it to your account", Resolved true)].
Proof.
  intros env r.
  pose proof (addBiometric_gate Fixture.utc env Handset.capable []
                (Fingerprints.initial (Hook.initial []))) as H.
  destruct H as (_ & _ & H).
  assert (Hin : In ("https://api.example/api/biometrics", "bio_1715331600000_k3x9qk3x9q",
                    "Fingerprint 1", "Bearer token-1") (Fingerprints.posts (Tree.trace r)))
    by (vm_compute; left; reflexivity).
  destruct (H _ Hin) as (_ & Hprompt & Hposts & _).
  split; [exact Hposts | exact Hprompt].
Defined.

(** X24 when the token cannot be read: the prompt succeeded, nothing is
    posted and [loading] stays on. *)
Lemma addBiometric_loading_witness :
  let env := Handset.env (Scenes.hookEnv true true (Rejected {| responseError := None |}))
               (Resolved true) (Fingerprints.Failed Handset.unreachable)
               (Fingerprints.Failed Handset.unreachable)
               (Fingerprints.Fulfilled (Some Handset.added)) in
  let r := Fingerprints.exec env (Fingerprints.addBiometric Fixture.utc Handset.capable [])
             (Fingerprints.initial (Hook.initial [])) in
  Fingerprints.loading (Tree.state r) = true /\
  Fingerprints.posts (Tree.trace r) = [].
Proof.
  intros env r.
  pose proof (addBiometric_loading Fixture.utc env Handset.capable []
                (Fingerprints.initial (Hook.initial []))) as H.
  destruct H as (_ & _ & H).
  destruct (H eq_refl eq_refl (fun _ => eq_refl)
              (fun _ => ex_intro _ Handset.unreachable eq_refl)) as (Hl & Hp & _).
  split; [exact Hl | exact Hp].
Defined.

(** X25 when the backend lists the new fingerprint: the screen shows the
    list and reports success. *)
Lemma addBiometric_outcome_witness :
  let env := Handset.env (Scenes.hookEnv true true (Rejected {| responseError := None |}))
               (Resolved true) (Fingerprints.Fulfilled "token-1")
               (Fingerprints.Failed Handset.unreachable)
               (Fingerprints.Fulfilled (Some Handset.added)) in
  let r := Fingerprints.exec env (Fingerprints.addBiometric Fixture.utc Handset.capable [])
             (Fingerprints.initial (Hook.initial [])) in
  map Fingerprints.name (Fingerprints.biometrics (Tree.state r)) = ["Fingerprint 1"] /\
  Fingerprints.alerts (Tree.trace r) = [("Success", "Fingerprint added successfully")].
Proof.
  intros env r.
  assert (Hin : In ("https://api.example/api/biometrics", "bio_1715331600000_k3x9qk3x9q",
                    "Fingerprint 1", "Bearer token-1") (Fingerprints.posts (Tree.trace r)))
    by (vm_compute; left; reflexivity).
  pose proof (addBiometric_outcome Fixture.utc env Handset.capable []
                (Fingerprints.initial (Hook.initial []))
                "https://api.example/api/biometrics" "bio_1715331600000_k3x9qk3x9q"
                "Fingerprint 1" "Bearer token-1" (Fingerprints.Fulfilled (Some Handset.added))
                Hin (fun _ => eq_refl)) as H.
  destruct H as (H & _).
  destruct (H Handset.added _ eq_refl eq_refl) as (Hlist & _ & Halerts & _).
  split; [unfold r; rewrite Hlist; reflexivity | exact Halerts].
Defined.

(** X26 with a token: switching on without a fingerprint sends nothing,
    switching off is sent. *)
Lemma toggleBiometricsEnabled_guard_witness :
  let env := Handset.env (Scenes.hookEnv true true (Rejected {| responseError := None |}))
               (Resolved true) (Fingerprints.Fulfilled "token-1")
               (Fingerprints.Fulfilled (Handset.switchedTo false))
               (Fingerprints.Failed Handset.unreachable) in
  let st := Fingerprints.initial (Hook.initial []) in
  Fingerprints.alerts
    (Tree.trace (Fingerprints.exec env (Fingerprints.toggleBiometricsEnabled Fixture.utc [] true) st))
  = [("Error", "You must add at least one fingerprint before enabling biometric authentication")] /\
  Fingerprints.puts
    (Tree.trace (Fingerprints.exec env (Fingerprints.toggleBiometricsEnabled Fixture.utc [] false) st))
  = [("https://api.example/api/biometrics/toggle", false)].
Proof.
  intros env st.
  pose proof (toggleBiometricsEnabled_guard Fixture.utc env st []) as H.
  destruct H as (_ & _ & _ & _ & _ & H).
  destruct (H (fun _ => ex_intro _ "token-1" eq_refl)) as (Ha & Hp & _).
  split; [exact Ha | exact Hp].
Defined.

(** X27 on a handset whose storage fails: the backend switched the
    preference on, and success is reported. *)
Lemma toggleBiometricsEnabled_outcome_witness :
  let env := Handset.env Handset.brokenStorage (Resolved true) (Fingerprints.Fulfilled "token-1")
               (Fingerprints.Fulfilled (Handset.switchedTo true))
               (Fingerprints.Failed Handset.unreachable) in
  let st := Fingerprints.initial (Hook.initial []) in
  let r := Fingerprints.exec env
             (Fingerprints.toggleBiometricsEnabled Fixture.utc
                [Fingerprints.toRecord
                   {| Fingerprints.Backend.biometricId := "bio_1";
                      Fingerprints.Backend.name := "Fingerprint 1";
                      Fingerprints.Backend.createdAt := "2024-05-10T09:00:00.000Z" |}]
                true) st in
  Fingerprints.alerts (Tree.trace r)
  = [("Success", "Biometric authentication enabled successfully")] /\
  Hook.storage (Fingerprints.hookCells (Tree.state r)) = [] /\
  enabled (Hook.biometricStatus (Fingerprints.hookCells (Tree.state r))) = false.
Proof.
  intros env st r.
  pose proof (toggleBiometricsEnabled_outcome Fixture.utc env
                [Fingerprints.toRecord
                   {| Fingerprints.Backend.biometricId := "bio_1";
                      Fingerprints.Backend.name := "Fingerprint 1";
                      Fingerprints.Backend.createdAt := "2024-05-10T09:00:00.000Z" |}]
                true st) as H.
  destruct H as (_ & _ & H).
  destruct (H "token-1" (fun _ => eq_refl) eq_refl) as (H1 & _).
  destruct (H1 (Handset.switchedTo true) (fun _ => eq_refl)) as (_ & Ha & _).
  split; [exact Ha|]. split; vm_compute; reflexivity.
Defined.

(** X28 on a capable device whose storage fails: the screen says that
    biometrics are not available. *)
Lemma status_message_after_check_witness :
  StatusScreen.shown
    (Tree.state (Hook.exec Handset.brokenStorage (Hook.checkBiometricStatus Fixture.utc)
                   (Hook.initial [])))
  = "Biometric authentication is not available on this device.".
Proof.
  pose proof (status_message_after_check Fixture.utc Handset.brokenStorage []) as H.
  destruct H as (_ & _ & H).
  exact (H (fun _ _ => ex_intro _ {| responseError := None |} eq_refl)).
Defined.
